(** * Work-item lifecycle, audit trail and time tracking

    A shallow embedding of the order data-access module (lib/orders), of the
    lead kanban board (LeadKanban) and of the worker schedule page
    (WorkerSchedule), followed by the properties of the lifecycle
    specification that concern them.

    The Supabase client is an external collaborator: its tables are modelled
    as finite maps and append-only lists, and the outcome of every remote
    call that the code inspects is a field of a [Backend] record. *)

From Stdlib Require Import ZArith Floats.SpecFloat.
From stdpp Require Import gmap strings list fin_maps pretty.
Open Scope string_scope.

(** ** JavaScript conventions shared by the three source files *)

(** Truthiness of a string: every string but the empty one. *)
Definition truthy (s : string) : bool := negb (String.eqb s EmptyString).

(** Truthiness of a nullable string: [null] and the empty string are falsy. *)
Definition truthy_opt (o : option string) : bool :=
  match o with
  | Some s => truthy s
  | None => false
  end.

(** [x || undefined] on a nullable string. *)
Definition or_undefined (o : option string) : option string :=
  if truthy_opt o then o else None.

(** [x || null] on a string taken from a form control. *)
Definition or_null (s : string) : option string :=
  if truthy s then Some s else None.

(** A value interpolated in a template literal; a missing property prints
    as the word undefined. *)
Definition interpolate (o : option string) : string := default "undefined" o.

(** The members an object literal inherits from [Object.prototype], each
    with what a template literal prints for it: a built-in function as V8
    prints it (the text of a built-in function is implementation-defined),
    [__proto__] as the prototype object. *)
Definition Object_prototype : list (string * string) :=
  [("constructor", "function Object() { [native code] }");
   ("__defineGetter__", "function __defineGetter__() { [native code] }");
   ("__defineSetter__", "function __defineSetter__() { [native code] }");
   ("hasOwnProperty", "function hasOwnProperty() { [native code] }");
   ("__lookupGetter__", "function __lookupGetter__() { [native code] }");
   ("__lookupSetter__", "function __lookupSetter__() { [native code] }");
   ("isPrototypeOf", "function isPrototypeOf() { [native code] }");
   ("propertyIsEnumerable", "function propertyIsEnumerable() { [native code] }");
   ("toString", "function toString() { [native code] }");
   ("valueOf", "function valueOf() { [native code] }");
   ("__proto__", "[object Object]");
   ("toLocaleString", "function toLocaleString() { [native code] }")].

(** The member of [Object.prototype] named [key], as it prints. *)
Definition inherited (key : string) : option string :=
  snd <$> List.find (fun member => String.eqb (fst member) key) Object_prototype.

(** [object[key]] on an object literal whose own properties are strings: the
    own property, else the member inherited from [Object.prototype], else
    [undefined]. An inherited member is kept as it prints. *)
Definition property (object : gmap string string) (key : string) : option string :=
  match object !! key with
  | Some v => Some v
  | None => inherited key
  end.

(** A JavaScript number: an IEEE 754 binary64 value, with the arithmetic of
    the standard (rounding to nearest, ties to even). *)
Definition number : Type := spec_float.

(** [a + b] *)
Definition add (a b : number) : number := SFadd 53 1024 a b.

(** [a / b] *)
Definition divide (a b : number) : number := SFdiv 53 1024 a b.

(** The number an integer denotes: exact below 2^53, rounded above. *)
Definition integer (z : Z) : number := binary_normalize 53 1024 z 0 false.

(** [value || 0] on a nullable number: [null], 0, -0 and NaN are falsy. *)
Definition or_zero (v : option number) : number :=
  match v with
  | Some (S754_finite s m e) => S754_finite s m e
  | Some (S754_infinity s) => S754_infinity s
  | Some (S754_zero _) | Some S754_nan | None => integer 0
  end.

(** The JavaScript [Error] object, reduced to its message. *)
Record Error := mkError { message : string }.

(** [new Error(error.message)] *)
Definition new_Error (e : Error) : Error := mkError (message e).

(** The [{ data, error }] pair every data-access function resolves to. *)
Record Result (A : Type) := mkResult { data : option A; error : option Error }.
Arguments mkResult {A} _ _.
Arguments data {A} _.
Arguments error {A} _.

Definition success {A} (a : A) : Result A := mkResult (Some a) None.
Definition failure {A} (e : Error) : Result A := mkResult None (Some e).

(** What awaiting a promise yields: a value, or a rejection that unwinds to
    the nearest [catch]. *)
Inductive Outcome (A : Type) :=
| Returned (a : A)
| Thrown (e : Error).
Arguments Returned {A} _.
Arguments Thrown {A} _.

(** The message of PostgREST when [.single()] does not find exactly one row. *)
Definition no_rows : Error :=
  mkError "JSON object requested, multiple (or no) rows returned".

(** The message of Postgres when a generated key is already taken. *)
Definition duplicate_key : Error :=
  mkError "duplicate key value violates unique constraint".

(** * lib/orders *)

Module Orders.

(** ** Rows *)

Record Order := mkOrder {
  id : string;
  organisation_id : string;
  title : string;
  status : string;
  value : option number;
  assigned_to_user_id : option string;
  assigned_to_team_id : option string;
}.

(** [Omit<Order, 'id' | 'created_at'>] *)
Record NewOrder := mkNewOrder {
  n_organisation_id : string;
  n_title : string;
  n_status : string;
  n_value : option number;
  n_assigned_to_user_id : option string;
  n_assigned_to_team_id : option string;
}.

(** [Partial<Order>]: an absent property is [None]; a nullable property that
    is present is [Some None] when it holds [null]. The primary key is never
    part of a patch. *)
Record OrderPatch := mkOrderPatch {
  p_title : option string;
  p_status : option string;
  p_value : option (option number);
  p_assigned_to_user_id : option (option string);
  p_assigned_to_team_id : option (option string);
}.

Record Team := mkTeam {
  team_id : string;
  team_name : string;
  team_members : list string;
}.

(** A team as the select lists of [createOrder] and [updateOrder] join it,
    [teams(id, name, ...)]: without its members. *)
Record TeamSummary := mkTeamSummary {
  summary_id : string;
  summary_name : string;
}.

Definition summary (t : Team) : TeamSummary := mkTeamSummary (team_id t) (team_name t).

(** The row joined with the relation the code reads: [assigned_team]. *)
Record OrderWithRelations := mkOrderWithRelations {
  row :> Order;
  assigned_team : option TeamSummary;
}.

(** The row as the select list of [getOrder] joins it: the team comes with
    its members as well. *)
Record OrderDetails := mkOrderDetails {
  relations :> OrderWithRelations;
  members : option (list string);
}.

Record OrderNote := mkOrderNote {
  note_order_id : string;
  note_user_id : string;
  note_content : string;
}.

Record OrderActivity := mkOrderActivity {
  order_id : string;
  user_id : option string;
  activity_type : string;
  description : string;
  old_value : option string;
  new_value : option string;
}.

(** ** Notifications

    lib/notifications is not among the sources. The three generators are
    kept as the constructors of the payload, holding exactly the arguments
    [updateOrder] passes. *)
Inductive Notification :=
| OrderAssignmentNotification (userId orderId orderTitle : string)
| StatusUpdateNotification (userId orderTitle : string)
    (oldLabel newLabel : option string) (link : string)
| TeamAssignmentNotification (teamId orderId orderTitle teamName : string)
    (excludeUserId : option string).

Definition generateOrderAssignmentNotification := OrderAssignmentNotification.
Definition generateStatusUpdateNotification := StatusUpdateNotification.
Definition generateTeamAssignmentNotification := TeamAssignmentNotification.

(** ** The store and its journal *)

(** One entry per completed side effect, oldest first. *)
Inductive Effect :=
| OrderInserted (orderId : string)
| OrderWritten (orderId : string)
| NoteInserted (n : OrderNote)
| ActivityAppended (a : OrderActivity)
| NotificationEnqueued (n : Notification).

Record World := mkWorld {
  orders : gmap string Order;
  teams : gmap string Team;
  order_notes : list OrderNote;
  order_activities : list OrderActivity;
  notifications : list Notification;
  console : list (string * Error);
  trace : list Effect;
}.

Definition set_orders (f : gmap string Order -> gmap string Order) (w : World) : World :=
  mkWorld (f (orders w)) (teams w) (order_notes w) (order_activities w)
          (notifications w) (console w) (trace w).

Definition add_note (n : OrderNote) (w : World) : World :=
  mkWorld (orders w) (teams w) (order_notes w ++ [n]) (order_activities w)
          (notifications w) (console w) (trace w).

Definition add_activity (a : OrderActivity) (w : World) : World :=
  mkWorld (orders w) (teams w) (order_notes w) (order_activities w ++ [a])
          (notifications w) (console w) (trace w).

Definition add_notification (n : Notification) (w : World) : World :=
  mkWorld (orders w) (teams w) (order_notes w) (order_activities w)
          (notifications w ++ [n]) (console w) (trace w).

Definition add_console (label : string) (e : Error) (w : World) : World :=
  mkWorld (orders w) (teams w) (order_notes w) (order_activities w)
          (notifications w) (console w ++ [(label, e)]) (trace w).

Definition record_effect (e : Effect) (w : World) : World :=
  mkWorld (orders w) (teams w) (order_notes w) (order_activities w)
          (notifications w) (console w) (trace w ++ [e]).

(** ** Outcomes of the remote calls *)

(** What [await createNotification(...)] can do: resolve with the stored
    notification, resolve with an error object, or reject. *)
Inductive NotifyOutcome :=
| Delivered
| DeliveryError (e : Error)
| DeliveryThrows (e : Error).

Record Backend := mkBackend {
  select_error : option Error;
  update_error : option Error;
  insert_error : option Error;
  note_error : option Error;
  activity_error : option Error;
  generated_id : string;
  notify : NotifyOutcome;
}.

(** ** Asynchronous computations: state passing with rejection *)

Definition Async (A : Type) : Type := World -> Outcome A * World.

Definition ret {A} (a : A) : Async A := fun w => (Returned a, w).

Definition bind {A B} (m : Async A) (k : A -> Async B) : Async B :=
  fun w =>
    match m w with
    | (Returned a, w') => k a w'
    | (Thrown e, w') => (Thrown e, w')
    end.

(** [try { m } catch (err) { h err }]; effects done before the rejection stay. *)
Definition try_catch {A} (m : Async A) (h : Error -> Async A) : Async A :=
  fun w =>
    match m w with
    | (Returned a, w') => (Returned a, w')
    | (Thrown e, w') => h e w'
    end.

Notation "'await' x <- m ; k" := (bind m (fun x => k))
  (at level 10, x name, m at level 100, k at level 200).
Notation "'perform' m ; k" := (bind m (fun _ => k))
  (at level 10, m at level 100, k at level 200).

Definition when (b : bool) (m : Async unit) : Async unit :=
  if b then m else ret tt.

Definition console_error (label : string) (e : Error) : Async unit :=
  fun w => (Returned tt, add_console label e w).

(** ** Table access *)

(** The [assigned_team:teams(...)] join of the select lists of [createOrder]
    and [updateOrder]. *)
Definition with_relations (w : World) (o : Order) : OrderWithRelations :=
  mkOrderWithRelations o (summary <$> (assigned_to_team_id o ≫= λ t, teams w !! t)).

(** The join of the select list of [getOrder], which also asks for
    [members:team_members(...)]. *)
Definition with_details (w : World) (o : Order) : OrderDetails :=
  mkOrderDetails (with_relations w o)
    (team_members <$> (assigned_to_team_id o ≫= λ t, teams w !! t)).

(** [.from('orders').select('*').eq('id', id).single()] *)
Definition select_order (be : Backend) (orderId : string) : Async (Result Order) :=
  fun w =>
    match select_error be with
    | Some e => (Returned (failure e), w)
    | None =>
        match orders w !! orderId with
        | Some o => (Returned (success o), w)
        | None => (Returned (failure no_rows), w)
        end
    end.

Definition patch (updates : OrderPatch) (o : Order) : Order :=
  mkOrder (id o) (organisation_id o)
    (default (title o) (p_title updates))
    (default (status o) (p_status updates))
    (default (value o) (p_value updates))
    (default (assigned_to_user_id o) (p_assigned_to_user_id updates))
    (default (assigned_to_team_id o) (p_assigned_to_team_id updates)).

(** [.from('orders').update(updates).eq('id', id).select(...).single()] *)
Definition update_order (be : Backend) (orderId : string) (updates : OrderPatch)
  : Async (Result OrderWithRelations) :=
  fun w =>
    match update_error be with
    | Some e => (Returned (failure e), w)
    | None =>
        match orders w !! orderId with
        | Some o =>
            let w' := record_effect (OrderWritten orderId)
                        (set_orders (insert orderId (patch updates o)) w) in
            (Returned (success (with_relations w' (patch updates o))), w')
        | None => (Returned (failure no_rows), w)
        end
    end.

Definition to_row (orderId : string) (n : NewOrder) : Order :=
  mkOrder orderId (n_organisation_id n) (n_title n) (n_status n) (n_value n)
    (n_assigned_to_user_id n) (n_assigned_to_team_id n).

(** [.from('orders').insert([order]).select(...).single()] *)
Definition insert_order (be : Backend) (n : NewOrder) : Async (Result OrderWithRelations) :=
  fun w =>
    match insert_error be with
    | Some e => (Returned (failure e), w)
    | None =>
        match orders w !! generated_id be with
        | Some _ => (Returned (failure duplicate_key), w)
        | None =>
            let o := to_row (generated_id be) n in
            let w' := record_effect (OrderInserted (id o))
                        (set_orders (insert (id o) o) w) in
            (Returned (success (with_relations w' o)), w')
        end
    end.

(** [.from('order_notes').insert([note]).select(...).single()] *)
Definition insert_note (be : Backend) (n : OrderNote) : Async (Result OrderNote) :=
  fun w =>
    match note_error be with
    | Some e => (Returned (failure e), w)
    | None => (Returned (success n), record_effect (NoteInserted n) (add_note n w))
    end.

(** [.from('order_activities').insert([...]).select(...).single()] *)
Definition insert_activity (be : Backend) (a : OrderActivity) : Async (Result OrderActivity) :=
  fun w =>
    match activity_error be with
    | Some e => (Returned (failure e), w)
    | None => (Returned (success a), record_effect (ActivityAppended a) (add_activity a w))
    end.

(** [createNotification] of lib/notifications, which is not among the
    sources: its outcome is the [notify] field of the backend. *)
Definition createNotification (be : Backend) (n : Notification) : Async (Result Notification) :=
  fun w =>
    match notify be with
    | Delivered =>
        (Returned (success n), record_effect (NotificationEnqueued n) (add_notification n w))
    | DeliveryError e => (Returned (failure e), w)
    | DeliveryThrows e => (Thrown e, w)
    end.

(** ** Order activities operations *)

Definition createOrderActivity (be : Backend) (orderId : string) (userId : option string)
    (activityType description : string) (oldValue newValue : option string)
  : Async (Result OrderActivity) :=
  try_catch
    (await r <- insert_activity be
        (mkOrderActivity orderId userId activityType description oldValue newValue);
     match error r with
     | Some e => ret (mkResult None (Some (new_Error e)))
     | None => ret (mkResult (data r) None)
     end)
    (fun err =>
       perform console_error "Error creating order activity:" err;
       ret (mkResult None (Some err))).

(** ** Database operations *)

Definition getOrder (be : Backend) (orderId : string) : Async (Result OrderDetails) :=
  try_catch
    (await r <- select_order be orderId;
     match error r with
     | Some e => ret (mkResult None (Some (new_Error e)))
     | None => fun w => (Returned (mkResult (with_details w <$> data r) None), w)
     end)
    (fun err =>
       perform console_error "Error fetching order:" err;
       ret (mkResult None (Some err))).

Definition createOrder (be : Backend) (order : NewOrder) : Async (Result OrderWithRelations) :=
  try_catch
    (await r <- insert_order be order;
     match error r with
     | Some e => ret (mkResult None (Some (new_Error e)))
     | None =>
         perform
           match data r with
           | Some d =>
               perform createOrderActivity be (id d) None "created" "Order skapad" None None;
               ret tt
           | None => ret tt
           end;
         ret (mkResult (data r) None)
     end)
    (fun err =>
       perform console_error "Error creating order:" err;
       ret (mkResult None (Some err))).

(** ** Order notes operations *)

Definition createOrderNote (be : Backend) (note : OrderNote) : Async (Result OrderNote) :=
  try_catch
    (await r <- insert_note be note;
     match error r with
     | Some e => ret (mkResult None (Some (new_Error e)))
     | None =>
         perform createOrderActivity be (note_order_id note) (Some (note_user_id note))
           "note_added" "Anteckning tillagd" None None;
         ret (mkResult (data r) None)
     end)
    (fun err =>
       perform console_error "Error creating order note:" err;
       ret (mkResult None (Some err))).

Section WithLabels.

(** [ORDER_STATUS_LABELS] of types/database, which is not among the sources:
    an object from status to Swedish label, taken as a parameter. *)
Variable ORDER_STATUS_LABELS : gmap string string.

(** ** Notification helpers *)

Definition createStatusChangeNotification (be : Backend)
    (userId orderId orderTitle oldStatus newStatus : string) : Async unit :=
  try_catch
    (let notification :=
       generateStatusUpdateNotification userId orderTitle
         (property ORDER_STATUS_LABELS oldStatus)
         (property ORDER_STATUS_LABELS newStatus)
         ("/ordrar?highlight=" ++ orderId) in
     perform createNotification be notification;
     ret tt)
    (fun err => console_error "Error creating status change notification:" err).

(** [updates.status && updates.status !== currentOrder.status] *)
Definition status_changes (updates : OrderPatch) (currentOrder : Order) : option string :=
  match p_status updates with
  | Some s => if truthy s && negb (bool_decide (s = status currentOrder)) then Some s else None
  | None => None
  end.

(** [updates.assigned_to_user_id !== undefined &&
     updates.assigned_to_user_id !== currentOrder.assigned_to_user_id] *)
Definition user_changes (updates : OrderPatch) (currentOrder : Order) : option (option string) :=
  match p_assigned_to_user_id updates with
  | Some u => if bool_decide (u = assigned_to_user_id currentOrder) then None else Some u
  | None => None
  end.

(** [updates.assigned_to_team_id !== undefined &&
     updates.assigned_to_team_id !== currentOrder.assigned_to_team_id] *)
Definition team_changes (updates : OrderPatch) (currentOrder : Order) : option (option string) :=
  match p_assigned_to_team_id updates with
  | Some t => if bool_decide (t = assigned_to_team_id currentOrder) then None else Some t
  | None => None
  end.

(** The first block of the activity logging of [updateOrder]. *)
Definition log_status_change (be : Backend) (orderId : string) (updates : OrderPatch)
    (d : OrderWithRelations) (currentOrder : Order) : Async unit :=
  match status_changes updates currentOrder with
  | Some newStatus =>
      perform
        match assigned_to_user_id d with
        | Some u =>
            when (truthy u)
              (createStatusChangeNotification be u (id d) (title d)
                 (status currentOrder) newStatus)
        | None => ret tt
        end;
      perform createOrderActivity be orderId None "status_changed"
        ("Status ändrad från " ++ interpolate (property ORDER_STATUS_LABELS (status currentOrder))
           ++ " till " ++ interpolate (property ORDER_STATUS_LABELS newStatus))
        (Some (status currentOrder)) (Some newStatus);
      ret tt
  | None => ret tt
  end.

(** The second block: assignment to a user. *)
Definition log_user_assignment (be : Backend) (orderId : string) (updates : OrderPatch)
    (d : OrderWithRelations) (currentOrder : Order) : Async unit :=
  match user_changes updates currentOrder with
  | Some u =>
      perform
        match u with
        | Some userId =>
            if truthy userId then
              let notification :=
                generateOrderAssignmentNotification userId (id d) (title d) in
              perform createNotification be notification;
              ret tt
            else ret tt
        | None => ret tt
        end;
      perform createOrderActivity be orderId None "assigned"
        (if truthy_opt u then "Order tilldelad" else "Tilldelning borttagen")
        None None;
      ret tt
  | None => ret tt
  end.

(** The third block: assignment to a team. *)
Definition log_team_assignment (be : Backend) (orderId : string) (updates : OrderPatch)
    (d : OrderWithRelations) (currentOrder : Order) : Async unit :=
  match team_changes updates currentOrder with
  | Some t =>
      perform
        match t, assigned_team d with
        | Some teamId, Some team =>
            if truthy teamId then
              let teamNotification :=
                generateTeamAssignmentNotification teamId (id d) (title d)
                  (summary_name team)
                  (or_undefined (assigned_to_user_id currentOrder)) in
              perform createNotification be teamNotification;
              ret tt
            else ret tt
        | _, _ => ret tt
        end;
      perform createOrderActivity be orderId None "team_assigned"
        (if truthy_opt t
         then "Order tilldelad till team: " ++ interpolate (summary_name <$> assigned_team d)
         else "Team-tilldelning borttagen")
        None None;
      ret tt
  | None => ret tt
  end.

(** [if (data && currentOrder) { ... }]: the three blocks in turn. *)
Definition log_changes (be : Backend) (orderId : string) (updates : OrderPatch)
    (d : option OrderWithRelations) (current : option Order) : Async unit :=
  match d, current with
  | Some d, Some currentOrder =>
      perform log_status_change be orderId updates d currentOrder;
      perform log_user_assignment be orderId updates d currentOrder;
      log_team_assignment be orderId updates d currentOrder
  | _, _ => ret tt
  end.

Definition updateOrder (be : Backend) (orderId : string) (updates : OrderPatch)
  : Async (Result OrderWithRelations) :=
  try_catch
    (await current <- select_order be orderId;
     await r <- update_order be orderId updates;
     match error r with
     | Some e => ret (mkResult None (Some (new_Error e)))
     | None =>
         perform log_changes be orderId updates (data r) (data current);
         ret (mkResult (data r) None)
     end)
    (fun err =>
       perform console_error "Error updating order:" err;
       ret (mkResult None (Some err))).

End WithLabels.

(** ** Statistics and analytics *)

Record OrderStats := mkOrderStats {
  totalOrders : nat;
  totalValue : number;
  averageValue : number;
  statusBreakdown : gmap string nat;
  recentOrders : list Order;
}.

(** [orders.reduce((sum, order) => sum + (order.value || 0), 0)] *)
Definition sum_values (orders : list Order) : number :=
  fold_left (fun sum order => add sum (or_zero (value order))) orders (integer 0).

(** [orders.reduce((acc, order) => { acc[order.status] = (acc[order.status] || 0) + 1; return acc }, {})] *)
Definition count_statuses (orders : list Order) : gmap string nat :=
  fold_left (fun acc order => <[status order := default 0 (acc !! status order) + 1]> acc)
    orders ∅.

(** [getOrderStats] from the point where the query has resolved; [response]
    is what the filtered, ordered select on the orders table resolved to. *)
Definition getOrderStats (response : Result (list Order)) : Result OrderStats :=
  match error response with
  | Some e => mkResult None (Some (new_Error e))
  | None =>
      let orders := default [] (data response) in
      let totalOrders := length orders in
      let totalValue := sum_values orders in
      let averageValue :=
        if bool_decide (0 < totalOrders)
        then divide totalValue (integer (Z.of_nat totalOrders))
        else integer 0 in
      let statusBreakdown := count_statuses orders in
      let recentOrders := take 5 orders in
      mkResult
        (Some (mkOrderStats totalOrders totalValue averageValue statusBreakdown recentOrders))
        None
  end.

(** ** Utility functions *)


Definition getOrdersForUser (orders : list Order) (userId : string) : list Order :=
  filter (fun order => assigned_to_user_id order = Some userId) orders.

(** ** Who a notification reaches

    Modelled from the spec: lib/notifications is not among the sources. A
    notification generated for one user is addressed to that user; a team
    notification goes to all team members except the user handed to the
    generator as the one to exclude (spec 4.2). *)
Definition recipients (w : World) (n : Notification) : list string :=
  match n with
  | OrderAssignmentNotification userId _ _ => [userId]
  | StatusUpdateNotification userId _ _ _ _ => [userId]
  | TeamAssignmentNotification teamId _ _ _ excludeUserId =>
      match teams w !! teamId with
      | Some team => filter (fun member => Some member ≠ excludeUserId) (team_members team)
      | None => []
      end
  end.

(** ** Requests of the lifecycle engine as patches *)

(** [updateOrder(id, { status })] *)
Definition status_patch (s : string) : OrderPatch :=
  mkOrderPatch None (Some s) None None None.

(** [updateOrder(id, { assigned_to_user_id })] *)
Definition user_patch (u : option string) : OrderPatch :=
  mkOrderPatch None None None (Some u) None.

(** [updateOrder(id, { assigned_to_team_id })] *)
Definition team_patch (t : option string) : OrderPatch :=
  mkOrderPatch None None None None (Some t).

(** The operations of the module that write to the store. *)
Inductive Operation :=
| CreateOrder (order : NewOrder)
| UpdateOrder (orderId : string) (updates : OrderPatch)
| CreateOrderNote (note : OrderNote).

Definition run (labels : gmap string string) (be : Backend) (op : Operation) (w : World) : World :=
  match op with
  | CreateOrder order => (createOrder be order w).2
  | UpdateOrder orderId updates => (updateOrder labels be orderId updates w).2
  | CreateOrderNote note => (createOrderNote be note w).2
  end.

(** ** Reads of the audit trail and of the notes, and deletion *)

(** [getOrderActivities]: the activities of one order, newest first. The
    table is kept in insertion order, which is the order of [created_at]. *)
Definition getOrderActivities (be : Backend) (orderId : string)
  : Async (Result (list OrderActivity)) :=
  try_catch
    (fun w =>
       match select_error be with
       | Some e => (Returned (mkResult None (Some (new_Error e))), w)
       | None =>
           (Returned
              (mkResult
                 (Some (rev (filter (fun a => order_id a = orderId) (order_activities w))))
                 None), w)
       end)
    (fun err =>
       perform console_error "Error fetching order activities:" err;
       ret (mkResult None (Some err))).

(** [getOrderNotes]: the notes of one order, newest first. *)
Definition getOrderNotes (be : Backend) (orderId : string)
  : Async (Result (list OrderNote)) :=
  try_catch
    (fun w =>
       match select_error be with
       | Some e => (Returned (mkResult None (Some (new_Error e))), w)
       | None =>
           (Returned
              (mkResult
                 (Some (rev (filter (fun n => note_order_id n = orderId) (order_notes w))))
                 None), w)
       end)
    (fun err =>
       perform console_error "Error fetching order notes:" err;
       ret (mkResult None (Some err))).

(** [deleteOrder]: [.from('orders').delete().eq('id', id)], resolving to
    [{ error }]. [rejected] is the error of the store, if it turns the call
    down; a delete that matches no row is no error. The journal has no entry
    for a deletion. *)
Definition deleteOrder (rejected : option Error) (orderId : string) : Async (option Error) :=
  try_catch
    (fun w =>
       match rejected with
       | Some e => (Returned (Some (new_Error e)), w)
       | None => (Returned None, set_orders (delete orderId) w)
       end)
    (fun err =>
       perform console_error "Error deleting order:" err;
       ret (Some err)).

(** ** Vocabulary of the properties *)

(** The store after [.update(updates)] went through on the row [o]. *)
Definition written (orderId : string) (updates : OrderPatch) (o : Order) (w : World) : World :=
  record_effect (OrderWritten orderId) (set_orders (insert orderId (patch updates o)) w).

(** The notification step of a transition of the row [o] to status [s]. *)
Definition notify_assignee (labels : gmap string string) (be : Backend)
    (o : Order) (s : string) : Async unit :=
  match assigned_to_user_id o with
  | Some u =>
      when (truthy u) (createStatusChangeNotification labels be u (id o) (title o) (status o) s)
  | None => ret tt
  end.

(** The notification a transition of the row [o] to status [s] asks for. *)
Definition status_notification (labels : gmap string string) (o : Order) (s : string)
  : option Notification :=
  match assigned_to_user_id o with
  | Some u =>
      if truthy u
      then Some (StatusUpdateNotification u (title o) (property labels (status o)) (property labels s)
                   ("/ordrar?highlight=" ++ id o))
      else None
  | None => None
  end.

(** The activity a transition of the row [o] to status [s] appends. *)
Definition status_activity (labels : gmap string string) (orderId : string)
    (o : Order) (s : string) : OrderActivity :=
  mkOrderActivity orderId None "status_changed"
    ("Status ändrad från " ++ interpolate (property labels (status o))
       ++ " till " ++ interpolate (property labels s))
    (Some (status o)) (Some s).

Definition is_write (e : Effect) : bool :=
  match e with OrderWritten _ => true | _ => false end.

Definition is_activity (e : Effect) : bool :=
  match e with ActivityAppended _ => true | _ => false end.

Definition is_notification (e : Effect) : bool :=
  match e with NotificationEnqueued _ => true | _ => false end.

(** Position of the first entry of a journal that satisfies [p]. *)
Fixpoint position (p : Effect -> bool) (tr : list Effect) : option nat :=
  match tr with
  | [] => None
  | e :: tr' => if p e then Some 0 else S <$> position p tr'
  end.

(** Write, then activity, then notification. *)
Definition write_activity_notification (tr : list Effect) : Prop :=
  exists i j k,
    position is_write tr = Some i /\ position is_activity tr = Some j /\
    position is_notification tr = Some k /\ i < j /\ j < k.

(** Write, then notification, then activity. *)
Definition write_notification_activity (tr : list Effect) : Prop :=
  exists i j k,
    position is_write tr = Some i /\ position is_notification tr = Some j /\
    position is_activity tr = Some k /\ i < j /\ j < k.

(** The activity kinds of the data model. *)
Definition activity_kinds : list string :=
  ["created"; "status_changed"; "assigned"; "team_assigned"; "note_added";
   "converted"; "custom"].

(** The kinds lib/orders writes. *)
Definition order_kinds : list string :=
  ["created"; "status_changed"; "assigned"; "team_assigned"; "note_added"].

Definition order_kind (ty : string) : Prop := ty ∈ order_kinds.

(** The audit log of [w'] is that of [w] followed by activities whose kind
    satisfies [P]. *)
Definition appends (P : string -> Prop) (w w' : World) : Prop :=
  exists added,
    order_activities w' = (order_activities w ++ added)%list /\
    Forall (fun a => P (activity_type a)) added.

(** Every run of [m] relates the store before to the store after. *)
Definition always {A} (R : World -> World -> Prop) (m : Async A) : Prop :=
  forall w, R w (m w).2.

(** The running sum of the order values from [sum] on, first order first,
    every addition rounded; a value that is missing, zero or NaN counts as
    0. *)
Fixpoint running_sum (sum : number) (orders : list Order) : number :=
  match orders with
  | [] => sum
  | order :: rest => running_sum (add sum (or_zero (value order))) rest
  end.

Definition total_value (orders : list Order) : number := running_sum (integer 0) orders.

(** The order with a missing value written out as 0. *)
Definition with_null_as_zero (o : Order) : Order :=
  mkOrder (id o) (organisation_id o) (title o) (status o)
    (Some (default (integer 0) (value o)))
    (assigned_to_user_id o) (assigned_to_team_id o).

(** The teams, the set of order ids and every order but [orderId] are the
    same in [w'] as in [w]. *)
Definition other_rows_kept (orderId : string) (w w' : World) : Prop :=
  teams w' = teams w /\
  dom (orders w') = dom (orders w) /\
  forall j, j <> orderId -> orders w' !! j = orders w !! j.

(** The call resolved, with either the data or the error and not both. *)
Definition answered {A} (out : Outcome (Result A)) : Prop :=
  match out with
  | Returned r =>
      (is_Some (data r) /\ error r = None) \/ (data r = None /\ is_Some (error r))
  | Thrown _ => False
  end.


End Orders.

(** * components/LeadKanban *)

Module LeadKanban.

(** [LeadStatus], read off the columns of the board and the label table of
    [handleStatusChange]. *)
Inductive LeadStatus := new | contacted | qualified | won | lost.

#[global] Instance LeadStatus_eq_dec : EqDecision LeadStatus.
Proof. solve_decision. Defined.

Record UserProfile := mkUserProfile {
  profile_id : string;
  full_name : string;
}.

Record Lead := mkLead {
  id : string;
  title : string;
  status : LeadStatus;
  assigned_to_user_id : option string;
}.

Record LeadWithRelations := mkLeadWithRelations {
  row :> Lead;
  assigned_to : option UserProfile;
}.

(** The two patches the board sends: [{ status }] and
    [{ assigned_to_user_id }]. *)
Record LeadPatch := mkLeadPatch {
  p_status : option LeadStatus;
  p_assigned_to_user_id : option (option string);
}.

Record LeadNote := mkLeadNote {
  note_lead_id : string;
  note_user_id : string;
  note_content : string;
}.

Record LeadActivity := mkLeadActivity {
  lead_id : string;
  user_id : option string;
  activity_type : string;
  description : string;
  old_value : option string;
  new_value : option string;
}.

(** ** lib/database *)

Record Db := mkDb {
  lead_rows : gmap string Lead;
  lead_notes : list LeadNote;
  lead_activities : list LeadActivity;
}.

Record Backend := mkBackend {
  update_error : option Error;
  note_error : option Error;
  activity_error : option Error;
  notes_read_error : option Error;
  activities_read_error : option Error;
}.

Definition patch (updates : LeadPatch) (l : Lead) : Lead :=
  mkLead (id l) (title l)
    (default (status l) (p_status updates))
    (default (assigned_to_user_id l) (p_assigned_to_user_id updates)).

(** Modelled from the spec: [updateLead] of lib/database is not among the
    sources. It is the record store's [update(kind, id, patch)], returning
    the record or a structured error (spec 6); it appends no activity, the
    board does that itself after the call. *)
Definition updateLead (be : Backend) (leadId : string) (updates : LeadPatch) (db : Db)
  : Result Lead * Db :=
  match update_error be with
  | Some e => (failure e, db)
  | None =>
      match lead_rows db !! leadId with
      | Some l =>
          (success (patch updates l),
           mkDb (<[leadId := patch updates l]> (lead_rows db)) (lead_notes db)
                (lead_activities db))
      | None => (failure no_rows, db)
      end
  end.

(** Modelled from the spec: [createLeadActivity] of lib/database is not among
    the sources. It is the audit log's [append(activity)] (spec 4.3); the
    four arguments of the calls fill the lead, the acting user, the kind and
    the description, and no old or new value is passed. *)
Definition createLeadActivity (be : Backend) (leadId : string) (userId : option string)
    (activityType description : string) (db : Db) : Result LeadActivity * Db :=
  match activity_error be with
  | Some e => (failure e, db)
  | None =>
      let a := mkLeadActivity leadId userId activityType description None None in
      (success a, mkDb (lead_rows db) (lead_notes db) (lead_activities db ++ [a]))
  end.

(** Modelled from the spec: [createLeadNote] of lib/database is not among the
    sources. It inserts the note and returns it or a structured error. *)
Definition createLeadNote (be : Backend) (leadId userId content : string) (db : Db)
  : Result LeadNote * Db :=
  match note_error be with
  | Some e => (failure e, db)
  | None =>
      let n := mkLeadNote leadId userId content in
      (success n, mkDb (lead_rows db) (lead_notes db ++ [n]) (lead_activities db))
  end.

(** Modelled from the spec: [getLeadNotes] of lib/database is not among the
    sources. It lists the notes of one lead, newest first, or returns a
    structured error. The table is kept in insertion order. *)
Definition getLeadNotes (be : Backend) (leadId : string) (db : Db) : Result (list LeadNote) :=
  match notes_read_error be with
  | Some e => failure e
  | None =>
      success (rev (List.filter (fun n => bool_decide (note_lead_id n = leadId))
                      (lead_notes db)))
  end.

(** Modelled from the spec: [getLeadActivities] of lib/database is not among
    the sources. It is the audit log's [listForWorkItem(workItemId)], an
    ordered sequence of activities, newest first (spec 4.3), or a structured
    error. *)
Definition getLeadActivities (be : Backend) (leadId : string) (db : Db)
  : Result (list LeadActivity) :=
  match activities_read_error be with
  | Some e => failure e
  | None =>
      success (rev (List.filter (fun a => bool_decide (lead_id a = leadId))
                      (lead_activities db)))
  end.

(** ** State of the component *)

Inductive Toast :=
| ToastSuccess (heading body : string)
| ToastError (heading body : string).

(** The hooks that bear on the store; modal, filter and spinner flags are
    left out. *)
Record State := mkState {
  user : option UserProfile;
  leads : list LeadWithRelations;
  teamMembers : list UserProfile;
  selectedLead : option LeadWithRelations;
  draggedLead : option LeadWithRelations;
  newNote : string;
  leadNotes : list LeadNote;
  leadActivities : list LeadActivity;
  toasts : list Toast;
}.

Definition setLeads (f : list LeadWithRelations -> list LeadWithRelations) (st : State) : State :=
  mkState (user st) (f (leads st)) (teamMembers st) (selectedLead st) (draggedLead st)
          (newNote st) (leadNotes st) (leadActivities st) (toasts st).

Definition setSelectedLead (f : option LeadWithRelations -> option LeadWithRelations)
    (st : State) : State :=
  mkState (user st) (leads st) (teamMembers st) (f (selectedLead st)) (draggedLead st)
          (newNote st) (leadNotes st) (leadActivities st) (toasts st).

Definition setDraggedLead (d : option LeadWithRelations) (st : State) : State :=
  mkState (user st) (leads st) (teamMembers st) (selectedLead st) d
          (newNote st) (leadNotes st) (leadActivities st) (toasts st).

Definition setNewNote (s : string) (st : State) : State :=
  mkState (user st) (leads st) (teamMembers st) (selectedLead st) (draggedLead st)
          s (leadNotes st) (leadActivities st) (toasts st).

Definition setLeadNotes (f : list LeadNote -> list LeadNote) (st : State) : State :=
  mkState (user st) (leads st) (teamMembers st) (selectedLead st) (draggedLead st)
          (newNote st) (f (leadNotes st)) (leadActivities st) (toasts st).

Definition setLeadActivities (f : list LeadActivity -> list LeadActivity) (st : State)
  : State :=
  mkState (user st) (leads st) (teamMembers st) (selectedLead st) (draggedLead st)
          (newNote st) (leadNotes st) (f (leadActivities st)) (toasts st).

Definition toast (t : Toast) (st : State) : State :=
  mkState (user st) (leads st) (teamMembers st) (selectedLead st) (draggedLead st)
          (newNote st) (leadNotes st) (leadActivities st) (toasts st ++ [t]).

Definition showError (heading body : string) : State -> State :=
  toast (ToastError heading body).

Definition showSuccess (heading body : string) : State -> State :=
  toast (ToastSuccess heading body).

(** [{ ...lead, status: newStatus }] *)
Definition with_status (s : LeadStatus) (l : LeadWithRelations) : LeadWithRelations :=
  mkLeadWithRelations (mkLead (id l) (title l) s (assigned_to_user_id l)) (assigned_to l).

(** [{ ...lead, assigned_to_user_id: ..., assigned_to: ... }] *)
Definition with_assignee (u : option string) (p : option UserProfile)
    (l : LeadWithRelations) : LeadWithRelations :=
  mkLeadWithRelations (mkLead (id l) (title l) (status l) u) p.

(** ** Handlers *)

(** The [statusLabels] object of [handleStatusChange]. *)
Definition statusLabels (s : LeadStatus) : string :=
  match s with
  | new => "Ny"
  | contacted => "Kontaktad"
  | qualified => "Kvalificerad"
  | won => "Vunnen"
  | lost => "Förlorad"
  end.

(** [loadLeadDetails]: the notes and the activities of the lead are read
    and each list the store returned replaces the one of the page. The
    handlers below start it without awaiting it; their result is the page
    once it has resolved. *)
Definition loadLeadDetails (be : Backend) (leadId : string) (st : State) (db : Db) : State :=
  let notesResult := getLeadNotes be leadId db in
  let activitiesResult := getLeadActivities be leadId db in
  let st1 :=
    match error notesResult with
    | Some _ => st
    | None => setLeadNotes (fun _ => default [] (data notesResult)) st
    end in
  match error activitiesResult with
  | Some _ => st1
  | None => setLeadActivities (fun _ => default [] (data activitiesResult)) st1
  end.

(** [if (selectedLead && selectedLead.id === leadId) loadLeadDetails(leadId)] *)
Definition reload_if_selected (be : Backend) (leadId : string) (st0 st : State) (db : Db)
  : State :=
  match selectedLead st0 with
  | Some sel => if bool_decide (id sel = leadId) then loadLeadDetails be leadId st db else st
  | None => st
  end.

Definition handleDragStart (lead : LeadWithRelations) (st : State) : State :=
  setDraggedLead (Some lead) st.

Definition handleStatusChange (be : Backend) (leadId : string)
    (newStatus oldStatus : LeadStatus) (st : State) (db : Db) : State * Db :=
  match user st with
  | None => (st, db)
  | Some u =>
      let description :=
        "Status ändrad från " ++ statusLabels oldStatus ++ " till " ++ statusLabels newStatus in
      let '(_, db') :=
        createLeadActivity be leadId (Some (profile_id u)) "status_change" description db in
      (reload_if_selected be leadId st st db', db')
  end.

Definition handleDrop (be : Backend) (newStatus : LeadStatus) (st : State) (db : Db)
  : State * Db :=
  match draggedLead st with
  | None => (setDraggedLead None st, db)
  | Some dragged =>
      if bool_decide (status dragged = newStatus) then (setDraggedLead None st, db)
      else
        let '(result, db1) :=
          updateLead be (id dragged) (mkLeadPatch (Some newStatus) None) db in
        match error result with
        | Some e =>
            (setDraggedLead None (showError "Uppdateringsfel" (message e) st), db1)
        | None =>
            let st1 :=
              setLeads
                (map (fun lead : LeadWithRelations =>
                        if bool_decide (id lead = id dragged)
                        then with_status newStatus lead else lead)) st in
            let '(st2, db2) :=
              handleStatusChange be (id dragged) newStatus (status dragged) st1 db1 in
            (setDraggedLead None st2, db2)
        end
  end.

(** [teamMembers.find(member => member.id === newAssignedUserId)], guarded
    by the truthiness of the identifier. *)
Definition find_member (st : State) (newAssignedUserId : string) : option UserProfile :=
  if truthy newAssignedUserId
  then List.find (fun member => bool_decide (profile_id member = newAssignedUserId))
         (teamMembers st)
  else None.

Definition handleAssignmentChange (be : Backend) (leadId newAssignedUserId : string)
    (st : State) (db : Db) : State * Db :=
  let '(result, db1) :=
    updateLead be leadId (mkLeadPatch None (Some (or_null newAssignedUserId))) db in
  match error result with
  | Some e => (showError "Tilldelningsfel" (message e) st, db1)
  | None =>
      let reassign :=
        with_assignee (or_null newAssignedUserId) (find_member st newAssignedUserId) in
      let st1 :=
        setLeads
          (map (fun lead : LeadWithRelations =>
                  if bool_decide (id lead = leadId) then reassign lead else lead)) st in
      let st2 :=
        match selectedLead st with
        | Some sel =>
            if bool_decide (id sel = leadId) then setSelectedLead (fmap reassign) st1 else st1
        | None => st1
        end in
      match user st with
      | Some u =>
          let assignedMember := find_member st newAssignedUserId in
          let description :=
            match assignedMember with
            | Some m => "Lead tilldelad till " ++ full_name m
            | None => "Lead-tilldelning borttagen"
            end in
          let '(_, db2) :=
            createLeadActivity be leadId (Some (profile_id u)) "assignment_change"
              description db1 in
          (showSuccess "Tilldelning uppdaterad"
             ("Lead tilldelad till "
                ++ default "ingen" (or_undefined (full_name <$> assignedMember)))
             (reload_if_selected be leadId st st2 db2),
           db2)
      | None => (st2, db1)
      end
  end.

Definition handleConvertToQuote (be : Backend) (st : State) (db : Db) : State * Db :=
  match selectedLead st, user st with
  | Some sel, Some u =>
      let '(_, db1) :=
        createLeadActivity be (id sel) (Some (profile_id u)) "converted_to_quote"
          "Lead konverterad till offert" db in
      let '(st2, db2) :=
        if bool_decide (status sel = qualified) then (st, db1)
        else
          let '(_, db') := updateLead be (id sel) (mkLeadPatch (Some qualified) None) db1 in
          (setSelectedLead (fmap (with_status qualified))
             (setLeads
                (map (fun lead : LeadWithRelations =>
                        if bool_decide (id lead = id sel)
                        then with_status qualified lead else lead)) st),
           db') in
      (showSuccess "Lead konverterad" "Lead har konverterats till offert"
         (loadLeadDetails be (id sel) st2 db2), db2)
  | _, _ => (st, db)
  end.

(** Strings are kept in UTF-8. The white space and line terminator
    characters of ECMAScript that take one byte are those of [Ascii.is_space]
    (U+0009 to U+000D and U+0020); the one of two bytes is U+00A0; those of
    three bytes are U+1680, U+2000 to U+200A, U+2028, U+2029, U+202F, U+205F,
    U+3000 and U+FEFF. *)
Definition is_space2 (a b : Ascii.ascii) : bool :=
  bool_decide (Ascii.nat_of_ascii a = 194) && bool_decide (Ascii.nat_of_ascii b = 160).

Definition is_space3 (a b c : Ascii.ascii) : bool :=
  let '(x, y, z) := (Ascii.nat_of_ascii a, Ascii.nat_of_ascii b, Ascii.nat_of_ascii c) in
  (bool_decide (x = 225) && bool_decide (y = 154) && bool_decide (z = 128))
  || (bool_decide (x = 226) && bool_decide (y = 128)
        && bool_decide (z ∈ [128; 129; 130; 131; 132; 133; 134; 135; 136; 137; 138;
                              168; 169; 175]))
  || (bool_decide (x = 226) && bool_decide (y = 129) && bool_decide (z = 159))
  || (bool_decide (x = 227) && bool_decide (y = 128) && bool_decide (z = 128))
  || (bool_decide (x = 239) && bool_decide (y = 187) && bool_decide (z = 191)).

(** The string without the white space it starts with; with [backwards] the
    string is read from its end, every character with its bytes reversed. *)
Fixpoint strip (backwards : bool) (s : string) : string :=
  match s with
  | EmptyString => EmptyString
  | String a s1 =>
      if Ascii.is_space a then strip backwards s1
      else
        match s1 with
        | EmptyString => s
        | String b s2 =>
            if (if backwards then is_space2 b a else is_space2 a b) then strip backwards s2
            else
              match s2 with
              | EmptyString => s
              | String c s3 =>
                  if (if backwards then is_space3 c b a else is_space3 a b c)
                  then strip backwards s3
                  else s
              end
        end
  end.

Definition trim_start (s : string) : string := strip false s.

Definition trim_end (s : string) : string := String.rev (strip true (String.rev s)).

(** [s.trim()] *)
Definition trim (s : string) : string := trim_end (trim_start s).

Definition handleAddNote (be : Backend) (st : State) (db : Db) : State * Db :=
  match selectedLead st, user st with
  | Some sel, Some u =>
      if truthy (trim (newNote st)) then
        let '(result, db1) :=
          createLeadNote be (id sel) (profile_id u) (trim (newNote st)) db in
        match error result with
        | Some e => (showError "Anteckningsfel" (message e) st, db1)
        | None =>
            let '(st2, db2) :=
              match data result with
              | Some n =>
                  let '(_, db') :=
                    createLeadActivity be (id sel) (Some (profile_id u)) "note_added"
                      "Anteckning tillagd" db1 in
                  (loadLeadDetails be (id sel)
                     (setNewNote EmptyString (setLeadNotes (cons n) st)) db', db')
              | None => (st, db1)
              end in
            (showSuccess "Anteckning tillagd" "Anteckning har sparats" st2, db2)
        end
      else (st, db)
  | _, _ => (st, db)
  end.

(** [handleLeadClick]: the lead is opened and its details are loaded. *)
Definition handleLeadClick (be : Backend) (lead : LeadWithRelations) (st : State) (db : Db)
  : State :=
  loadLeadDetails be (id lead) (setSelectedLead (fun _ => Some lead) st) db.

(** What a user can do on the board. *)
Inductive Action :=
| DragStart (lead : LeadWithRelations)
| Drop (newStatus : LeadStatus)
| AssignmentChange (leadId newAssignedUserId : string)
| ConvertToQuote
| TypeNote (text : string)
| AddNote
| LeadClick (lead : LeadWithRelations).

Definition dispatch (be : Backend) (a : Action) (st : State) (db : Db) : State * Db :=
  match a with
  | DragStart lead => (handleDragStart lead st, db)
  | Drop newStatus => handleDrop be newStatus st db
  | AssignmentChange leadId newAssignedUserId =>
      handleAssignmentChange be leadId newAssignedUserId st db
  | ConvertToQuote => handleConvertToQuote be st db
  | TypeNote text => (setNewNote text st, db)
  | AddNote => handleAddNote be st db
  | LeadClick lead => (handleLeadClick be lead st db, db)
  end.

(** ** Rendering helpers *)

(** [Math.ceil(x / d)] for an integer [x] and a positive integer [d]. *)
Definition ceil_div (x d : Z) : Z := (- ((- x) / d))%Z.

(** [getDaysAgo]; [date] is the instant the date string denotes and [now]
    the current instant, both in milliseconds since the epoch. *)
Definition getDaysAgo (date now : Z) : Z :=
  let diffTime := Z.abs (now - date) in
  ceil_div diffTime (1000 * 60 * 60 * 24).

(** The icons of lucide-react the activity list uses. *)
Inductive Icon := ActivityIcon | UserIcon | MessageSquareIcon | QuoteIcon | ClockIcon.

Definition getActivityIcon (activityType : string) : Icon :=
  if bool_decide (activityType = "status_change") then ActivityIcon
  else if bool_decide (activityType = "assignment_change") then UserIcon
  else if bool_decide (activityType = "note_added") then MessageSquareIcon
  else if bool_decide (activityType = "converted_to_quote") then QuoteIcon
  else ClockIcon.

(** The [matchesAssigned] part of the lead filter. *)
Definition matchesAssigned (filterAssigned : string) (lead : LeadWithRelations) : bool :=
  bool_decide (filterAssigned = "all")
  || (bool_decide (filterAssigned = "unassigned")
      && negb (truthy_opt (assigned_to_user_id lead)))
  || (bool_decide (filterAssigned = "assigned") && truthy_opt (assigned_to_user_id lead)).

Record KanbanColumn := mkKanbanColumn {
  column_id : LeadStatus;
  column_title : string;
  column_leads : list LeadWithRelations;
  column_color : string;
}.

Definition columns : list KanbanColumn :=
  [mkKanbanColumn new "Nya" [] "bg-blue-50 border-blue-200";
   mkKanbanColumn contacted "Kontaktade" [] "bg-yellow-50 border-yellow-200";
   mkKanbanColumn qualified "Kvalificerade" [] "bg-purple-50 border-purple-200";
   mkKanbanColumn won "Vunna" [] "bg-green-50 border-green-200";
   mkKanbanColumn lost "Förlorade" [] "bg-red-50 border-red-200"].

(** [organizedColumns], from the filtered leads. *)
Definition organizedColumns (filteredLeads : list LeadWithRelations) : list KanbanColumn :=
  map (fun column =>
         mkKanbanColumn (column_id column) (column_title column)
           (List.filter (fun lead : LeadWithRelations =>
                           bool_decide (status lead = column_id column)) filteredLeads)
           (column_color column))
      columns.

(** ** Vocabulary of the properties *)

(** The kinds the board writes; [getActivityIcon] has a case for each. *)
Definition lead_kinds : list string :=
  ["status_change"; "assignment_change"; "note_added"; "converted_to_quote"].

Definition lead_kind (ty : string) : Prop := ty ∈ lead_kinds.

(** The audit log of [db'] is that of [db] followed by activities whose kind
    satisfies [P]. *)
Definition appends (P : string -> Prop) (db db' : Db) : Prop :=
  exists added,
    lead_activities db' = (lead_activities db ++ added)%list /\
    Forall (fun a => P (activity_type a)) added.

(** The activity the board writes when a lead is dropped on a column. *)
Definition drop_activity (u : UserProfile) (dragged : Lead) (newStatus : LeadStatus)
  : LeadActivity :=
  mkLeadActivity (id dragged) (Some (profile_id u)) "status_change"
    ("Status ändrad från " ++ statusLabels (status dragged) ++ " till "
       ++ statusLabels newStatus)
    None None.

(** The notes, and every lead but [leadId], are the same in [db'] as in
    [db], and no lead is added or removed. *)
Definition other_leads_kept (leadId : string) (db db' : Db) : Prop :=
  dom (lead_rows db') = dom (lead_rows db) /\
  forall j, j <> leadId -> lead_rows db' !! j = lead_rows db !! j.

(** The page shows every lead with identifier [leadId] in status [s]. *)
Definition shown_in_status (leadId : string) (s : LeadStatus) (st : State) : Prop :=
  Forall (fun l : LeadWithRelations => id l = leadId -> status l = s) (leads st).

(** The page [st'] is the page [st] but for the notes and the activities of
    the open lead. *)
Definition same_but_details (st st' : State) : Prop :=
  user st' = user st /\ leads st' = leads st /\ teamMembers st' = teamMembers st /\
  selectedLead st' = selectedLead st /\ draggedLead st' = draggedLead st /\
  newNote st' = newNote st /\ toasts st' = toasts st.

(** The string holds white space only. *)
Fixpoint blank (s : string) : bool :=
  match s with
  | String a s' => Ascii.is_space a && blank s'
  | EmptyString => true
  end.

(** The number of milliseconds of a day. *)
Definition day_ms : Z := 1000 * 60 * 60 * 24.

(** The leads of the columns, column after column. *)
Definition shown_leads (cols : list KanbanColumn) : list LeadWithRelations :=
  concat (map column_leads cols).

(** The page shows every lead with identifier [leadId] as assigned to [u]. *)
Definition shown_assigned (leadId : string) (u : option string) (st : State) : Prop :=
  Forall (fun l : LeadWithRelations => id l = leadId -> assigned_to_user_id l = u)
    (leads st).

End LeadKanban.

(** * lib/timeLogs and pages/WorkerSchedule *)

Module WorkerSchedule.

Record Location := mkLocation { lat : number; lng : number }.

Record WeatherData := mkWeatherData { temperature : Z; condition : string }.

Record TimeLog := mkTimeLog {
  id : string;
  user_id : string;
  order_id : string;
  work_type : option string;
  start_time : Z;
  end_time : option Z;
  location : option Location;
  weather : option string;
}.

(** The time-log table is a [list TimeLog] in insertion order; rows are
    never deleted. *)

Inductive SessionError :=
| NotFound
| SessionAlreadyActive
| AlreadyStopped
| StoreFailure.

(** The text shown to the user for each error. *)
Definition error_message (e : SessionError) : string :=
  match e with
  | NotFound => "NotFound"
  | SessionAlreadyActive => "SessionAlreadyActive"
  | AlreadyStopped => "AlreadyStopped"
  | StoreFailure => "StoreFailure"
  end.

(** A session of the worker whose end timestamp is null. *)
Definition is_active (workerId : string) (s : TimeLog) : bool :=
  bool_decide (user_id s = workerId) && bool_decide (end_time s = None).

(** Modelled from the spec: [getActiveTimeLog] of lib/timeLogs is not among
    the sources. [getActive(workerId) -> TimeSession | null] (spec 4.5). *)
Definition getActiveTimeLog (workerId : string) (logs : list TimeLog) : option TimeLog :=
  List.find (is_active workerId) logs.

(** Modelled from the spec: [startTimeTracking] of lib/timeLogs is not among
    the sources. [start] first calls [getActive(workerId)]; if a session is
    already active for that worker it fails with SessionAlreadyActive and
    does not close the prior session; otherwise it stores a session with the
    start timestamp, a null end timestamp and the snapshot handed in by the
    caller (spec 4.5). [now] is the clock and [newId] the key the store
    generates; a key that is already taken is a store failure. *)
Definition startTimeTracking (orderId userId : string) (workType : option string)
    (loc : option Location) (weatherText : option string)
    (now : Z) (newId : string) (logs : list TimeLog) : (SessionError + TimeLog) * list TimeLog :=
  match getActiveTimeLog userId logs with
  | Some _ => (inl SessionAlreadyActive, logs)
  | None =>
      if bool_decide (newId ∈ map id logs) then (inl StoreFailure, logs)
      else
        let s := mkTimeLog newId userId orderId workType now None loc weatherText in
        (inr s, (logs ++ [s])%list)
  end.

Definition close (now : Z) (s : TimeLog) : TimeLog :=
  mkTimeLog (id s) (user_id s) (order_id s) (work_type s) (start_time s) (Some now)
            (location s) (weather s).

(** Modelled from the spec: [stopTimeTracking] of lib/timeLogs is not among
    the sources. [stop] requires the session to exist and have a null end
    timestamp; it sets the end timestamp to the current time; it fails with
    NotFound or AlreadyStopped otherwise (spec 4.5). *)
Definition stopTimeTracking (sessionId : string) (now : Z) (logs : list TimeLog)
  : (SessionError + TimeLog) * list TimeLog :=
  match List.find (fun s => bool_decide (id s = sessionId)) logs with
  | None => (inl NotFound, logs)
  | Some s =>
      match end_time s with
      | Some _ => (inl AlreadyStopped, logs)
      | None =>
          (inr (close now s),
           map (fun r => if bool_decide (id r = sessionId) then close now s else r) logs)
      end
  end.

(** ** The page *)

Inductive Toast :=
| ToastSuccess (heading : string)
| ToastError (heading body : string).

Record State := mkState {
  user : string;
  activeTimeLog : option TimeLog;
  error : option string;
  toasts : list Toast;
}.

Definition setActiveTimeLog (a : option TimeLog) (st : State) : State :=
  mkState (user st) a (error st) (toasts st).

Definition setError (e : option string) (st : State) : State :=
  mkState (user st) (activeTimeLog st) e (toasts st).

Definition toast (t : Toast) (st : State) : State :=
  mkState (user st) (activeTimeLog st) (error st) (toasts st ++ [t]).

(** [loadScheduleData], for the active time log; [ordersError] and
    [activeLogError] are the errors [getWorkerWeeklyOrders] and
    [getActiveTimeLog] answered with, if any. A load that fails shows the
    message and leaves the active time log of the page as it was. *)
Definition loadScheduleData (ordersError activeLogError : option Error)
    (st : State) (logs : list TimeLog) : State :=
  let st0 := setError None st in
  match ordersError with
  | Some e => setError (Some (message e)) st0
  | None =>
      match activeLogError with
      | Some e => setError (Some (message e)) st0
      | None => setActiveTimeLog (getActiveTimeLog (user st) logs) st0
      end
  end.

(** [handleStartTracking]; [loc] and [weatherData] are what the context
    suppliers [getCurrentLocation] and [getMockWeatherData] resolved to. *)
Definition handleStartTracking (orderId : string) (workType : option string)
    (loc : option Location) (weatherData : WeatherData) (now : Z) (newId : string)
    (st : State) (logs : list TimeLog) : State * list TimeLog :=
  let '(result, logs') :=
    startTimeTracking orderId (user st) workType loc
      (Some (pretty (temperature weatherData) ++ "°C, " ++ condition weatherData))
      now newId logs in
  match result with
  | inl e => (toast (ToastError "Kunde inte starta tidtagning" (error_message e)) st, logs')
  | inr s => (toast (ToastSuccess "Tidtagning startad!") (setActiveTimeLog (Some s) st), logs')
  end.

Definition handleStopTracking (now : Z) (st : State) (logs : list TimeLog) : State * list TimeLog :=
  match activeTimeLog st with
  | None => (st, logs)
  | Some a =>
      let '(result, logs') := stopTimeTracking (id a) now logs in
      match result with
      | inl e => (toast (ToastError "Kunde inte stoppa tidtagning" (error_message e)) st, logs')
      | inr _ => (toast (ToastSuccess "Tidtagning stoppad!") (setActiveTimeLog None st), logs')
      end
  end.

(** What the page offers next to an event that is not past. *)
Inductive Control := StopButton | StartButton | OtherTrackingRunning.

(** [isActiveTracking ? stop : !activeTimeLog ? start : busy], where
    [isActiveTracking] is [activeTimeLog?.order_id === event.related_order_id]. *)
Definition control (st : State) (relatedOrderId : string) : Control :=
  match activeTimeLog st with
  | Some a => if bool_decide (order_id a = relatedOrderId) then StopButton
              else OtherTrackingRunning
  | None => StartButton
  end.

(** The calls that reach the session manager. *)
Inductive Request :=
| Start (orderId userId : string) (workType : option string)
    (loc : option Location) (weatherText : option string) (now : Z) (newId : string)
| Stop (sessionId : string) (now : Z).

Definition step (r : Request) (logs : list TimeLog) : list TimeLog :=
  match r with
  | Start orderId userId workType loc weatherText now newId =>
      (startTimeTracking orderId userId workType loc weatherText now newId logs).2
  | Stop sessionId now => (stopTimeTracking sessionId now logs).2
  end.

Definition run_requests (rs : list Request) (logs : list TimeLog) : list TimeLog :=
  fold_left (fun l r => step r l) rs logs.

(** The sessions of a worker that are still open. *)
Definition active_sessions (workerId : string) (logs : list TimeLog) : list TimeLog :=
  List.filter (is_active workerId) logs.

(** At most one open session per worker. *)
Definition at_most_one_active (logs : list TimeLog) : Prop :=
  forall workerId, length (active_sessions workerId logs) <= 1.

(** ** The page in use *)

(** What the worker can do on the page: reload it, press the start button of
    an event (rendered only where [control] says so), press a stop button. *)
Inductive PageAction :=
| LoadSchedule (ordersError activeLogError : option Error)
| PressStart (orderId : string) (workType : option string) (loc : option Location)
    (weatherData : WeatherData) (now : Z) (newId : string)
| PressStop (now : Z).

Definition page_step (a : PageAction) (p : State * list TimeLog) : State * list TimeLog :=
  match a with
  | LoadSchedule ordersError activeLogError =>
      (loadScheduleData ordersError activeLogError p.1 p.2, p.2)
  | PressStart orderId workType loc weatherData now newId =>
      match control p.1 orderId with
      | StartButton => handleStartTracking orderId workType loc weatherData now newId p.1 p.2
      | _ => p
      end
  | PressStop now => handleStopTracking now p.1 p.2
  end.

Definition page_run (actions : list PageAction) (p : State * list TimeLog)
  : State * list TimeLog :=
  fold_left (fun q a => page_step a q) actions p.

(** The page knows the open session of its worker, the keys of the table are
    distinct and no worker has two open sessions. *)
Definition page_in_sync (p : State * list TimeLog) : Prop :=
  activeTimeLog p.1 = getActiveTimeLog (user p.1) p.2 /\
  NoDup (map id p.2) /\
  at_most_one_active p.2.

End WorkerSchedule.

(** * Sample data *)

Module Samples.
Import Orders.

(** A label table for the examples: the lead labels of the kanban board and
    the one order status named in lib/orders. *)
Definition labels : gmap string string :=
  list_to_map
    [("new", "Ny"); ("contacted", "Kontaktad"); ("qualified", "Kvalificerad");
     ("won", "Vunnen"); ("lost", "Förlorad");
     ("bokad_bekräftad", "Bokad och bekräftad")].

Definition reliable : Backend :=
  mkBackend None None None None None "o2" Delivered.

(** A backend whose notification sink rejects. *)
Definition sink_down : Backend :=
  mkBackend None None None None None "o2" (DeliveryThrows (mkError "fetch failed")).

(** A backend whose audit table turns every insert down. *)
Definition audit_down : Backend :=
  mkBackend None None None None (Some (mkError "permission denied")) "o2" Delivered.

(** A backend whose order table turns every update down. *)
Definition store_rejects : Backend :=
  mkBackend None (Some (mkError "invalid input value for enum order_status"))
    None None None "o2" Delivered.

Definition L1 : Order :=
  mkOrder "L1" "org" "Takbyte" "new" None (Some "u1") None.

(** An order nobody is assigned to. *)
Definition L2 : Order :=
  mkOrder "L2" "org" "Altanbygge" "new" None None None.

Definition crew : Team := mkTeam "t1" "Takteam" ["u1"; "u2"].

Definition world : World :=
  mkWorld (<["L2" := L2]> {[ "L1" := L1 ]}) {[ "t1" := crew ]} [] [] [] [] [].

(** Two orders as a statistics query returns them. *)
Definition priced : Order :=
  mkOrder "o7" "org" "Fasadtvätt" "bokad_bekräftad" (Some (integer 100)) None None.

Definition unpriced : Order :=
  mkOrder "o8" "org" "Fönsterputs" "bokad_bekräftad" None None None.

(** The kanban board of user Anna, with lead L1 picked up for a drag. *)
Definition anna : LeadKanban.UserProfile := LeadKanban.mkUserProfile "u1" "Anna".
Definition bo : LeadKanban.UserProfile := LeadKanban.mkUserProfile "u2" "Bo".

Definition lead_L1 : LeadKanban.LeadWithRelations :=
  LeadKanban.mkLeadWithRelations
    (LeadKanban.mkLead "L1" "Takbyte" LeadKanban.new None) None.

Definition board : LeadKanban.State :=
  LeadKanban.mkState (Some anna) [lead_L1] [anna; bo] None (Some lead_L1)
    EmptyString [] [] [].

Definition lead_db : LeadKanban.Db :=
  LeadKanban.mkDb {[ "L1" := LeadKanban.row lead_L1 ]} [] [].

Definition lead_backend : LeadKanban.Backend :=
  LeadKanban.mkBackend None None None None None.

(** The store with lead L1 assigned to Bo. *)
Definition lead_db_assigned : LeadKanban.Db :=
  LeadKanban.mkDb
    {[ "L1" := LeadKanban.mkLead "L1" "Takbyte" LeadKanban.new (Some "u2") ]} [] [].

(** A backend whose order table cannot be read. *)
Definition unreadable : Backend :=
  mkBackend (Some (mkError "timeout")) None None None None "o2" Delivered.

(** A backend whose note table turns every insert down. *)
Definition notes_rejected : Backend :=
  mkBackend None None None (Some (mkError "permission denied")) None "o2" Delivered.

(** An order with a user and a team. *)
Definition L3 : Order :=
  mkOrder "L3" "org" "Stuprör" "bokad_bekräftad" None (Some "u2") (Some "t1").

Definition world3 : World := set_orders (insert "L3" L3) world.

Definition remark : OrderNote := mkOrderNote "L1" "u1" "Ring kunden".

(** The board with nobody signed in, and a store that turns updates down. *)
Definition board_unsigned : LeadKanban.State :=
  LeadKanban.mkState None [lead_L1] [anna; bo] None (Some lead_L1) EmptyString [] [] [].

Definition lead_store_rejects : LeadKanban.Backend :=
  LeadKanban.mkBackend (Some (mkError "permission denied")) None None None None.

Definition lead_notes_rejected : LeadKanban.Backend :=
  LeadKanban.mkBackend None (Some (mkError "permission denied")) None None None.

(** The board with lead L1 opened and a note typed. *)
Definition board_open : LeadKanban.State :=
  LeadKanban.mkState (Some anna) [lead_L1] [anna; bo] (Some lead_L1) None
    "  Ring kunden " [] [] [].

(** The schedule page of worker w1. *)
Definition page : WorkerSchedule.State := WorkerSchedule.mkState "w1" None None [].

Definition mild : WorkerSchedule.WeatherData := WorkerSchedule.mkWeatherData 18 "Soligt".

(** Worker w1 tracking time on order O1 since instant 100. *)
Definition session_O1 : WorkerSchedule.TimeLog :=
  WorkerSchedule.mkTimeLog "s1" "w1" "O1" None 100 None None None.

Definition start_O1 : WorkerSchedule.Request :=
  WorkerSchedule.Start "O1" "w1" None None None 100 "s1".

End Samples.

(** * Properties of lib/orders *)

Module OrdersFacts.
Import Orders.
#[local] Open Scope list_scope.

#[local] Arguments String.append : simpl never.

(** ** The primitives, call by call *)

Lemma createOrderActivity_eq be orderId userId ty desc ov nv w :
  createOrderActivity be orderId userId ty desc ov nv w =
  match activity_error be with
  | Some e => (Returned (mkResult None (Some (new_Error e))), w)
  | None =>
      let a := mkOrderActivity orderId userId ty desc ov nv in
      (Returned (success a), record_effect (ActivityAppended a) (add_activity a w))
  end.
Proof.
  unfold createOrderActivity, try_catch, bind, insert_activity.
  destruct (activity_error be); reflexivity.
Qed.

Lemma createStatusChangeNotification_eq labels be u oid t old new w :
  createStatusChangeNotification labels be u oid t old new w =
  let n := StatusUpdateNotification u t (property labels old) (property labels new)
             ("/ordrar?highlight=" +:+ oid) in
  match notify be with
  | Delivered => (Returned tt, record_effect (NotificationEnqueued n) (add_notification n w))
  | DeliveryError _ => (Returned tt, w)
  | DeliveryThrows e =>
      (Returned tt, add_console "Error creating status change notification:" e w)
  end.
Proof.
  unfold createStatusChangeNotification, try_catch, bind, createNotification.
  destruct (notify be); reflexivity.
Qed.

Lemma patch_status_same o : patch (status_patch (status o)) o = o.
Proof. destruct o; reflexivity. Qed.

Lemma status_changes_same o : status_changes (status_patch (status o)) o = None.
Proof.
  unfold status_changes; simpl.
  rewrite bool_decide_eq_true_2 by reflexivity.
  rewrite andb_false_r. reflexivity.
Qed.

Lemma status_changes_new s o :
  truthy s = true -> s <> status o -> status_changes (status_patch s) o = Some s.
Proof.
  intros Ht Hne. unfold status_changes; simpl.
  rewrite Ht, bool_decide_eq_false_2 by assumption. reflexivity.
Qed.

Lemma notify_assignee_returns labels be o s w :
  (notify_assignee labels be o s w).1 = Returned tt.
Proof.
  unfold notify_assignee, when.
  destruct (assigned_to_user_id o) as [u|]; [|reflexivity].
  destruct (truthy u); [|reflexivity].
  rewrite createStatusChangeNotification_eq. simpl.
  destruct (notify be); reflexivity.
Qed.

Lemma select_order_found be orderId w o :
  select_error be = None ->
  orders w !! orderId = Some o ->
  select_order be orderId w = (Returned (success o), w).
Proof. intros Hsel Hrow. unfold select_order. rewrite Hsel, Hrow. reflexivity. Qed.

Lemma update_order_found be orderId updates w o :
  update_error be = None ->
  orders w !! orderId = Some o ->
  update_order be orderId updates w =
  (Returned (success (with_relations (written orderId updates o w) (patch updates o))),
   written orderId updates o w).
Proof. intros Hupd Hrow. unfold update_order. rewrite Hupd, Hrow. reflexivity. Qed.

#[local] Arguments createOrderActivity : simpl never.
#[local] Arguments createStatusChangeNotification : simpl never.
#[local] Arguments createNotification : simpl never.
#[local] Arguments notify_assignee : simpl never.
#[local] Arguments with_relations : simpl never.
#[local] Arguments written : simpl never.
#[local] Arguments patch : simpl never.
#[local] Arguments record_effect : simpl never.
#[local] Arguments add_activity : simpl never.
#[local] Arguments add_notification : simpl never.
#[local] Arguments add_console : simpl never.
#[local] Arguments set_orders : simpl never.
#[local] Arguments log_changes : simpl never.

(** A transition to a new status, the store answering both calls. *)
Lemma updateOrder_transition labels be orderId s w o :
  select_error be = None ->
  update_error be = None ->
  orders w !! orderId = Some o ->
  truthy s = true ->
  s <> status o ->
  updateOrder labels be orderId (status_patch s) w =
  let w1 := written orderId (status_patch s) o w in
  let w2 := (notify_assignee labels be o s w1).2 in
  let r := createOrderActivity be orderId None "status_changed"
             (description (status_activity labels orderId o s))
             (Some (status o)) (Some s) w2 in
  (Returned (mkResult (Some (with_relations w1 (patch (status_patch s) o))) None), r.2).
Proof.
  intros Hsel Hupd Hrow Ht Hne.
  unfold updateOrder, try_catch, bind.
  rewrite (select_order_found _ _ _ _ Hsel Hrow).
  rewrite (update_order_found _ _ _ _ _ Hupd Hrow).
  simpl.
  set (w1 := written orderId (status_patch s) o w).
  unfold log_changes, log_status_change, log_user_assignment, log_team_assignment.
  rewrite status_changes_new by assumption.
  unfold bind. simpl.
  fold (notify_assignee labels be o s).
  pose proof (notify_assignee_returns labels be o s w1) as Hn.
  destruct (notify_assignee labels be o s w1) as [out w2]. simpl in Hn. subst out.
  simpl. unfold status_activity; simpl.
  rewrite createOrderActivity_eq. destruct (activity_error be); reflexivity.
Qed.

Ltac open_world :=
  unfold written, record_effect, add_activity, add_notification, add_console,
    set_orders in *; simpl in *.

Lemma notify_assignee_frame labels be o s w :
  let w' := (notify_assignee labels be o s w).2 in
  orders w' = orders w /\ teams w' = teams w /\
  order_activities w' = order_activities w /\ order_notes w' = order_notes w.
Proof.
  unfold notify_assignee, when.
  destruct (assigned_to_user_id o) as [u|]; [|by simpl].
  destruct (truthy u); [|by simpl].
  rewrite createStatusChangeNotification_eq. simpl.
  destruct (notify be); by open_world.
Qed.

Lemma notify_assignee_delivered labels be o s w :
  notify be = Delivered ->
  let w' := (notify_assignee labels be o s w).2 in
  trace w' = trace w ++ (NotificationEnqueued <$> option_list (status_notification labels o s))
  /\ notifications w' = notifications w ++ option_list (status_notification labels o s).
Proof.
  intros Hd. unfold notify_assignee, status_notification, when.
  destruct (assigned_to_user_id o) as [u|];
    [|by simpl; rewrite !app_nil_r].
  destruct (truthy u); [|by simpl; rewrite !app_nil_r].
  rewrite createStatusChangeNotification_eq, Hd. by open_world.
Qed.

(** The activity of a transition is the only one appended, and the row then
    carries the new status. *)
Lemma transition_logged labels be orderId s w o :
  select_error be = None ->
  update_error be = None ->
  activity_error be = None ->
  orders w !! orderId = Some o ->
  truthy s = true ->
  s <> status o ->
  let r := updateOrder labels be orderId (status_patch s) w in
  r.1 = Returned (success (with_relations (written orderId (status_patch s) o w)
                             (patch (status_patch s) o))) /\
  order_activities r.2 = order_activities w ++ [status_activity labels orderId o s] /\
  orders r.2 = <[orderId := patch (status_patch s) o]> (orders w) /\
  teams r.2 = teams w.
Proof.
  intros Hsel Hupd Hact Hrow Ht Hne. cbv zeta.
  rewrite (updateOrder_transition _ _ _ _ _ _ Hsel Hupd Hrow Ht Hne). cbv zeta.
  rewrite createOrderActivity_eq, Hact.
  destruct (notify_assignee_frame labels be o s (written orderId (status_patch s) o w))
    as (Ho & Hteams & Ha & _).
  cbv zeta in *. open_world.
  rewrite Ho, Hteams, Ha. done.
Qed.

(** The journal of a transition when every call goes through. *)
Lemma transition_trace labels be orderId s w o :
  select_error be = None ->
  update_error be = None ->
  activity_error be = None ->
  notify be = Delivered ->
  orders w !! orderId = Some o ->
  truthy s = true ->
  s <> status o ->
  trace (updateOrder labels be orderId (status_patch s) w).2 =
  trace w ++ [OrderWritten orderId]
    ++ (NotificationEnqueued <$> option_list (status_notification labels o s))
    ++ [ActivityAppended (status_activity labels orderId o s)].
Proof.
  intros Hsel Hupd Hact Hd Hrow Ht Hne.
  rewrite (updateOrder_transition _ _ _ _ _ _ Hsel Hupd Hrow Ht Hne). cbv zeta.
  rewrite createOrderActivity_eq, Hact.
  destruct (notify_assignee_delivered labels be o s (written orderId (status_patch s) o w) Hd)
    as (Htr & _).
  cbv zeta in *. open_world. rewrite Htr.
  by rewrite <- !app_assoc.
Qed.

Lemma select_order_pure be orderId w :
  exists r, select_order be orderId w = (Returned r, w) /\
            (data r = None \/ data r = orders w !! orderId).
Proof.
  unfold select_order.
  destruct (select_error be); [eauto|].
  destruct (orders w !! orderId); eauto.
Qed.

Lemma with_relations_written orderId updates o w o' :
  with_relations (written orderId updates o w) o' = with_relations w o'.
Proof. reflexivity. Qed.

Lemma log_changes_same_status labels be orderId d cur o w :
  cur = None \/ cur = Some o ->
  log_changes labels be orderId (status_patch (status o)) d cur w = (Returned tt, w).
Proof.
  intros [-> | ->]; unfold log_changes; destruct d; try reflexivity.
  unfold log_status_change, log_user_assignment, log_team_assignment.
  rewrite status_changes_same. reflexivity.
Qed.

(** A transition to the status the row already has. *)
Lemma transition_same_status labels be orderId w o :
  update_error be = None ->
  orders w !! orderId = Some o ->
  let r := updateOrder labels be orderId (status_patch (status o)) w in
  r.1 = Returned (success (with_relations w o)) /\
  orders r.2 = orders w /\
  order_activities r.2 = order_activities w /\
  notifications r.2 = notifications w.
Proof.
  intros Hupd Hrow. cbv zeta.
  unfold updateOrder, try_catch, bind.
  destruct (select_order_pure be orderId w) as (cur & -> & Hcur).
  rewrite (update_order_found _ _ _ _ _ Hupd Hrow).
  rewrite with_relations_written, patch_status_same. simpl.
  rewrite Hrow in Hcur.
  rewrite log_changes_same_status by exact Hcur.
  simpl. open_world.
  split; [done|]. split; [|done].
  rewrite patch_status_same. by apply insert_id.
Qed.

(** The store turning the write down: nothing else happens. *)
Lemma updateOrder_rejected labels be orderId updates w e :
  update_error be = Some e ->
  updateOrder labels be orderId updates w = (Returned (failure (new_Error e)), w).
Proof.
  intros Hupd. unfold updateOrder, try_catch, bind.
  destruct (select_order_pure be orderId w) as (cur & -> & _).
  unfold update_order. rewrite Hupd. reflexivity.
Qed.

(** A created order gets its one activity. *)
Lemma createOrder_logged be order w :
  insert_error be = None ->
  activity_error be = None ->
  orders w !! generated_id be = None ->
  let r := createOrder be order w in
  let o := to_row (generated_id be) order in
  r.1 = Returned (success (with_relations w o)) /\
  orders r.2 = <[generated_id be := o]> (orders w) /\
  order_activities r.2 =
    order_activities w ++ [mkOrderActivity (id o) None "created" "Order skapad" None None].
Proof.
  intros Hins Hact Hfresh. cbv zeta.
  unfold createOrder, try_catch, bind, insert_order.
  rewrite Hins, Hfresh. simpl.
  rewrite createOrderActivity_eq, Hact. by open_world.
Qed.

(** ** Assignment to a user *)

Lemma patch_user_same o : patch (user_patch (assigned_to_user_id o)) o = o.
Proof. destruct o; reflexivity. Qed.

Lemma log_changes_same_user labels be orderId d cur o w :
  cur = None \/ cur = Some o ->
  log_changes labels be orderId (user_patch (assigned_to_user_id o)) d cur w
  = (Returned tt, w).
Proof.
  intros [-> | ->]; unfold log_changes; destruct d; try reflexivity.
  unfold log_status_change, log_user_assignment, log_team_assignment,
    status_changes, user_changes, team_changes. simpl.
  rewrite bool_decide_eq_true_2 by reflexivity. reflexivity.
Qed.

Lemma assignment_same_user labels be orderId w o :
  update_error be = None ->
  orders w !! orderId = Some o ->
  let r := updateOrder labels be orderId (user_patch (assigned_to_user_id o)) w in
  r.1 = Returned (success (with_relations w o)) /\
  orders r.2 = orders w /\
  order_activities r.2 = order_activities w /\
  notifications r.2 = notifications w.
Proof.
  intros Hupd Hrow. cbv zeta.
  unfold updateOrder, try_catch, bind.
  destruct (select_order_pure be orderId w) as (cur & -> & Hcur).
  rewrite (update_order_found _ _ _ _ _ Hupd Hrow).
  rewrite with_relations_written, patch_user_same. simpl.
  rewrite Hrow in Hcur.
  rewrite log_changes_same_user by exact Hcur.
  simpl. open_world.
  split; [done|]. split; [|done].
  rewrite patch_user_same. by apply insert_id.
Qed.

Lemma assignment_new_user labels be orderId u w o :
  select_error be = None ->
  update_error be = None ->
  activity_error be = None ->
  notify be = Delivered ->
  orders w !! orderId = Some o ->
  truthy u = true ->
  Some u <> assigned_to_user_id o ->
  let r := updateOrder labels be orderId (user_patch (Some u)) w in
  r.1 = Returned (success (with_relations w (patch (user_patch (Some u)) o))) /\
  order_activities r.2 =
    order_activities w ++ [mkOrderActivity orderId None "assigned" "Order tilldelad" None None] /\
  notifications r.2 =
    notifications w ++ [OrderAssignmentNotification u (id o) (title o)].
Proof.
  intros Hsel Hupd Hact Hd Hrow Ht Hne. cbv zeta.
  unfold updateOrder, try_catch, bind.
  rewrite (select_order_found _ _ _ _ Hsel Hrow).
  rewrite (update_order_found _ _ _ _ _ Hupd Hrow).
  rewrite with_relations_written. simpl.
  unfold log_changes, log_status_change, log_user_assignment, log_team_assignment,
    status_changes, user_changes, team_changes, bind. simpl.
  rewrite bool_decide_eq_false_2 by exact Hne. rewrite Ht.
  unfold createNotification. rewrite Hd. simpl.
  rewrite createOrderActivity_eq, Hact. simpl. open_world. by rewrite Ht.
Qed.

(** A transition returns the updated order whatever the notification sink
    and the audit insert do. *)
Lemma transition_returns labels be orderId s w o :
  select_error be = None ->
  update_error be = None ->
  orders w !! orderId = Some o ->
  truthy s = true ->
  s <> status o ->
  let r := updateOrder labels be orderId (status_patch s) w in
  r.1 = Returned (success (with_relations w (patch (status_patch s) o))) /\
  orders r.2 !! orderId = Some (patch (status_patch s) o).
Proof.
  intros Hsel Hupd Hrow Ht Hne. cbv zeta.
  rewrite (updateOrder_transition _ _ _ _ _ _ Hsel Hupd Hrow Ht Hne). cbv zeta.
  split; [done|]. simpl.
  rewrite createOrderActivity_eq.
  destruct (notify_assignee_frame labels be o s (written orderId (status_patch s) o w))
    as (Ho & _).
  cbv zeta in Ho.
  destruct (activity_error be); open_world; rewrite Ho; apply lookup_insert_eq.
Qed.

(** ** Which kinds of activity the module writes *)

Section Always.
Context (R : World -> World -> Prop) `{!PreOrder R}.

Lemma always_ret {A} (a : A) : always R (ret a).
Proof. intros w. reflexivity. Qed.

Lemma always_bind {A B} (m : Async A) (k : A -> Async B) :
  always R m -> (forall a, always R (k a)) -> always R (bind m k).
Proof.
  intros Hm Hk w. unfold bind. specialize (Hm w).
  destruct (m w) as [[a|e] w']; simpl in *; [|done].
  etransitivity; [exact Hm|]. apply Hk.
Qed.

Lemma always_try_catch {A} (m : Async A) (h : Error -> Async A) :
  always R m -> (forall e, always R (h e)) -> always R (try_catch m h).
Proof.
  intros Hm Hh w. unfold try_catch. specialize (Hm w).
  destruct (m w) as [[a|e] w']; simpl in *; [done|].
  etransitivity; [exact Hm|]. apply Hh.
Qed.

Lemma always_when b (m : Async unit) : always R m -> always R (when b m).
Proof. intros Hm. destruct b; [exact Hm | apply always_ret]. Qed.
End Always.

#[local] Instance appends_preorder P : PreOrder (appends P).
Proof.
  split.
  - intros w. exists []. by rewrite app_nil_r.
  - intros w1 w2 w3 (l1 & H1 & F1) (l2 & H2 & F2). exists (l1 ++ l2).
    rewrite H2, H1, app_assoc. split; [done|]. by apply Forall_app.
Qed.

Lemma appends_ret P {A} (a : A) : always (appends P) (ret a).
Proof. apply always_ret; typeclasses eauto || assumption. Qed.

Lemma appends_bind P {A B} (m : Async A) (k : A -> Async B) :
  always (appends P) m -> (forall a, always (appends P) (k a)) ->
  always (appends P) (bind m k).
Proof. apply always_bind; typeclasses eauto || assumption. Qed.

Lemma appends_try_catch P {A} (m : Async A) (h : Error -> Async A) :
  always (appends P) m -> (forall e, always (appends P) (h e)) ->
  always (appends P) (try_catch m h).
Proof. apply always_try_catch; typeclasses eauto || assumption. Qed.

Lemma appends_when P b (m : Async unit) :
  always (appends P) m -> always (appends P) (when b m).
Proof. apply always_when; typeclasses eauto || assumption. Qed.

Lemma appends_same P w w' : order_activities w' = order_activities w -> appends P w w'.
Proof. intros H. exists []. by rewrite app_nil_r. Qed.

Lemma select_order_appends P be orderId : always (appends P) (select_order be orderId).
Proof.
  intros w. destruct (select_order_pure be orderId w) as (r & -> & _). reflexivity.
Qed.

Lemma update_order_appends P be orderId updates :
  always (appends P) (update_order be orderId updates).
Proof.
  intros w. unfold update_order.
  destruct (update_error be); [reflexivity|].
  destruct (orders w !! orderId); [|reflexivity]. by apply appends_same.
Qed.

Lemma insert_order_appends P be order : always (appends P) (insert_order be order).
Proof.
  intros w. unfold insert_order.
  destruct (insert_error be); [reflexivity|].
  destruct (orders w !! generated_id be); [reflexivity|]. by apply appends_same.
Qed.

Lemma insert_note_appends P be note : always (appends P) (insert_note be note).
Proof.
  intros w. unfold insert_note.
  destruct (note_error be); [reflexivity|]. by apply appends_same.
Qed.

Lemma createNotification_appends P be n : always (appends P) (createNotification be n).
Proof.
  intros w. unfold createNotification.
  destruct (notify be); try reflexivity. by apply appends_same.
Qed.

Lemma console_error_appends P label e : always (appends P) (console_error label e).
Proof. intros w. by apply appends_same. Qed.

Lemma createOrderActivity_appends (P : string -> Prop) be orderId userId ty desc ov nv :
  P ty -> always (appends P) (createOrderActivity be orderId userId ty desc ov nv).
Proof.
  intros HP w. rewrite createOrderActivity_eq.
  destruct (activity_error be); [reflexivity|].
  eexists [_]. split; [reflexivity|]. by repeat constructor.
Qed.

Ltac always_step :=
  first
    [ apply appends_ret
    | apply select_order_appends
    | apply update_order_appends
    | apply insert_order_appends
    | apply insert_note_appends
    | apply createNotification_appends
    | apply console_error_appends
    | apply createOrderActivity_appends; unfold order_kinds; set_solver
    | apply appends_when
    | apply appends_bind; [|intros ?]
    | apply appends_try_catch; [|intros ?] ].

Ltac always_auto := repeat first [always_step | case_match].

Lemma updateOrder_kinds labels be orderId updates :
  always (appends order_kind) (updateOrder labels be orderId updates).
Proof.
  unfold updateOrder, log_changes, log_status_change, log_user_assignment,
    log_team_assignment, createStatusChangeNotification, order_kind.
  always_auto.
Qed.

Lemma createOrder_kinds be order : always (appends order_kind) (createOrder be order).
Proof. unfold createOrder, order_kind. always_auto. Qed.

Lemma createOrderNote_kinds be note : always (appends order_kind) (createOrderNote be note).
Proof. unfold createOrderNote, order_kind. always_auto. Qed.

(** ** Statistics *)

Lemma digits2_pos_iter (k p : positive) :
  digits2_pos (Pos.iter xO p k) = (digits2_pos p + k)%positive.
Proof.
  induction k as [|k IH] using Pos.peano_ind.
  - simpl. lia.
  - rewrite Pos.iter_succ. simpl. rewrite IH. lia.
Qed.

Lemma digits2_pos_lower (q : positive) : (2 ^ (Z.pos (digits2_pos q) - 1) <= Z.pos q)%Z.
Proof.
  induction q as [q IH|q IH|]; simpl digits2_pos; [| |simpl; lia];
    rewrite Pos2Z.inj_succ;
    replace (Z.succ (Z.pos (digits2_pos q)) - 1)%Z
      with (Z.succ (Z.pos (digits2_pos q) - 1))%Z by lia;
    rewrite Z.pow_succ_r by lia; lia.
Qed.

Lemma digits2_pos_bound (p : positive) :
  (Z.pos p < 2 ^ 53)%Z -> (Z.pos (digits2_pos p) <= 53)%Z.
Proof.
  intros H. pose proof (digits2_pos_lower p) as G.
  destruct (Z_le_gt_dec (Z.pos (digits2_pos p)) 53) as [|Hgt]; [assumption|].
  exfalso.
  assert (2 ^ 53 <= 2 ^ (Z.pos (digits2_pos p) - 1))%Z by (apply Z.pow_le_mono_r; lia).
  lia.
Qed.

(** A mantissa of 53 digits with an exponent in range is kept as it is. *)
Lemma binary_round_aux_exact (s : bool) (m : positive) (e : Z) :
  Z.pos (digits2_pos m) = 53%Z -> (-1074 <= e <= 971)%Z ->
  binary_round_aux 53 1024 s (Z.pos m) e loc_Exact = S754_finite s m e.
Proof.
  intros Hd He.
  assert (Hf : (fexp 53 1024 (Zdigits2 (Z.pos m) + e) - e)%Z = 0%Z).
  { unfold fexp, emin, Zdigits2. rewrite Hd. lia. }
  unfold binary_round_aux, shr_fexp. rewrite Hf.
  cbn [shr shr_record_of_loc shr_m loc_of_shr_record shr_r shr_s round_nearest_even].
  rewrite Hf. cbn [shr shr_record_of_loc shr_m].
  replace (e <=? 1024 - 53)%Z with true by (symmetry; apply Z.leb_le; lia).
  reflexivity.
Qed.

(** A positive integer below 2^53 is a finite number that is not zero. *)
Lemma integer_finite (z : Z) :
  (0 < z < 2 ^ 53)%Z -> exists m e, integer z = S754_finite false m e.
Proof.
  intros [Hpos Hlt]. destruct z as [|p|p]; try lia.
  pose proof (digits2_pos_bound p Hlt) as Hd.
  unfold integer, binary_normalize, binary_round.
  assert (Hf : fexp 53 1024 (Z.pos (digits2_pos p) + 0) = (Z.pos (digits2_pos p) - 53)%Z).
  { unfold fexp, emin. lia. }
  rewrite Hf. unfold shl_align.
  destruct (Z.pos (digits2_pos p) - 53 - 0)%Z as [|q|q] eqn:Hq; try lia.
  - rewrite binary_round_aux_exact by lia. eauto.
  - rewrite binary_round_aux_exact; [eauto| |lia].
    rewrite digits2_pos_iter. lia.
Qed.

Lemma sum_values_from (orders : list Order) (a : number) :
  fold_left (fun sum order => add sum (or_zero (value order))) orders a
  = running_sum a orders.
Proof. revert a. induction orders as [|o orders IH]; intros a; simpl; [done|apply IH]. Qed.

Lemma sum_values_total orders : sum_values orders = total_value orders.
Proof. apply sum_values_from. Qed.

Lemma or_zero_filled v : or_zero (Some (default (integer 0) v)) = or_zero v.
Proof. by destruct v as [[| | |]|]. Qed.

(** Writing the missing values out as 0 does not change the sum. *)
Lemma running_sum_null_as_zero orders a :
  running_sum a (with_null_as_zero <$> orders) = running_sum a orders.
Proof.
  revert a. induction orders as [|o orders IH]; intros a; [done|].
  rewrite fmap_cons. cbn [running_sum].
  replace (or_zero (value (with_null_as_zero o))) with (or_zero (value o))
    by (symmetry; apply or_zero_filled).
  apply IH.
Qed.

Lemma getOrderStats_average response :
  error response = None ->
  exists stats,
    getOrderStats response = mkResult (Some stats) None /\
    totalOrders stats = length (default [] (data response)) /\
    totalValue stats = total_value (default [] (data response)) /\
    averageValue stats =
      if bool_decide (0 < totalOrders stats)
      then divide (totalValue stats) (integer (Z.of_nat (totalOrders stats)))
      else integer 0.
Proof.
  intros Herr. unfold getOrderStats. rewrite Herr.
  eexists. split; [reflexivity|]. simpl.
  split; [done|]. split; [apply sum_values_total|done].
Qed.

(** ** The empty status, and a refused audit row *)

Lemma status_changes_empty s o :
  truthy s = false -> status_changes (status_patch s) o = None.
Proof. intros Ht. unfold status_changes; simpl. by rewrite Ht. Qed.

(** An empty requested status is written, and nothing is logged. *)
Lemma transition_empty_status labels be orderId s w o :
  update_error be = None ->
  orders w !! orderId = Some o ->
  truthy s = false ->
  updateOrder labels be orderId (status_patch s) w =
  (Returned (success (with_relations w (patch (status_patch s) o))),
   written orderId (status_patch s) o w).
Proof.
  intros Hupd Hrow Ht.
  unfold updateOrder, try_catch, bind.
  destruct (select_order_pure be orderId w) as (cur & -> & Hcur).
  rewrite (update_order_found _ _ _ _ _ Hupd Hrow).
  rewrite with_relations_written. simpl.
  unfold log_changes. destruct (data cur) as [c|]; [|reflexivity].
  unfold log_status_change, log_user_assignment, log_team_assignment.
  rewrite (status_changes_empty s c Ht). reflexivity.
Qed.

(** A created order whose audit row the store turns down. *)
Lemma createOrder_unlogged be order w e :
  insert_error be = None ->
  activity_error be = Some e ->
  orders w !! generated_id be = None ->
  let r := createOrder be order w in
  let o := to_row (generated_id be) order in
  r.1 = Returned (success (with_relations w o)) /\
  orders r.2 = <[generated_id be := o]> (orders w) /\
  order_activities r.2 = order_activities w /\
  console r.2 = console w.
Proof.
  intros Hins Hact Hfresh. cbv zeta.
  unfold createOrder, try_catch, bind, insert_order.
  rewrite Hins, Hfresh. simpl.
  rewrite createOrderActivity_eq, Hact. simpl. done.
Qed.

End OrdersFacts.

(** * Properties of the kanban board *)

Module LeadKanbanFacts.
Import LeadKanban.
#[local] Open Scope list_scope.

Lemma handleDrop_same_status be newStatus st db dragged :
  draggedLead st = Some dragged ->
  status dragged = newStatus ->
  handleDrop be newStatus st db = (setDraggedLead None st, db).
Proof.
  intros Hd Hs. unfold handleDrop. rewrite Hd.
  by rewrite bool_decide_eq_true_2.
Qed.

Lemma handleDrop_logged be newStatus st db dragged u l :
  user st = Some u ->
  draggedLead st = Some dragged ->
  status dragged <> newStatus ->
  update_error be = None ->
  activity_error be = None ->
  lead_rows db !! id dragged = Some l ->
  let r := handleDrop be newStatus st db in
  lead_activities r.2 = lead_activities db ++ [drop_activity u dragged newStatus] /\
  status <$> lead_rows r.2 !! id dragged = Some newStatus.
Proof.
  intros Hu Hd Hs Hupd Hact Hrow. cbv zeta.
  unfold handleDrop, handleStatusChange, updateLead, createLeadActivity.
  rewrite Hd, bool_decide_eq_false_2, Hupd, Hrow by done. simpl.
  rewrite Hu, Hact. simpl. split; [done|].
  by rewrite lookup_insert_eq.
Qed.

#[local] Instance lead_appends_preorder P : PreOrder (appends P).
Proof.
  split.
  - intros db. exists []. by rewrite app_nil_r.
  - intros d1 d2 d3 (l1 & H1 & F1) (l2 & H2 & F2). exists (l1 ++ l2).
    rewrite H2, H1, app_assoc. split; [done|]. by apply Forall_app.
Qed.

Lemma lead_appends_same P db db' :
  lead_activities db' = lead_activities db -> appends P db db'.
Proof. intros H. exists []. by rewrite app_nil_r. Qed.

Lemma updateLead_appends P be leadId updates db :
  appends P db (updateLead be leadId updates db).2.
Proof.
  unfold updateLead. destruct (update_error be); [reflexivity|].
  destruct (lead_rows db !! leadId); by apply lead_appends_same.
Qed.

Lemma createLeadNote_appends P be leadId userId content db :
  appends P db (createLeadNote be leadId userId content db).2.
Proof. unfold createLeadNote. destruct (note_error be); by apply lead_appends_same. Qed.

Lemma createLeadActivity_appends (P : string -> Prop) be leadId userId ty desc db :
  P ty -> appends P db (createLeadActivity be leadId userId ty desc db).2.
Proof.
  intros HP. unfold createLeadActivity. destruct (activity_error be); [reflexivity|].
  eexists [_]. split; [reflexivity|]. by repeat constructor.
Qed.

Lemma lead_kind_status_change : lead_kind "status_change".
Proof. unfold lead_kind, lead_kinds. set_solver. Qed.
Lemma lead_kind_assignment_change : lead_kind "assignment_change".
Proof. unfold lead_kind, lead_kinds. set_solver. Qed.
Lemma lead_kind_note_added : lead_kind "note_added".
Proof. unfold lead_kind, lead_kinds. set_solver. Qed.
Lemma lead_kind_converted_to_quote : lead_kind "converted_to_quote".
Proof. unfold lead_kind, lead_kinds. set_solver. Qed.

Lemma handleStatusChange_kinds be leadId newStatus oldStatus st db :
  appends lead_kind db (handleStatusChange be leadId newStatus oldStatus st db).2.
Proof.
  unfold handleStatusChange. destruct (user st) as [u|]; [|reflexivity].
  match goal with
  | |- context [createLeadActivity ?b ?l ?u ?t ?d ?db] =>
      pose proof (createLeadActivity_appends lead_kind b l u t d db
                    lead_kind_status_change) as H;
      destruct (createLeadActivity b l u t d db)
  end.
  exact H.
Qed.

Lemma handleDrop_kinds be newStatus st db :
  appends lead_kind db (handleDrop be newStatus st db).2.
Proof.
  unfold handleDrop. destruct (draggedLead st) as [dragged|]; [|reflexivity].
  case_bool_decide; [reflexivity|].
  pose proof (updateLead_appends lead_kind be (id dragged)
                (mkLeadPatch (Some newStatus) None) db) as H1.
  destruct (updateLead _ _ _ db) as [result db1]. simpl in H1.
  destruct (error result); [exact H1|].
  match goal with
  | |- context [handleStatusChange ?b ?l ?n ?o ?s ?d] =>
      pose proof (handleStatusChange_kinds b l n o s d) as H2;
      destruct (handleStatusChange b l n o s d)
  end.
  simpl in *. by etransitivity.
Qed.

Lemma handleAssignmentChange_kinds be leadId newAssignedUserId st db :
  appends lead_kind db (handleAssignmentChange be leadId newAssignedUserId st db).2.
Proof.
  unfold handleAssignmentChange.
  pose proof (updateLead_appends lead_kind be leadId
                (mkLeadPatch None (Some (or_null newAssignedUserId))) db) as H1.
  destruct (updateLead _ _ _ db) as [result db1]. simpl in H1.
  destruct (error result); [exact H1|].
  destruct (user st) as [u|]; [|exact H1].
  match goal with
  | |- context [createLeadActivity ?b ?l ?u ?t ?d ?db] =>
      pose proof (createLeadActivity_appends lead_kind b l u t d db
                    lead_kind_assignment_change) as H2;
      destruct (createLeadActivity b l u t d db)
  end.
  simpl in *. by etransitivity.
Qed.

Lemma handleConvertToQuote_kinds be st db :
  appends lead_kind db (handleConvertToQuote be st db).2.
Proof.
  unfold handleConvertToQuote.
  destruct (selectedLead st) as [sel|]; [|reflexivity].
  destruct (user st) as [u|]; [|reflexivity].
  match goal with
  | |- context [createLeadActivity ?b ?l ?u ?t ?d ?db] =>
      pose proof (createLeadActivity_appends lead_kind b l u t d db
                    lead_kind_converted_to_quote) as H1;
      destruct (createLeadActivity b l u t d db) as [r1 db1]
  end.
  simpl in H1. case_bool_decide; [exact H1|].
  pose proof (updateLead_appends lead_kind be (id sel)
                (mkLeadPatch (Some qualified) None) db1) as H2.
  destruct (updateLead _ _ _ db1) as [r2 db2]. simpl in *. by etransitivity.
Qed.

Lemma handleAddNote_kinds be st db :
  appends lead_kind db (handleAddNote be st db).2.
Proof.
  unfold handleAddNote.
  destruct (selectedLead st) as [sel|]; [|reflexivity].
  destruct (user st) as [u|]; [|reflexivity].
  destruct (truthy (trim (newNote st))); [|reflexivity].
  pose proof (createLeadNote_appends lead_kind be (id sel) (profile_id u)
                (trim (newNote st)) db) as H1.
  destruct (createLeadNote _ _ _ _ db) as [result db1]. simpl in H1.
  destruct (error result); [exact H1|].
  destruct (data result) as [n|]; [|exact H1].
  match goal with
  | |- context [createLeadActivity ?b ?l ?u ?t ?d ?db] =>
      pose proof (createLeadActivity_appends lead_kind b l u t d db
                    lead_kind_note_added) as H2;
      destruct (createLeadActivity b l u t d db)
  end.
  simpl in *. by etransitivity.
Qed.

Lemma dispatch_kinds be a st db : appends lead_kind db (dispatch be a st db).2.
Proof.
  destruct a; simpl; try reflexivity.
  - apply handleDrop_kinds.
  - apply handleAssignmentChange_kinds.
  - apply handleConvertToQuote_kinds.
  - apply handleAddNote_kinds.
Qed.

End LeadKanbanFacts.

(** * Properties of time tracking *)

Module WorkerScheduleFacts.
Import WorkerSchedule.
#[local] Open Scope list_scope.

Lemma find_none_filter {A} (p : A -> bool) (l : list A) :
  List.find p l = None -> List.filter p l = [].
Proof.
  induction l as [|x l IH]; simpl; [done|].
  destruct (p x); [done|]. exact IH.
Qed.

Lemma find_some_filter {A} (p : A -> bool) (l : list A) x :
  List.find p l = Some x -> In x (List.filter p l).
Proof.
  induction l as [|y l IH]; simpl; [done|].
  destruct (p y) eqn:Hp.
  - intros [= ->]. by left.
  - exact IH.
Qed.

Lemma is_active_other workerId s :
  user_id s <> workerId -> is_active workerId s = false.
Proof. intros H. unfold is_active. by rewrite bool_decide_eq_false_2. Qed.

Lemma is_active_close workerId now s : is_active workerId (close now s) = false.
Proof. unfold is_active. simpl. apply andb_false_r. Qed.

Lemma startTimeTracking_when_active orderId userId workType loc weatherText now newId logs s :
  getActiveTimeLog userId logs = Some s ->
  startTimeTracking orderId userId workType loc weatherText now newId logs
  = (inl SessionAlreadyActive, logs).
Proof. intros H. unfold startTimeTracking. by rewrite H. Qed.

Lemma startTimeTracking_invariant orderId userId workType loc weatherText now newId logs :
  at_most_one_active logs ->
  at_most_one_active
    (startTimeTracking orderId userId workType loc weatherText now newId logs).2.
Proof.
  intros Hinv. unfold startTimeTracking.
  destruct (getActiveTimeLog userId logs) eqn:Hact; [exact Hinv|].
  case_bool_decide; [exact Hinv|]. simpl.
  intros workerId. unfold active_sessions. rewrite List.filter_app, length_app. simpl.
  destruct (decide (userId = workerId)) as [<-|Hne].
  - unfold getActiveTimeLog in Hact. rewrite (find_none_filter _ _ Hact).
    destruct (is_active _ _); simpl; lia.
  - rewrite is_active_other by done. simpl.
    specialize (Hinv workerId). unfold active_sessions in Hinv. lia.
Qed.

Lemma filter_map_shrinks {A} (p : A -> bool) (f : A -> A) (l : list A) :
  (forall x, p (f x) = true -> f x = x) ->
  length (List.filter p (map f l)) <= length (List.filter p l).
Proof.
  intros Hf. induction l as [|x l IH]; simpl; [done|].
  destruct (p (f x)) eqn:Hp.
  - rewrite (Hf x Hp) in Hp. rewrite Hp. simpl. lia.
  - destruct (p x); simpl; lia.
Qed.

Lemma stopTimeTracking_invariant sessionId now logs :
  at_most_one_active logs ->
  at_most_one_active (stopTimeTracking sessionId now logs).2.
Proof.
  intros Hinv. unfold stopTimeTracking.
  destruct (List.find _ logs) as [s|]; [|exact Hinv].
  destruct (end_time s); [exact Hinv|]. simpl.
  intros workerId. specialize (Hinv workerId). unfold active_sessions in *.
  etransitivity; [|exact Hinv].
  apply filter_map_shrinks. intros x. case_bool_decide; [|done].
  by rewrite is_active_close.
Qed.

Lemma step_invariant r logs : at_most_one_active logs -> at_most_one_active (step r logs).
Proof.
  destruct r; simpl.
  - apply startTimeTracking_invariant.
  - apply stopTimeTracking_invariant.
Qed.

Lemma run_requests_invariant rs logs :
  at_most_one_active logs -> at_most_one_active (run_requests rs logs).
Proof.
  revert logs. induction rs as [|r rs IH]; intros logs Hinv; simpl; [done|].
  apply IH. by apply step_invariant.
Qed.

Lemma empty_invariant : at_most_one_active [].
Proof. intros workerId. simpl. lia. Qed.

(** With the invariant, the session [getActiveTimeLog] returns is the only
    open one of the worker. *)
Lemma getActiveTimeLog_unique workerId logs s :
  at_most_one_active logs ->
  getActiveTimeLog workerId logs = Some s ->
  active_sessions workerId logs = [s].
Proof.
  intros Hinv Hget. specialize (Hinv workerId).
  apply find_some_filter in Hget. unfold active_sessions in *.
  destruct (List.filter _ logs) as [|x [|y l]]; simpl in *; [done| |lia].
  by destruct Hget as [->|[]].
Qed.

Lemma handleStartTracking_when_active orderId workType loc weatherData now newId st logs s :
  getActiveTimeLog (user st) logs = Some s ->
  handleStartTracking orderId workType loc weatherData now newId st logs
  = (toast (ToastError "Kunde inte starta tidtagning" "SessionAlreadyActive") st, logs).
Proof.
  intros H. unfold handleStartTracking.
  by rewrite (startTimeTracking_when_active _ _ _ _ _ _ _ _ _ H).
Qed.

(** The page offers to start tracking only while it knows of no open session. *)
Lemma control_start st relatedOrderId :
  control st relatedOrderId = StartButton <-> activeTimeLog st = None.
Proof.
  unfold control. destruct (activeTimeLog st) as [a|]; [|done].
  case_bool_decide; split; discriminate.
Qed.

End WorkerScheduleFacts.

(** * The properties of the specification *)

#[local] Open Scope list_scope.

(** C1. Whatever calls have reached the session manager, no worker has more
    than one session with a null end timestamp; and when [getActiveTimeLog]
    finds a session of the worker, [startTimeTracking] fails with
    SessionAlreadyActive and leaves the store as it is: no session is added,
    the earlier one is not closed and [getActiveTimeLog] still returns it. *)
Theorem single_active_session
    (rs : list WorkerSchedule.Request) (orderId userId : string)
    (workType : option string) (loc : option WorkerSchedule.Location)
    (weatherText : option string) (now : Z) (newId : string)
    (s : WorkerSchedule.TimeLog) :
  let logs := WorkerSchedule.run_requests rs [] in
  WorkerSchedule.at_most_one_active logs /\
  (WorkerSchedule.getActiveTimeLog userId logs = Some s ->
   let r := WorkerSchedule.startTimeTracking orderId userId workType loc weatherText
              now newId logs in
   r.1 = inl WorkerSchedule.SessionAlreadyActive /\
   r.2 = logs /\
   WorkerSchedule.getActiveTimeLog userId r.2 = Some s /\
   WorkerSchedule.active_sessions userId r.2 = [s]).
Proof.
  cbv zeta.
  assert (Hinv : WorkerSchedule.at_most_one_active (WorkerSchedule.run_requests rs [])).
  { apply WorkerScheduleFacts.run_requests_invariant, WorkerScheduleFacts.empty_invariant. }
  split; [exact Hinv|]. intros Hget.
  rewrite (WorkerScheduleFacts.startTimeTracking_when_active _ _ _ _ _ _ _ _ _ Hget).
  simpl. repeat split; [exact Hget|].
  by apply WorkerScheduleFacts.getActiveTimeLog_unique.
Qed.

Lemma single_active_session_witness :
  let logs := WorkerSchedule.run_requests [Samples.start_O1] [] in
  WorkerSchedule.getActiveTimeLog "w1" logs = Some Samples.session_O1 /\
  let r := WorkerSchedule.startTimeTracking "O2" "w1" None None None 200 "s2" logs in
  r.1 = inl WorkerSchedule.SessionAlreadyActive /\
  r.2 = logs /\
  WorkerSchedule.getActiveTimeLog "w1" r.2 = Some Samples.session_O1 /\
  WorkerSchedule.active_sessions "w1" r.2 = [Samples.session_O1].
Proof.
  split; [reflexivity|].
  exact (proj2 (single_active_session [Samples.start_O1] "O2" "w1" None None None 200 "s2"
                  Samples.session_O1) eq_refl).
Defined.

(** C2, as stated, fails on lib/orders. The transition of order L1, which is
    assigned to u1, from new to contacted leaves a journal in which the
    notification is enqueued before the status_changed activity is appended:
    the order write, activity, notification is not the one of the code. *)
Lemma notification_precedes_activity :
  let r := Orders.updateOrder Samples.labels Samples.reliable "L1"
             (Orders.status_patch "contacted") Samples.world in
  Orders.trace r.2 =
    [Orders.OrderWritten "L1";
     Orders.NotificationEnqueued
       (Orders.StatusUpdateNotification "u1" "Takbyte" (Some "Ny") (Some "Kontaktad")
          "/ordrar?highlight=L1");
     Orders.ActivityAppended
       (Orders.mkOrderActivity "L1" None "status_changed"
          "Status ändrad från Ny till Kontaktad" (Some "new") (Some "contacted"))] /\
  ~ Orders.write_activity_notification (Orders.trace r.2).
Proof.
  split; [vm_compute; reflexivity|].
  intros (i & j & k & Hi & Hj & Hk & Hij & Hjk).
  vm_compute in Hj, Hk. simplify_eq. lia.
Qed.

(** C2, amended. For every transition of [updateOrder] that changes the
    status, with every call going through, the journal grows by exactly: the
    write of the order, then the status notification when the order has an
    assigned user, then the status_changed activity. So the write comes
    first, the notification second and the activity last. *)
Theorem transition_effect_order
    (labels : gmap string string) (be : Orders.Backend) (orderId s : string)
    (w : Orders.World) (o : Orders.Order) :
  Orders.select_error be = None ->
  Orders.update_error be = None ->
  Orders.activity_error be = None ->
  Orders.notify be = Orders.Delivered ->
  Orders.orders w !! orderId = Some o ->
  truthy s = true ->
  s <> Orders.status o ->
  let r := Orders.updateOrder labels be orderId (Orders.status_patch s) w in
  Orders.trace r.2 =
    Orders.trace w ++ [Orders.OrderWritten orderId]
      ++ (Orders.NotificationEnqueued <$> option_list (Orders.status_notification labels o s))
      ++ [Orders.ActivityAppended (Orders.status_activity labels orderId o s)] /\
  (is_Some (Orders.status_notification labels o s) ->
   Orders.write_notification_activity (drop (length (Orders.trace w)) (Orders.trace r.2))).
Proof.
  intros Hsel Hupd Hact Hd Hrow Ht Hne. cbv zeta.
  rewrite (OrdersFacts.transition_trace _ _ _ _ _ _ Hsel Hupd Hact Hd Hrow Ht Hne).
  split; [done|]. intros [n Hn]. rewrite Hn, drop_app_length.
  exists 0, 1, 2. simpl. repeat split; lia.
Qed.

Lemma transition_effect_order_witness :
  let r := Orders.updateOrder Samples.labels Samples.reliable "L1"
             (Orders.status_patch "contacted") Samples.world in
  Orders.write_notification_activity (Orders.trace r.2).
Proof.
  refine (proj2 (transition_effect_order Samples.labels Samples.reliable "L1" "contacted"
                   Samples.world Samples.L1 eq_refl eq_refl eq_refl eq_refl _ eq_refl _) _).
  - reflexivity.
  - discriminate.
  - eexists. reflexivity.
Defined.

(** C3. A transition whose requested status is the current status succeeds
    as a no-op. [updateOrder] returns the row as it was, leaves the order
    table as it was and appends no activity and enqueues no notification;
    [handleDrop] on the column the lead is already in calls nothing: the lead
    store, its audit log and the list of leads stay as they were. *)
Theorem same_status_is_noop
    (labels : gmap string string) (be : Orders.Backend) (orderId : string)
    (w : Orders.World) (o : Orders.Order)
    (lbe : LeadKanban.Backend) (st : LeadKanban.State) (db : LeadKanban.Db)
    (dragged : LeadKanban.LeadWithRelations) :
  Orders.update_error be = None ->
  Orders.orders w !! orderId = Some o ->
  LeadKanban.draggedLead st = Some dragged ->
  (let r := Orders.updateOrder labels be orderId (Orders.status_patch (Orders.status o)) w in
   r.1 = Returned (success (Orders.with_relations w o)) /\
   Orders.orders r.2 = Orders.orders w /\
   Orders.order_activities r.2 = Orders.order_activities w /\
   Orders.notifications r.2 = Orders.notifications w) /\
  (let r := LeadKanban.handleDrop lbe (LeadKanban.status (LeadKanban.row dragged)) st db in
   r.2 = db /\ LeadKanban.leads r.1 = LeadKanban.leads st).
Proof.
  intros Hupd Hrow Hd. split.
  - by apply OrdersFacts.transition_same_status.
  - cbv zeta. by rewrite (LeadKanbanFacts.handleDrop_same_status _ _ _ _ _ Hd eq_refl).
Qed.

Lemma same_status_is_noop_witness :
  (Orders.updateOrder Samples.labels Samples.reliable "L1" (Orders.status_patch "new")
     Samples.world).1
  = Returned (success (Orders.with_relations Samples.world Samples.L1)) /\
  (LeadKanban.handleDrop Samples.lead_backend LeadKanban.new Samples.board Samples.lead_db).2
  = Samples.lead_db.
Proof.
  destruct (same_status_is_noop Samples.labels Samples.reliable "L1" Samples.world Samples.L1
              Samples.lead_backend Samples.board Samples.lead_db Samples.lead_L1
              eq_refl eq_refl eq_refl) as [(H1 & _) (H2 & _)].
  split; [exact H1 | exact H2].
Defined.

(** C4, as stated, fails on lib/orders. With the label table of the samples
    the status bogus is not a status; still the transition of L1 to bogus
    succeeds, the row then carries bogus, and a status_changed activity is
    appended whose new label prints as undefined. *)
Lemma unknown_status_is_written :
  let r := Orders.updateOrder Samples.labels Samples.reliable "L1"
             (Orders.status_patch "bogus") Samples.world in
  Samples.labels !! "bogus" = None /\
  error <$> (match r.1 with Returned x => Some x | Thrown _ => None end) = Some None /\
  Orders.status <$> Orders.orders r.2 !! "L1" = Some "bogus" /\
  Orders.order_activities r.2 =
    [Orders.mkOrderActivity "L1" None "status_changed"
       "Status ändrad från Ny till undefined" (Some "new") (Some "bogus")].
Proof. vm_compute. repeat split. Qed.

(** C4, amended. [updateOrder] has no InvalidStatus error and does not
    compare the requested status with the enum, which is the static type of
    the argument. Whether a status is turned down is the store's decision.
    When the store rejects the write, the operation fails with the store's
    message and nothing changes (no status change, no activity, no
    notification). When the store accepts it, any requested status that
    differs from the current one is written, in the label table or not. A
    status that is not empty is audited with one status_changed activity
    whose labels are what [ORDER_STATUS_LABELS[status]] prints; the empty
    status is written with no activity and no notification. A status that
    is neither in the table nor a member inherited from [Object.prototype]
    prints as undefined. *)
Theorem status_is_checked_by_the_store_only
    (labels : gmap string string) (rejecting accepting : Orders.Backend)
    (orderId s : string) (w : Orders.World) (o : Orders.Order) (e : Error) :
  Orders.orders w !! orderId = Some o ->
  s <> Orders.status o ->
  Orders.update_error rejecting = Some e ->
  Orders.select_error accepting = None ->
  Orders.update_error accepting = None ->
  Orders.activity_error accepting = None ->
  Orders.updateOrder labels rejecting orderId (Orders.status_patch s) w
    = (Returned (failure (new_Error e)), w) /\
  (let r := Orders.updateOrder labels accepting orderId (Orders.status_patch s) w in
   (exists d, r.1 = Returned (success d) /\ Orders.status (Orders.row d) = s) /\
   Orders.status <$> Orders.orders r.2 !! orderId = Some s /\
   Orders.order_activities r.2 =
     Orders.order_activities w ++
     (if truthy s
      then [Orders.mkOrderActivity orderId None "status_changed"
              ("Status ändrad från " +:+ interpolate (property labels (Orders.status o))
                 +:+ " till " +:+ interpolate (property labels s))
              (Some (Orders.status o)) (Some s)]
      else []) /\
   (truthy s = false -> Orders.notifications r.2 = Orders.notifications w)) /\
  (labels !! s = None -> inherited s = None ->
   interpolate (property labels s) = "undefined").
Proof.
  intros Hrow Hne Hrej Hsel Hupd Hact. split; [|split].
  - by apply OrdersFacts.updateOrder_rejected.
  - cbv zeta. destruct (truthy s) eqn:Ht.
    + destruct (OrdersFacts.transition_logged labels accepting orderId s w o
                  Hsel Hupd Hact Hrow Ht Hne) as (Hr & Ha & Ho & _).
      cbv zeta in *. rewrite Hr, Ha, Ho, lookup_insert_eq.
      split; [|done]. eexists. split; [reflexivity|]. reflexivity.
    + rewrite (OrdersFacts.transition_empty_status labels accepting orderId s w o
                 Hupd Hrow Ht).
      simpl. rewrite lookup_insert_eq, app_nil_r.
      split; [|done]. eexists. split; [reflexivity|]. reflexivity.
  - intros Hown Hinh. unfold property. by rewrite Hown, Hinh.
Qed.

Lemma status_is_checked_by_the_store_only_witness :
  Orders.updateOrder Samples.labels Samples.store_rejects "L1"
    (Orders.status_patch "bogus") Samples.world
  = (Returned (failure (mkError "invalid input value for enum order_status")), Samples.world).
Proof.
  refine (proj1 (status_is_checked_by_the_store_only Samples.labels Samples.store_rejects
                   Samples.reliable "L1" "bogus" Samples.world Samples.L1
                   (mkError "invalid input value for enum order_status")
                   eq_refl _ eq_refl eq_refl eq_refl eq_refl)).
  discriminate.
Defined.

(** C5. The code does not do what the property says; this is the evaluation
    at the failing inputs. [updateOrder] is not told who acts. The user it
    hands to the generator as the one to exclude is the user the order was
    assigned to before the update. When team t1 (members u1 and u2) is put
    on order L1, which is assigned to u1, the notification reaches u2 only:
    if u2 made the assignment, u2 is notified of the own action and u1 is
    not told. On order L2, which is assigned to nobody, nobody is excluded,
    so whoever of the team made the assignment is notified as well. *)
Theorem team_notification_excludes_the_assignee :
  let r1 := Orders.updateOrder Samples.labels Samples.reliable "L1"
              (Orders.team_patch (Some "t1")) Samples.world in
  let n1 := Orders.TeamAssignmentNotification "t1" "L1" "Takbyte" "Takteam" (Some "u1") in
  let r2 := Orders.updateOrder Samples.labels Samples.reliable "L2"
              (Orders.team_patch (Some "t1")) Samples.world in
  let n2 := Orders.TeamAssignmentNotification "t1" "L2" "Altanbygge" "Takteam" None in
  Orders.notifications r1.2 = [n1] /\
  Orders.recipients r1.2 n1 = ["u2"] /\
  Orders.notifications r2.2 = [n2] /\
  Orders.recipients r2.2 n2 = ["u1"; "u2"].
Proof. vm_compute. repeat split. Qed.

(** C6. The code does not do what the property says on the assignment path;
    this is the evaluation at the failing input. With a notification sink
    that rejects, assigning order L1 to u2 writes the new assignee, and then
    [updateOrder] falls into its catch block: it returns the error with no
    data and the assigned activity is never appended. The status path, with
    the same sink, logs the failure and returns the updated order. *)
Theorem assignment_notification_failure_surfaces :
  let r := Orders.updateOrder Samples.labels Samples.sink_down "L1"
             (Orders.user_patch (Some "u2")) Samples.world in
  let t := Orders.updateOrder Samples.labels Samples.sink_down "L1"
             (Orders.status_patch "contacted") Samples.world in
  r.1 = Returned (mkResult None (Some (mkError "fetch failed"))) /\
  Orders.assigned_to_user_id <$> Orders.orders r.2 !! "L1" = Some (Some "u2") /\
  Orders.order_activities r.2 = [] /\
  Orders.console r.2 = [("Error updating order:", mkError "fetch failed")] /\
  error <$> (match t.1 with Returned x => Some x | Thrown _ => None end) = Some None /\
  Orders.status <$> Orders.orders t.2 !! "L1" = Some "contacted" /\
  Orders.console t.2 =
    [("Error creating status change notification:", mkError "fetch failed")].
Proof. vm_compute. repeat split. Qed.

(** C7, as stated, fails on the kanban board. Dropping lead L1 (status new)
    on the column contacted appends one activity with the description of the
    property, but its kind is status_change, not status_changed, and it
    carries no old and no new value. *)
Lemma lead_status_activity_kind :
  let r := LeadKanban.handleDrop Samples.lead_backend LeadKanban.contacted
             Samples.board Samples.lead_db in
  LeadKanban.lead_activities r.2 =
    [LeadKanban.mkLeadActivity "L1" (Some "u1") "status_change"
       "Status ändrad från Ny till Kontaktad" None None] /\
  Forall (fun a => LeadKanban.activity_type a <> "status_changed" /\
                   LeadKanban.old_value a = None /\ LeadKanban.new_value a = None)
    (LeadKanban.lead_activities r.2).
Proof.
  split; [vm_compute; reflexivity|].
  vm_compute. repeat constructor. discriminate.
Qed.

(** C7, amended. A transition of [updateOrder] that changes the status, the
    store answering the calls, appends exactly one activity: its kind is
    status_changed, it carries the old and the new status, its description
    is rendered from ORDER_STATUS_LABELS, and reading the order afterwards
    returns the new status. A drop on the kanban board that changes the
    status of a lead, with a signed-in user, appends exactly one activity of
    kind status_change, with the description rendered from the label table of
    the board and without old and new value, and the stored lead then has
    the new status. *)
Theorem transition_appends_one_activity
    (labels : gmap string string) (be : Orders.Backend) (orderId s : string)
    (w : Orders.World) (o : Orders.Order)
    (lbe : LeadKanban.Backend) (newStatus : LeadKanban.LeadStatus)
    (st : LeadKanban.State) (db : LeadKanban.Db)
    (dragged : LeadKanban.LeadWithRelations) (u : LeadKanban.UserProfile)
    (l : LeadKanban.Lead) :
  Orders.select_error be = None ->
  Orders.update_error be = None ->
  Orders.activity_error be = None ->
  Orders.orders w !! orderId = Some o ->
  truthy s = true ->
  s <> Orders.status o ->
  LeadKanban.user st = Some u ->
  LeadKanban.draggedLead st = Some dragged ->
  LeadKanban.status (LeadKanban.row dragged) <> newStatus ->
  LeadKanban.update_error lbe = None ->
  LeadKanban.activity_error lbe = None ->
  LeadKanban.lead_rows db !! LeadKanban.id (LeadKanban.row dragged) = Some l ->
  (let r := Orders.updateOrder labels be orderId (Orders.status_patch s) w in
   (exists d, r.1 = Returned (success d) /\ Orders.status (Orders.row d) = s) /\
   Orders.order_activities r.2 =
     Orders.order_activities w ++
     [Orders.mkOrderActivity orderId None "status_changed"
        ("Status ändrad från " +:+ interpolate (property labels (Orders.status o))
           +:+ " till " +:+ interpolate (property labels s))
        (Some (Orders.status o)) (Some s)] /\
   (exists d, (Orders.getOrder be orderId r.2).1 = Returned (success d) /\
              Orders.status (Orders.row (Orders.relations d)) = s)) /\
  (let r := LeadKanban.handleDrop lbe newStatus st db in
   LeadKanban.lead_activities r.2 =
     LeadKanban.lead_activities db ++
     [LeadKanban.mkLeadActivity (LeadKanban.id (LeadKanban.row dragged))
        (Some (LeadKanban.profile_id u)) "status_change"
        ("Status ändrad från "
           +:+ LeadKanban.statusLabels (LeadKanban.status (LeadKanban.row dragged))
           +:+ " till " +:+ LeadKanban.statusLabels newStatus)
        None None] /\
   LeadKanban.status <$> LeadKanban.lead_rows r.2 !! LeadKanban.id (LeadKanban.row dragged)
     = Some newStatus).
Proof.
  intros Hsel Hupd Hact Hrow Ht Hne Hu Hd Hs Hlupd Hlact Hlrow. split.
  - destruct (OrdersFacts.transition_logged labels be orderId s w o
                Hsel Hupd Hact Hrow Ht Hne) as (Hr & Ha & Ho & _).
    cbv zeta in *. rewrite Hr, Ha. split; [|split; [done|]].
    + eexists. split; reflexivity.
    + unfold Orders.getOrder, Orders.try_catch, Orders.bind.
      rewrite (OrdersFacts.select_order_found be orderId _
                 (Orders.patch (Orders.status_patch s) o) Hsel)
        by (rewrite Ho; apply lookup_insert_eq).
      simpl. eexists. split; reflexivity.
  - exact (LeadKanbanFacts.handleDrop_logged lbe newStatus st db dragged u l
             Hu Hd Hs Hlupd Hlact Hlrow).
Qed.

Lemma transition_appends_one_activity_witness :
  Orders.order_activities
    (Orders.updateOrder Samples.labels Samples.reliable "L1"
       (Orders.status_patch "contacted") Samples.world).2
  = [Orders.mkOrderActivity "L1" None "status_changed"
       "Status ändrad från Ny till Kontaktad" (Some "new") (Some "contacted")] /\
  LeadKanban.lead_activities
    (LeadKanban.handleDrop Samples.lead_backend LeadKanban.contacted
       Samples.board Samples.lead_db).2
  = [LeadKanban.mkLeadActivity "L1" (Some "u1") "status_change"
       "Status ändrad från Ny till Kontaktad" None None].
Proof.
  assert (H1 : "contacted" <> Orders.status Samples.L1) by discriminate.
  assert (H2 : LeadKanban.status (LeadKanban.row Samples.lead_L1) <> LeadKanban.contacted)
    by discriminate.
  destruct (transition_appends_one_activity Samples.labels Samples.reliable "L1" "contacted"
              Samples.world Samples.L1 Samples.lead_backend LeadKanban.contacted
              Samples.board Samples.lead_db Samples.lead_L1 Samples.anna
              (LeadKanban.row Samples.lead_L1)
              eq_refl eq_refl eq_refl eq_refl eq_refl H1
              eq_refl eq_refl H2 eq_refl eq_refl eq_refl)
    as [(_ & Ha & _) (Hl & _)].
  split; [exact Ha | exact Hl].
Defined.

(** C8, as stated, fails on the kanban board. Assigning lead L1 to Bo
    appends an activity of kind assignment_change, which is not one of
    created, status_changed, assigned, team_assigned, note_added, converted,
    custom. *)
Lemma lead_activity_kind_outside_enum :
  let r := LeadKanban.handleAssignmentChange Samples.lead_backend "L1" "u2"
             Samples.board Samples.lead_db in
  LeadKanban.lead_activities r.2 =
    [LeadKanban.mkLeadActivity "L1" (Some "u1") "assignment_change"
       "Lead tilldelad till Bo" None None] /\
  Exists (fun a => LeadKanban.activity_type a ∉ Orders.activity_kinds)
    (LeadKanban.lead_activities r.2).
Proof.
  split; [vm_compute; reflexivity|].
  apply Exists_cons_hd. simpl. unfold Orders.activity_kinds.
  rewrite !not_elem_of_cons. repeat split; try discriminate. apply not_elem_of_nil.
Qed.

(** C8, amended. Every operation of lib/orders that writes to the store
    ([createOrder], [updateOrder], [createOrderNote]) only appends
    activities of kind created, status_changed, assigned, team_assigned or
    note_added, all of them kinds of the data model. Every action on the
    kanban board only appends activities of kind status_change,
    assignment_change, note_added or converted_to_quote. *)
Theorem activity_kinds_written :
  (forall labels be op w,
     Orders.appends Orders.order_kind w (Orders.run labels be op w)) /\
  Orders.order_kinds ⊆ Orders.activity_kinds /\
  (forall be a st db,
     LeadKanban.appends LeadKanban.lead_kind db (LeadKanban.dispatch be a st db).2).
Proof.
  split; [|split].
  - intros labels be [order | orderId updates | note] w; simpl.
    + apply OrdersFacts.createOrder_kinds.
    + apply OrdersFacts.updateOrder_kinds.
    + apply OrdersFacts.createOrderNote_kinds.
  - unfold Orders.order_kinds, Orders.activity_kinds. intros x.
    rewrite !elem_of_cons, !elem_of_nil. tauto.
  - apply LeadKanbanFacts.dispatch_kinds.
Qed.

(** C9, as stated, fails on lib/orders. With a store that turns the audit
    row down, [createOrder] still returns the created order, the order is in
    the table, and no activity is appended; the refusal is not logged on the
    console either. *)
Lemma created_order_without_activity :
  let order := Orders.mkNewOrder "org" "Altanbygge" "new" None None None in
  let r := Orders.createOrder Samples.audit_down order Samples.world in
  r.1 = Returned (success (Orders.with_relations Samples.world (Orders.to_row "o2" order))) /\
  Orders.orders r.2 !! "o2" = Some (Orders.to_row "o2" order) /\
  Orders.order_activities r.2 = [] /\
  Orders.console r.2 = [].
Proof. vm_compute. repeat split. Qed.

(** C9, amended. Whenever [createOrder] returns a created order, the order
    is in the table, and the audit log grows by exactly one activity when
    the store takes the audit row (it refers to the new order, has no acting
    user, kind created and description Order skapad) and by none when the
    store turns the audit row down: [createOrder] does not look at what
    [createOrderActivity] returned. *)
Theorem createOrder_appends_created
    (be : Orders.Backend) (order : Orders.NewOrder) (w : Orders.World)
    (d : Orders.OrderWithRelations) :
  (Orders.createOrder be order w).1 = Returned (mkResult (Some d) None) ->
  Orders.order_activities (Orders.createOrder be order w).2 =
    Orders.order_activities w ++
    match Orders.activity_error be with
    | Some _ => []
    | None => [Orders.mkOrderActivity (Orders.id (Orders.row d)) None "created"
                 "Order skapad" None None]
    end /\
  Orders.orders (Orders.createOrder be order w).2 !! Orders.id (Orders.row d)
    = Some (Orders.row d).
Proof.
  intros Hres.
  destruct (Orders.insert_error be) as [e|] eqn:Hins.
  { unfold Orders.createOrder, Orders.try_catch, Orders.bind, Orders.insert_order in Hres.
    rewrite Hins in Hres. simpl in Hres. discriminate. }
  destruct (Orders.orders w !! Orders.generated_id be) as [x|] eqn:Hfresh.
  { unfold Orders.createOrder, Orders.try_catch, Orders.bind, Orders.insert_order in Hres.
    rewrite Hins, Hfresh in Hres. simpl in Hres. discriminate. }
  destruct (Orders.activity_error be) as [e|] eqn:Hact.
  - destruct (OrdersFacts.createOrder_unlogged be order w e Hins Hact Hfresh)
      as (Hr & Ho & Ha & _).
    cbv zeta in *. rewrite Hr in Hres. injection Hres as <-.
    rewrite Ha, Ho, app_nil_r. split; [done|]. simpl. apply lookup_insert_eq.
  - destruct (OrdersFacts.createOrder_logged be order w Hins Hact Hfresh) as (Hr & Ho & Ha).
    cbv zeta in *. rewrite Hr in Hres. injection Hres as <-.
    rewrite Ha, Ho. split; [done|]. simpl. apply lookup_insert_eq.
Qed.

Lemma createOrder_appends_created_witness :
  Orders.order_activities
    (Orders.createOrder Samples.reliable
       (Orders.mkNewOrder "org" "Altanbygge" "new" None None None) Samples.world).2
  = [Orders.mkOrderActivity "o2" None "created" "Order skapad" None None].
Proof.
  exact (proj1 (createOrder_appends_created Samples.reliable
                  (Orders.mkNewOrder "org" "Altanbygge" "new" None None None) Samples.world
                  (Orders.with_relations Samples.world
                     (Orders.to_row "o2"
                        (Orders.mkNewOrder "org" "Altanbygge" "new" None None None)))
                  eq_refl)).
Defined.

(** C10. [getOrderStats] never divides by zero. When the query succeeds,
    totalOrders is the number of orders and totalValue the running sum of
    their values, in which a missing value counts as 0: writing the missing
    values out as 0 gives the same sum. With at least one order, averageValue
    is the quotient totalValue / totalOrders, and the divisor is a finite
    number that is not zero; with no order it is 0. Numbers are binary64; an
    array holds fewer than 2^32 elements. *)
Theorem average_never_divides_by_zero (response : Result (list Orders.Order)) :
  error response = None ->
  (Z.of_nat (length (default [] (data response))) < 2 ^ 32)%Z ->
  exists stats,
    Orders.getOrderStats response = mkResult (Some stats) None /\
    Orders.totalOrders stats = length (default [] (data response)) /\
    Orders.totalValue stats = Orders.total_value (default [] (data response)) /\
    Orders.total_value (Orders.with_null_as_zero <$> default [] (data response))
      = Orders.total_value (default [] (data response)) /\
    (0 < Orders.totalOrders stats ->
     Orders.averageValue stats =
       divide (Orders.totalValue stats) (integer (Z.of_nat (Orders.totalOrders stats))) /\
     exists m e, integer (Z.of_nat (Orders.totalOrders stats)) = S754_finite false m e) /\
    (default [] (data response) = [] -> Orders.averageValue stats = integer 0).
Proof.
  intros Herr Hlen.
  destruct (OrdersFacts.getOrderStats_average response Herr) as (stats & Hs & Hn & Hv & Ha).
  exists stats. split; [exact Hs|]. split; [exact Hn|]. split; [exact Hv|].
  split; [apply OrdersFacts.running_sum_null_as_zero|]. split.
  - intros Hpos. rewrite Ha, bool_decide_eq_true_2 by exact Hpos.
    split; [done|]. apply OrdersFacts.integer_finite. rewrite Hn.
    assert (2 ^ 32 < 2 ^ 53)%Z by reflexivity. lia.
  - intros Hnil. rewrite Ha, Hn, Hnil. reflexivity.
Qed.

Lemma average_never_divides_by_zero_witness :
  exists stats,
    Orders.getOrderStats (success [Samples.priced; Samples.unpriced]) = mkResult (Some stats) None /\
    Orders.totalOrders stats = 2 /\
    Orders.averageValue stats = integer 50.
Proof.
  destruct (average_never_divides_by_zero (success [Samples.priced; Samples.unpriced])
              eq_refl eq_refl)
    as (stats & Hs & Hn & Hv & _ & Hpos & _).
  exists stats. split; [exact Hs|]. split; [exact Hn|].
  rewrite Hn in Hpos. destruct (Hpos ltac:(simpl; lia)) as [Ha _].
  rewrite Ha, Hv. reflexivity.
Defined.

(** * Further properties of lib/orders *)

(** X1. Assigning an order to the user it is already assigned to (or
    unassigning an unassigned order) succeeds as a no-op: the row is returned
    as it was, and no activity is appended and no notification enqueued. *)
Theorem unchanged_assignment_is_noop
    (labels : gmap string string) (be : Orders.Backend) (orderId : string)
    (w : Orders.World) (o : Orders.Order) :
  Orders.update_error be = None ->
  Orders.orders w !! orderId = Some o ->
  let r := Orders.updateOrder labels be orderId
             (Orders.user_patch (Orders.assigned_to_user_id o)) w in
  r.1 = Returned (success (Orders.with_relations w o)) /\
  Orders.orders r.2 = Orders.orders w /\
  Orders.order_activities r.2 = Orders.order_activities w /\
  Orders.notifications r.2 = Orders.notifications w.
Proof. intros Hupd Hrow. by apply OrdersFacts.assignment_same_user. Qed.

Lemma unchanged_assignment_is_noop_witness :
  Orders.order_activities
    (Orders.updateOrder Samples.labels Samples.reliable "L1"
       (Orders.user_patch (Some "u1")) Samples.world).2 = [] /\
  Orders.notifications
    (Orders.updateOrder Samples.labels Samples.reliable "L1"
       (Orders.user_patch (Some "u1")) Samples.world).2 = [].
Proof.
  destruct (unchanged_assignment_is_noop Samples.labels Samples.reliable "L1"
              Samples.world Samples.L1 eq_refl eq_refl) as (_ & _ & Ha & Hn).
  split; [exact Ha | exact Hn].
Defined.

(** X2. Assigning an order to a new user, every call going through, appends
    exactly one activity of kind assigned and enqueues exactly one
    notification, addressed to that user. *)
Theorem assignment_notifies_the_new_user
    (labels : gmap string string) (be : Orders.Backend) (orderId u : string)
    (w : Orders.World) (o : Orders.Order) :
  Orders.select_error be = None ->
  Orders.update_error be = None ->
  Orders.activity_error be = None ->
  Orders.notify be = Orders.Delivered ->
  Orders.orders w !! orderId = Some o ->
  truthy u = true ->
  Some u <> Orders.assigned_to_user_id o ->
  let r := Orders.updateOrder labels be orderId (Orders.user_patch (Some u)) w in
  exists a n,
    Orders.order_activities r.2 = Orders.order_activities w ++ [a] /\
    Orders.activity_type a = "assigned" /\
    Orders.notifications r.2 = Orders.notifications w ++ [n] /\
    Orders.recipients r.2 n = [u].
Proof.
  intros Hsel Hupd Hact Hd Hrow Ht Hne.
  destruct (OrdersFacts.assignment_new_user labels be orderId u w o
              Hsel Hupd Hact Hd Hrow Ht Hne) as (_ & Ha & Hn).
  cbv zeta in *. do 2 eexists. split; [exact Ha|]. split; [reflexivity|].
  split; [exact Hn|]. reflexivity.
Qed.

Lemma assignment_notifies_the_new_user_witness :
  exists a n,
    Orders.order_activities
      (Orders.updateOrder Samples.labels Samples.reliable "L2"
         (Orders.user_patch (Some "u2")) Samples.world).2 = [] ++ [a] /\
    Orders.activity_type a = "assigned" /\
    Orders.notifications
      (Orders.updateOrder Samples.labels Samples.reliable "L2"
         (Orders.user_patch (Some "u2")) Samples.world).2 = [] ++ [n] /\
    Orders.recipients
      (Orders.updateOrder Samples.labels Samples.reliable "L2"
         (Orders.user_patch (Some "u2")) Samples.world).2 n = ["u2"].
Proof.
  refine (assignment_notifies_the_new_user Samples.labels Samples.reliable "L2" "u2"
            Samples.world Samples.L2 eq_refl eq_refl eq_refl eq_refl eq_refl eq_refl _).
  discriminate.
Defined.

(** X3. On the status path a failing notification never fails the
    operation: whatever [createNotification] does, and whatever the audit
    insert does, a transition whose write went through returns the updated
    order, and the order table holds the new status. *)
Theorem transition_survives_notification_failure
    (labels : gmap string string) (be : Orders.Backend) (orderId s : string)
    (w : Orders.World) (o : Orders.Order) :
  Orders.select_error be = None ->
  Orders.update_error be = None ->
  Orders.orders w !! orderId = Some o ->
  truthy s = true ->
  s <> Orders.status o ->
  let r := Orders.updateOrder labels be orderId (Orders.status_patch s) w in
  (exists d, r.1 = Returned (success d) /\ Orders.status (Orders.row d) = s) /\
  Orders.status <$> Orders.orders r.2 !! orderId = Some s.
Proof.
  intros Hsel Hupd Hrow Ht Hne.
  destruct (OrdersFacts.transition_returns labels be orderId s w o
              Hsel Hupd Hrow Ht Hne) as (Hr & Ho).
  cbv zeta in *. rewrite Hr, Ho. split; [|done].
  eexists. split; reflexivity.
Qed.

Lemma transition_survives_notification_failure_witness :
  Orders.status <$>
    Orders.orders
      (Orders.updateOrder Samples.labels Samples.sink_down "L1"
         (Orders.status_patch "contacted") Samples.world).2 !! "L1"
  = Some "contacted".
Proof.
  refine (proj2 (transition_survives_notification_failure Samples.labels Samples.sink_down
                   "L1" "contacted" Samples.world Samples.L1
                   eq_refl eq_refl eq_refl eq_refl _)).
  discriminate.
Defined.

(** * Further facts about lib/orders *)

Module OrdersFurther.
Import Orders.
#[local] Open Scope list_scope.

#[local] Arguments String.append : simpl never.
#[local] Arguments createOrderActivity : simpl never.
#[local] Arguments createStatusChangeNotification : simpl never.
#[local] Arguments createNotification : simpl never.
#[local] Arguments with_relations : simpl never.
#[local] Arguments written : simpl never.
#[local] Arguments patch : simpl never.
#[local] Arguments record_effect : simpl never.
#[local] Arguments add_activity : simpl never.
#[local] Arguments add_notification : simpl never.
#[local] Arguments add_console : simpl never.
#[local] Arguments set_orders : simpl never.
#[local] Arguments log_changes : simpl never.

Ltac unfold_world :=
  unfold written, record_effect, add_activity, add_notification, add_console,
    add_note, set_orders in *; simpl in *.

(** ** Every call is answered *)

Lemma updateOrder_answers labels be orderId updates w :
  answered (updateOrder labels be orderId updates w).1.
Proof.
  unfold updateOrder, try_catch, bind.
  destruct (OrdersFacts.select_order_pure be orderId w) as (cur & -> & _).
  unfold update_order.
  destruct (update_error be) as [e|]; simpl; [right; eauto|].
  destruct (orders w !! orderId) as [o|]; simpl; [|right; eauto].
  destruct (log_changes _ _ _ _ _ _ _) as [[[]|e] w']; simpl; [left|right]; eauto.
Qed.

Lemma createOrder_answers be order w : answered (createOrder be order w).1.
Proof.
  unfold createOrder, try_catch, bind, insert_order.
  destruct (insert_error be) as [e|]; simpl; [right; eauto|].
  destruct (orders w !! generated_id be); simpl; [right; eauto|].
  rewrite OrdersFacts.createOrderActivity_eq.
  destruct (activity_error be); simpl; left; eauto.
Qed.

(** ** An order that is not there, and an order that could not be read *)

Lemma updateOrder_missing labels be orderId updates w :
  orders w !! orderId = None ->
  updateOrder labels be orderId updates w =
  (Returned (failure (new_Error (default no_rows (update_error be)))), w).
Proof.
  intros Hrow. unfold updateOrder, try_catch, bind.
  destruct (OrdersFacts.select_order_pure be orderId w) as (cur & -> & _).
  unfold update_order. rewrite Hrow. destruct (update_error be); reflexivity.
Qed.

Lemma updateOrder_unread labels be orderId updates w o e :
  select_error be = Some e ->
  update_error be = None ->
  orders w !! orderId = Some o ->
  updateOrder labels be orderId updates w =
  (Returned (success (with_relations w (patch updates o))), written orderId updates o w).
Proof.
  intros Hsel Hupd Hrow. unfold updateOrder, try_catch, bind.
  unfold select_order. rewrite Hsel.
  rewrite (OrdersFacts.update_order_found _ _ _ _ _ Hupd Hrow). reflexivity.
Qed.

(** ** Only the addressed order changes *)

#[local] Instance other_rows_kept_preorder orderId : PreOrder (other_rows_kept orderId).
Proof.
  split.
  - intros w. by repeat split.
  - intros w1 w2 w3 (T1 & D1 & R1) (T2 & D2 & R2). repeat split.
    + by rewrite T2.
    + by rewrite D2.
    + intros j Hj. by rewrite R2, R1.
Qed.

Lemma kept_same orderId w w' :
  orders w' = orders w -> teams w' = teams w -> other_rows_kept orderId w w'.
Proof. intros Ho Ht. repeat split; [done|by rewrite Ho|]. intros j _. by rewrite Ho. Qed.

Lemma kept_ret orderId {A} (a : A) : always (other_rows_kept orderId) (ret a).
Proof. apply OrdersFacts.always_ret; typeclasses eauto. Qed.

Lemma kept_bind orderId {A B} (m : Async A) (k : A -> Async B) :
  always (other_rows_kept orderId) m ->
  (forall a, always (other_rows_kept orderId) (k a)) ->
  always (other_rows_kept orderId) (bind m k).
Proof. apply OrdersFacts.always_bind; typeclasses eauto. Qed.

Lemma kept_try_catch orderId {A} (m : Async A) (h : Error -> Async A) :
  always (other_rows_kept orderId) m ->
  (forall e, always (other_rows_kept orderId) (h e)) ->
  always (other_rows_kept orderId) (try_catch m h).
Proof. apply OrdersFacts.always_try_catch; typeclasses eauto. Qed.

Lemma kept_when orderId b (m : Async unit) :
  always (other_rows_kept orderId) m -> always (other_rows_kept orderId) (when b m).
Proof. apply OrdersFacts.always_when; typeclasses eauto. Qed.

Lemma select_order_kept orderId be j : always (other_rows_kept orderId) (select_order be j).
Proof.
  intros w. destruct (OrdersFacts.select_order_pure be j w) as (r & -> & _). reflexivity.
Qed.

Lemma update_order_kept orderId be updates :
  always (other_rows_kept orderId) (update_order be orderId updates).
Proof.
  intros w. unfold update_order.
  destruct (update_error be); [reflexivity|].
  destruct (orders w !! orderId) as [o|] eqn:Hrow; [|reflexivity].
  unfold_world. repeat split; simpl.
  - by apply dom_insert_lookup_L.
  - intros j Hj. by rewrite lookup_insert_ne.
Qed.

Lemma createNotification_kept orderId be n :
  always (other_rows_kept orderId) (createNotification be n).
Proof.
  intros w. unfold createNotification.
  destruct (notify be); try reflexivity. by apply kept_same.
Qed.

Lemma console_error_kept orderId label e :
  always (other_rows_kept orderId) (console_error label e).
Proof. intros w. by apply kept_same. Qed.

Lemma createOrderActivity_kept orderId be j userId ty desc ov nv :
  always (other_rows_kept orderId) (createOrderActivity be j userId ty desc ov nv).
Proof.
  intros w. rewrite OrdersFacts.createOrderActivity_eq.
  destruct (activity_error be); [reflexivity|]. by apply kept_same.
Qed.

Ltac kept_step :=
  first
    [ apply kept_ret
    | apply select_order_kept
    | apply update_order_kept
    | apply createNotification_kept
    | apply console_error_kept
    | apply createOrderActivity_kept
    | apply kept_when
    | apply kept_bind; [|intros ?]
    | apply kept_try_catch; [|intros ?] ].

Ltac kept_auto := repeat first [kept_step | case_match].

Lemma updateOrder_kept labels be orderId updates :
  always (other_rows_kept orderId) (updateOrder labels be orderId updates).
Proof.
  unfold updateOrder, log_changes, log_status_change, log_user_assignment,
    log_team_assignment, createStatusChangeNotification.
  kept_auto.
Qed.

(** ** The logging blocks, patch by patch *)

Lemma updateOrder_found labels be orderId updates w o :
  select_error be = None ->
  update_error be = None ->
  orders w !! orderId = Some o ->
  updateOrder labels be orderId updates w =
  let d := with_relations w (patch updates o) in
  match log_changes labels be orderId updates (Some d) (Some o)
          (written orderId updates o w) with
  | (Returned _, w2) => (Returned (mkResult (Some d) None), w2)
  | (Thrown e, w2) =>
      (Returned (mkResult None (Some e)), add_console "Error updating order:" e w2)
  end.
Proof.
  intros Hsel Hupd Hrow. unfold updateOrder, try_catch, bind.
  rewrite (OrdersFacts.select_order_found _ _ _ _ Hsel Hrow).
  rewrite (OrdersFacts.update_order_found _ _ _ _ _ Hupd Hrow).
  rewrite OrdersFacts.with_relations_written. simpl.
  destruct (log_changes _ _ _ _ _ _ _) as [[[]|e] w2]; reflexivity.
Qed.

Lemma team_assignment_logged labels be orderId t team w o :
  select_error be = None ->
  update_error be = None ->
  activity_error be = None ->
  notify be = Delivered ->
  orders w !! orderId = Some o ->
  teams w !! t = Some team ->
  truthy t = true ->
  Some t <> assigned_to_team_id o ->
  let r := updateOrder labels be orderId (team_patch (Some t)) w in
  r.1 = Returned (success (mkOrderWithRelations (patch (team_patch (Some t)) o)
                             (Some (summary team)))) /\
  order_activities r.2 =
    order_activities w ++
    [mkOrderActivity orderId None "team_assigned"
       ("Order tilldelad till team: " +:+ team_name team) None None] /\
  notifications r.2 =
    notifications w ++
    [TeamAssignmentNotification t (id o) (title o) (team_name team)
       (or_undefined (assigned_to_user_id o))].
Proof.
  intros Hsel Hupd Hact Hd Hrow Hteam Ht Hne. cbv zeta.
  rewrite (updateOrder_found _ _ _ _ _ _ Hsel Hupd Hrow). cbv zeta.
  unfold log_changes, log_status_change, log_user_assignment, log_team_assignment,
    status_changes, user_changes, team_changes, bind, with_relations, patch. simpl.
  rewrite bool_decide_eq_false_2 by exact Hne. rewrite Hteam, Ht. simpl.
  unfold createNotification. rewrite Hd. simpl.
  rewrite OrdersFacts.createOrderActivity_eq, Hact. simpl. unfold_world.
  by rewrite Ht.
Qed.

(** Taking the user or the team off an order. *)
Lemma unassignment_logged labels be orderId w o :
  select_error be = None ->
  update_error be = None ->
  activity_error be = None ->
  orders w !! orderId = Some o ->
  (is_Some (assigned_to_user_id o) ->
   let r := updateOrder labels be orderId (user_patch None) w in
   order_activities r.2 =
     order_activities w ++
     [mkOrderActivity orderId None "assigned" "Tilldelning borttagen" None None] /\
   notifications r.2 = notifications w /\
   assigned_to_user_id <$> orders r.2 !! orderId = Some None) /\
  (is_Some (assigned_to_team_id o) ->
   let r := updateOrder labels be orderId (team_patch None) w in
   order_activities r.2 =
     order_activities w ++
     [mkOrderActivity orderId None "team_assigned" "Team-tilldelning borttagen" None None] /\
   notifications r.2 = notifications w /\
   assigned_to_team_id <$> orders r.2 !! orderId = Some None).
Proof.
  intros Hsel Hupd Hact Hrow. split; intros [x Hx]; cbv zeta;
    rewrite (updateOrder_found _ _ _ _ _ _ Hsel Hupd Hrow); cbv zeta;
    unfold log_changes, log_status_change, log_user_assignment, log_team_assignment,
      status_changes, user_changes, team_changes, bind, with_relations, patch; simpl;
    rewrite Hx; rewrite bool_decide_eq_false_2 by discriminate; simpl;
    rewrite OrdersFacts.createOrderActivity_eq, Hact; simpl; unfold_world;
    by rewrite lookup_insert_eq.
Qed.

(** A patch with a new status and a new user. *)
Lemma status_and_user_logged labels be orderId s u w o :
  select_error be = None ->
  update_error be = None ->
  activity_error be = None ->
  notify be = Delivered ->
  orders w !! orderId = Some o ->
  truthy s = true ->
  s <> status o ->
  truthy u = true ->
  Some u <> assigned_to_user_id o ->
  let r := updateOrder labels be orderId
             (mkOrderPatch None (Some s) None (Some (Some u)) None) w in
  activity_type <$> drop (length (order_activities w)) (order_activities r.2)
    = ["status_changed"; "assigned"] /\
  drop (length (notifications w)) (notifications r.2) =
    [StatusUpdateNotification u (title o) (property labels (status o)) (property labels s)
       ("/ordrar?highlight=" +:+ id o);
     OrderAssignmentNotification u (id o) (title o)].
Proof.
  intros Hsel Hupd Hact Hd Hrow Hts Hs Htu Hu. cbv zeta.
  rewrite (updateOrder_found _ _ _ _ _ _ Hsel Hupd Hrow). cbv zeta.
  unfold log_changes, log_status_change, log_user_assignment, log_team_assignment,
    status_changes, user_changes, team_changes, bind, with_relations, patch, when. simpl.
  rewrite Hts, Htu. rewrite !bool_decide_eq_false_2 by assumption. simpl.
  rewrite OrdersFacts.createStatusChangeNotification_eq, Hd. simpl.
  rewrite OrdersFacts.createOrderActivity_eq, Hact. simpl.
  unfold createNotification. rewrite Hd. simpl. rewrite !Htu. simpl.
  rewrite OrdersFacts.createOrderActivity_eq, Hact. simpl. unfold_world.
  rewrite <- !app_assoc, !drop_app_length. done.
Qed.

(** ** Creation, notes and reads *)

Lemma getOrder_found be orderId w o :
  select_error be = None ->
  orders w !! orderId = Some o ->
  getOrder be orderId w = (Returned (success (with_details w o)), w).
Proof.
  intros Hsel Hrow. unfold getOrder, try_catch, bind.
  by rewrite (OrdersFacts.select_order_found _ _ _ _ Hsel Hrow).
Qed.

Lemma getOrder_missing be orderId w :
  orders w !! orderId = None ->
  getOrder be orderId w =
  (Returned (failure (new_Error (default no_rows (select_error be)))), w).
Proof.
  intros Hrow. unfold getOrder, try_catch, bind, select_order.
  rewrite Hrow. destruct (select_error be); reflexivity.
Qed.

Lemma createOrder_refused be order w :
  is_Some (insert_error be) \/ is_Some (orders w !! generated_id be) ->
  exists e, createOrder be order w = (Returned (failure e), w).
Proof.
  intros H. unfold createOrder, try_catch, bind, insert_order.
  destruct (insert_error be) as [e|]; [by eexists|].
  destruct H as [[? [=]]|[o Ho]]. rewrite Ho. by eexists.
Qed.

Lemma createOrder_stored be order w :
  insert_error be = None ->
  orders w !! generated_id be = None ->
  let r := createOrder be order w in
  let o := to_row (generated_id be) order in
  r.1 = Returned (success (with_relations w o)) /\
  orders r.2 = <[generated_id be := o]> (orders w) /\
  teams r.2 = teams w.
Proof.
  intros Hins Hfresh. cbv zeta.
  unfold createOrder, try_catch, bind, insert_order.
  rewrite Hins, Hfresh. simpl.
  rewrite OrdersFacts.createOrderActivity_eq.
  destruct (activity_error be); simpl; by unfold_world.
Qed.

Lemma createOrderNote_logged be note w :
  note_error be = None ->
  activity_error be = None ->
  let r := createOrderNote be note w in
  r.1 = Returned (success note) /\
  order_notes r.2 = order_notes w ++ [note] /\
  order_activities r.2 =
    order_activities w ++
    [mkOrderActivity (note_order_id note) (Some (note_user_id note)) "note_added"
       "Anteckning tillagd" None None] /\
  orders r.2 = orders w.
Proof.
  intros Hnote Hact. cbv zeta.
  unfold createOrderNote, try_catch, bind, insert_note. rewrite Hnote. simpl.
  rewrite OrdersFacts.createOrderActivity_eq, Hact. simpl. by unfold_world.
Qed.

Lemma createOrderNote_refused be note w e :
  note_error be = Some e ->
  createOrderNote be note w = (Returned (failure (new_Error e)), w).
Proof.
  intros Hnote. unfold createOrderNote, try_catch, bind, insert_note.
  by rewrite Hnote.
Qed.

Lemma getOrderActivities_eq be orderId w :
  select_error be = None ->
  getOrderActivities be orderId w =
  (Returned (success (rev (filter (fun a => order_id a = orderId) (order_activities w)))), w).
Proof. intros Hsel. unfold getOrderActivities, try_catch. by rewrite Hsel. Qed.

Lemma getOrderNotes_eq be orderId w :
  select_error be = None ->
  getOrderNotes be orderId w =
  (Returned (success (rev (filter (fun n => note_order_id n = orderId) (order_notes w)))), w).
Proof. intros Hsel. unfold getOrderNotes, try_catch. by rewrite Hsel. Qed.

Lemma deleteOrder_done orderId w :
  deleteOrder None orderId w = (Returned None, set_orders (delete orderId) w).
Proof. reflexivity. Qed.

(** ** The status breakdown *)





End OrdersFurther.

(** * Further facts about the kanban board *)

Module LeadKanbanFurther.
Import LeadKanban.
#[local] Open Scope list_scope.

#[local] Arguments String.append : simpl never.

(** ** Dropping a lead on a column *)

Lemma loadLeadDetails_same be leadId st db :
  same_but_details st (loadLeadDetails be leadId st db).
Proof.
  unfold loadLeadDetails.
  destruct (error (getLeadNotes be leadId db));
    destruct (error (getLeadActivities be leadId db)); by repeat split.
Qed.

Lemma reload_if_selected_same be leadId st0 st db :
  same_but_details st (reload_if_selected be leadId st0 st db).
Proof.
  unfold reload_if_selected. destruct (selectedLead st0) as [sel|]; [|by repeat split].
  case_bool_decide; [apply loadLeadDetails_same | by repeat split].
Qed.

Lemma handleStatusChange_state be leadId newStatus oldStatus st db :
  same_but_details st (handleStatusChange be leadId newStatus oldStatus st db).1.
Proof.
  unfold handleStatusChange. destruct (user st); [|by repeat split].
  destruct (createLeadActivity _ _ _ _ _ _). apply reload_if_selected_same.
Qed.

#[local] Arguments loadLeadDetails : simpl never.
#[local] Arguments reload_if_selected : simpl never.

Ltac leads_of_reload :=
  repeat match goal with
  | |- context [leads (reload_if_selected ?b ?i ?s0 ?s ?d)] =>
      let H := fresh in
      destruct (reload_if_selected_same b i s0 s d) as (_ & H & _); rewrite H; clear H
  | |- context [leads (loadLeadDetails ?b ?i ?s ?d)] =>
      let H := fresh in
      destruct (loadLeadDetails_same b i s d) as (_ & H & _); rewrite H; clear H
  | |- context [selectedLead (loadLeadDetails ?b ?i ?s ?d)] =>
      let H := fresh in
      destruct (loadLeadDetails_same b i s d) as (_ & _ & _ & H & _); rewrite H; clear H
  | |- context [toasts (loadLeadDetails ?b ?i ?s ?d)] =>
      let H := fresh in
      destruct (loadLeadDetails_same b i s d) as (_ & _ & _ & _ & _ & _ & H);
      rewrite H; clear H
  | |- context [newNote (loadLeadDetails ?b ?i ?s ?d)] =>
      let H := fresh in
      destruct (loadLeadDetails_same b i s d) as (_ & _ & _ & _ & _ & H & _);
      rewrite H; clear H
  end.

Lemma handleStatusChange_rows be leadId newStatus oldStatus st db :
  lead_rows (handleStatusChange be leadId newStatus oldStatus st db).2 = lead_rows db /\
  lead_notes (handleStatusChange be leadId newStatus oldStatus st db).2 = lead_notes db.
Proof.
  unfold handleStatusChange, createLeadActivity. destruct (user st); [|done].
  by destruct (activity_error be).
Qed.

Lemma handleStatusChange_unsigned be leadId newStatus oldStatus st db :
  user st = None -> handleStatusChange be leadId newStatus oldStatus st db = (st, db).
Proof. intros H. unfold handleStatusChange. by rewrite H. Qed.

Lemma handleDrop_clears be newStatus st db :
  draggedLead (handleDrop be newStatus st db).1 = None.
Proof.
  unfold handleDrop. destruct (draggedLead st) as [dragged|]; [|done].
  case_bool_decide; [done|].
  destruct (updateLead _ _ _ _) as [result db1]. destruct (error result); [done|].
  match goal with
  | |- context [handleStatusChange ?b ?l ?n ?o ?s ?d] =>
      destruct (handleStatusChange b l n o s d)
  end.
  done.
Qed.

Lemma updateLead_kept be leadId updates db :
  other_leads_kept leadId db (updateLead be leadId updates db).2 /\
  lead_notes (updateLead be leadId updates db).2 = lead_notes db /\
  lead_activities (updateLead be leadId updates db).2 = lead_activities db.
Proof.
  unfold updateLead. destruct (update_error be); [by repeat split|].
  destruct (lead_rows db !! leadId) as [l|] eqn:Hrow; [|by repeat split].
  unfold other_leads_kept. simpl. repeat split.
  - by apply dom_insert_lookup_L.
  - intros j Hj. by rewrite lookup_insert_ne.
Qed.

Lemma updateLead_stored be leadId updates db l :
  update_error be = None ->
  lead_rows db !! leadId = Some l ->
  updateLead be leadId updates db =
  (success (patch updates l),
   mkDb (<[leadId := patch updates l]> (lead_rows db)) (lead_notes db) (lead_activities db)).
Proof. intros Hupd Hrow. unfold updateLead. by rewrite Hupd, Hrow. Qed.


Lemma handleDrop_kept be newStatus st db dragged :
  draggedLead st = Some dragged ->
  other_leads_kept (id dragged) db (handleDrop be newStatus st db).2 /\
  lead_notes (handleDrop be newStatus st db).2 = lead_notes db.
Proof.
  intros Hd. unfold handleDrop. rewrite Hd.
  case_bool_decide; [by repeat split|].
  destruct (updateLead_kept be (id dragged) (mkLeadPatch (Some newStatus) None) db)
    as (Hk & Hn & _).
  destruct (updateLead _ _ _ _) as [result db1]. simpl in *.
  destruct (error result); [done|].
  match goal with
  | |- context [handleStatusChange ?b ?l ?n ?o ?s ?d] =>
      destruct (handleStatusChange_rows b l n o s d) as [Hr Hn2];
      destruct (handleStatusChange b l n o s d) as [st2 db2]
  end.
  simpl in *. unfold other_leads_kept in *. rewrite Hr, Hn2. done.
Qed.

Lemma shown_in_status_map leadId s (ls : list LeadWithRelations) :
  Forall (fun l : LeadWithRelations => id l = leadId -> status l = s)
    (map (fun lead : LeadWithRelations =>
            if bool_decide (id lead = leadId) then with_status s lead else lead) ls).
Proof.
  apply Forall_forall. intros l Hin Hid.
  apply list_elem_of_In, in_map_iff in Hin as (l0 & <- & _).
  case_bool_decide as Hb; [done|]. by destruct Hb.
Qed.

Lemma handleDrop_synced be newStatus st db dragged l :
  draggedLead st = Some dragged ->
  status dragged <> newStatus ->
  update_error be = None ->
  lead_rows db !! id dragged = Some l ->
  let r := handleDrop be newStatus st db in
  status <$> lead_rows r.2 !! id dragged = Some newStatus /\
  shown_in_status (id dragged) newStatus r.1 /\
  toasts r.1 = toasts st.
Proof.
  intros Hd Hs Hupd Hrow. cbv zeta. unfold handleDrop.
  rewrite Hd, bool_decide_eq_false_2 by done.
  rewrite (updateLead_stored _ _ _ _ _ Hupd Hrow). simpl.
  match goal with
  | |- context [handleStatusChange ?b ?i ?n ?o ?s ?d] =>
      pose proof (handleStatusChange_state b i n o s d) as Hst;
      destruct (handleStatusChange_rows b i n o s d) as [Hr _];
      destruct (handleStatusChange b i n o s d) as [st2 db2]
  end.
  destruct Hst as (_ & Hleads & _ & _ & _ & _ & Htoasts).
  simpl in *. rewrite Hr. simpl. rewrite lookup_insert_eq.
  split; [done|]. split; [|done].
  unfold shown_in_status. simpl. rewrite Hleads. apply shown_in_status_map.
Qed.

Lemma handleDrop_shown_length be newStatus st db :
  length (leads (handleDrop be newStatus st db).1) = length (leads st).
Proof.
  unfold handleDrop.
  destruct (draggedLead st) as [dragged|]; [|done].
  case_bool_decide; [done|].
  destruct (updateLead _ _ _ db) as [result db1]. simpl.
  destruct (error result); [done|].
  destruct (handleStatusChange _ _ _ _ _ _) as [st2 db2] eqn:Hlog.
  pose proof (handleStatusChange_state be (id dragged) newStatus (status dragged)
                (setLeads
                   (map (fun lead : LeadWithRelations =>
                           if bool_decide (id lead = id dragged)
                           then with_status newStatus lead else lead)) st) db1) as Hst.
  rewrite Hlog in Hst. destruct Hst as (_ & Hleads & _). simpl in *.
  by rewrite Hleads, length_map.
Qed.


Lemma handleDrop_unsigned be newStatus st db :
  user st = None ->
  lead_activities (handleDrop be newStatus st db).2 = lead_activities db.
Proof.
  intros Hu. unfold handleDrop. destruct (draggedLead st) as [dragged|]; [|done].
  case_bool_decide; [done|].
  destruct (updateLead_kept be (id dragged) (mkLeadPatch (Some newStatus) None) db)
    as (_ & _ & Ha).
  destruct (updateLead _ _ _ _) as [result db1]. simpl in *.
  destruct (error result); [done|].
  rewrite handleStatusChange_unsigned by done. done.
Qed.

(** ** Assigning a lead *)

Lemma shown_assigned_map leadId u p (ls : list LeadWithRelations) :
  Forall (fun l : LeadWithRelations => id l = leadId -> assigned_to_user_id l = u)
    (map (fun lead : LeadWithRelations =>
            if bool_decide (id lead = leadId) then with_assignee u p lead else lead) ls).
Proof.
  apply Forall_forall. intros l Hin Hid.
  apply list_elem_of_In, in_map_iff in Hin as (l0 & <- & _).
  case_bool_decide as Hb; [done|]. by destruct Hb.
Qed.

Lemma leads_setSelectedLead f st : leads (setSelectedLead f st) = leads st.
Proof. reflexivity. Qed.

Lemma handleAssignmentChange_stored be leadId newAssignedUserId st db l :
  update_error be = None ->
  lead_rows db !! leadId = Some l ->
  let r := handleAssignmentChange be leadId newAssignedUserId st db in
  assigned_to_user_id <$> lead_rows r.2 !! leadId = Some (or_null newAssignedUserId) /\
  status <$> lead_rows r.2 !! leadId = Some (status l) /\
  shown_assigned leadId (or_null newAssignedUserId) r.1.
Proof.
  intros Hupd Hrow. cbv zeta. unfold handleAssignmentChange.
  rewrite (updateLead_stored _ _ _ _ _ Hupd Hrow). simpl.
  assert (Hshown : forall st2,
             leads st2 =
               map (fun lead : LeadWithRelations =>
                      if bool_decide (id lead = leadId)
                      then with_assignee (or_null newAssignedUserId)
                             (find_member st newAssignedUserId) lead
                      else lead) (leads st) ->
             shown_assigned leadId (or_null newAssignedUserId) st2).
  { intros st2 H2. unfold shown_assigned. rewrite H2. apply shown_assigned_map. }
  destruct (user st) as [u|].
  - unfold createLeadActivity. destruct (activity_error be); simpl;
      rewrite lookup_insert_eq; (split; [done|]); (split; [done|]);
      apply Hshown; simpl; leads_of_reload;
      destruct (selectedLead st) as [sel|]; try case_bool_decide; done.
  - simpl. rewrite lookup_insert_eq. split; [done|]. split; [done|].
    apply Hshown. destruct (selectedLead st) as [sel|]; try case_bool_decide; done.
Qed.

Lemma handleAssignmentChange_logged be leadId newAssignedUserId st db l u :
  update_error be = None ->
  activity_error be = None ->
  lead_rows db !! leadId = Some l ->
  user st = Some u ->
  lead_activities (handleAssignmentChange be leadId newAssignedUserId st db).2 =
  lead_activities db ++
  [mkLeadActivity leadId (Some (profile_id u)) "assignment_change"
     match find_member st newAssignedUserId with
     | Some m => "Lead tilldelad till " +:+ full_name m
     | None => "Lead-tilldelning borttagen"
     end None None].
Proof.
  intros Hupd Hact Hrow Hu. unfold handleAssignmentChange.
  rewrite (updateLead_stored _ _ _ _ _ Hupd Hrow). simpl.
  rewrite Hu. unfold createLeadActivity. rewrite Hact. reflexivity.
Qed.

Lemma find_member_unknown st newAssignedUserId :
  Forall (fun m => profile_id m <> newAssignedUserId) (teamMembers st) ->
  find_member st newAssignedUserId = None.
Proof.
  intros H. unfold find_member. destruct (truthy newAssignedUserId); [|done].
  induction H as [|m ms Hm _ IH]; simpl; [done|].
  by rewrite bool_decide_eq_false_2.
Qed.

(** ** Converting a lead to a quote *)

Lemma handleConvertToQuote_logged be st db sel u :
  selectedLead st = Some sel ->
  user st = Some u ->
  activity_error be = None ->
  lead_activities (handleConvertToQuote be st db).2 =
  lead_activities db ++
  [mkLeadActivity (id sel) (Some (profile_id u)) "converted_to_quote"
     "Lead konverterad till offert" None None].
Proof.
  intros Hsel Hu Hact. unfold handleConvertToQuote. rewrite Hsel, Hu.
  unfold createLeadActivity. rewrite Hact.
  case_bool_decide; [done|].
  match goal with
  | |- context [updateLead ?b ?i ?p ?d] =>
      destruct (updateLead_kept b i p d) as (_ & _ & Ha);
      destruct (updateLead b i p d) as [r2 db2]
  end.
  simpl in *. done.
Qed.

Lemma handleConvertToQuote_shown be st db sel u :
  selectedLead st = Some sel ->
  user st = Some u ->
  status sel <> qualified ->
  let r := handleConvertToQuote be st db in
  shown_in_status (id sel) qualified r.1 /\
  (status <$> (row <$> selectedLead r.1)) = Some qualified /\
  (is_Some (update_error be) -> lead_rows r.2 = lead_rows db).
Proof.
  intros Hsel Hu Hs. cbv zeta. unfold handleConvertToQuote. rewrite Hsel, Hu.
  destruct (createLeadActivity _ _ _ _ _ _) as [r1 db1] eqn:Hc.
  rewrite bool_decide_eq_false_2 by done.
  assert (Hrows : lead_rows db1 = lead_rows db).
  { unfold createLeadActivity in Hc. destruct (activity_error be); by simplify_eq. }
  destruct (updateLead be (id sel) (mkLeadPatch (Some qualified) None) db1)
    as [r2 db2] eqn:Hupd.
  unfold shown_in_status. simpl. leads_of_reload. simpl. rewrite Hsel. simpl.
  split; [apply shown_in_status_map|]. split; [done|].
  intros [e He]. unfold updateLead in Hupd. rewrite He in Hupd. by simplify_eq.
Qed.

Lemma handleConvertToQuote_qualified be st db sel u :
  selectedLead st = Some sel ->
  user st = Some u ->
  status sel = qualified ->
  let r := handleConvertToQuote be st db in
  lead_rows r.2 = lead_rows db /\ leads r.1 = leads st.
Proof.
  intros Hsel Hu Hs. cbv zeta. unfold handleConvertToQuote. rewrite Hsel, Hu.
  unfold createLeadActivity. destruct (activity_error be);
    rewrite bool_decide_eq_true_2 by done; simpl; leads_of_reload; done.
Qed.

(** ** Adding a note *)

Lemma trim_start_blank s : blank s = true -> trim_start s = EmptyString.
Proof.
  unfold trim_start. induction s as [|a s IH]; simpl; [done|].
  intros [Ha Hs]%andb_true_iff. rewrite Ha. by apply IH.
Qed.

Lemma trim_blank s : blank s = true -> trim s = EmptyString.
Proof. intros H. unfold trim. by rewrite (trim_start_blank s H). Qed.

Lemma handleAddNote_blank be st db :
  blank (newNote st) = true -> handleAddNote be st db = (st, db).
Proof.
  intros H. unfold handleAddNote. rewrite (trim_blank _ H). simpl.
  destruct (selectedLead st); [|done]. by destruct (user st).
Qed.

Lemma handleAddNote_saved be st db sel u :
  selectedLead st = Some sel ->
  user st = Some u ->
  truthy (trim (newNote st)) = true ->
  note_error be = None ->
  activity_error be = None ->
  let r := handleAddNote be st db in
  let n := mkLeadNote (id sel) (profile_id u) (trim (newNote st)) in
  let a := mkLeadActivity (id sel) (Some (profile_id u)) "note_added" "Anteckning tillagd"
             None None in
  lead_notes r.2 = lead_notes db ++ [n] /\
  lead_activities r.2 = lead_activities db ++ [a] /\
  lead_rows r.2 = lead_rows db /\
  newNote r.1 = EmptyString /\
  leadNotes r.1 =
    n :: match notes_read_error be with
         | Some _ => leadNotes st
         | None =>
             rev (List.filter (fun x => bool_decide (note_lead_id x = id sel)) (lead_notes db))
         end /\
  leadActivities r.1 =
    match activities_read_error be with
    | Some _ => leadActivities st
    | None =>
        a :: rev (List.filter (fun x => bool_decide (lead_id x = id sel)) (lead_activities db))
    end.
Proof.
  intros Hsel Hu Ht Hnote Hact. cbv zeta. unfold handleAddNote.
  rewrite Hsel, Hu, Ht. unfold createLeadNote. rewrite Hnote. simpl.
  unfold createLeadActivity. rewrite Hact. simpl.
  unfold loadLeadDetails, getLeadNotes, getLeadActivities. simpl.
  do 4 (split; [by destruct (notes_read_error be), (activities_read_error be)|]).
  rewrite !List.filter_app. simpl. rewrite !bool_decide_eq_true_2 by done.
  rewrite !rev_app_distr. simpl.
  by destruct (notes_read_error be), (activities_read_error be).
Qed.

Lemma handleAddNote_refused be st db sel u e :
  selectedLead st = Some sel ->
  user st = Some u ->
  truthy (trim (newNote st)) = true ->
  note_error be = Some e ->
  let r := handleAddNote be st db in
  r.2 = db /\
  newNote r.1 = newNote st /\
  leadNotes r.1 = leadNotes st /\
  toasts r.1 = toasts st ++ [ToastError "Anteckningsfel" (message e)].
Proof.
  intros Hsel Hu Ht Hnote. cbv zeta. unfold handleAddNote.
  rewrite Hsel, Hu, Ht. unfold createLeadNote. rewrite Hnote. simpl. done.
Qed.

(** ** Icons, columns and ages *)

Lemma getActivityIcon_fallback ty : getActivityIcon ty = ClockIcon <-> ~ lead_kind ty.
Proof.
  unfold lead_kind, lead_kinds. rewrite !elem_of_cons, elem_of_nil.
  unfold getActivityIcon.
  repeat case_bool_decide; split; intros Hgoal; try done; tauto.
Qed.

Lemma getActivityIcon_injective ty1 ty2 :
  lead_kind ty1 -> getActivityIcon ty1 = getActivityIcon ty2 -> ty1 = ty2.
Proof.
  unfold lead_kind, lead_kinds. rewrite !elem_of_cons, elem_of_nil.
  unfold getActivityIcon.
  intros [->|[->|[->|[->|[]]]]]; simpl; repeat case_bool_decide; by subst.
Qed.

Lemma columns_partition (ls : list LeadWithRelations) :
  shown_leads (organizedColumns ls) ≡ₚ ls.
Proof.
  unfold shown_leads, organizedColumns, columns. simpl. rewrite app_nil_r.
  induction ls as [|x ls IH]; [done|]. simpl.
  destruct (status x) eqn:Hs; simpl.
  - by constructor.
  - rewrite <- Permutation_middle. by constructor.
  - rewrite app_assoc, <- Permutation_middle, <- app_assoc. by constructor.
  - rewrite 2!app_assoc, <- Permutation_middle, <- 2!app_assoc. by constructor.
  - rewrite 3!app_assoc, <- Permutation_middle, <- 3!app_assoc. by constructor.
Qed.

Lemma columns_by_status (ls : list LeadWithRelations) :
  Forall (fun c => Forall (fun l : LeadWithRelations => status l = column_id c)
                     (column_leads c))
    (organizedColumns ls).
Proof.
  unfold organizedColumns. apply Forall_forall. intros c Hc.
  apply list_elem_of_In, in_map_iff in Hc as (c0 & <- & _). simpl.
  apply Forall_forall. intros l Hl.
  apply list_elem_of_In, List.filter_In in Hl as [_ Hl].
  by apply bool_decide_eq_true in Hl.
Qed.

Lemma ceil_div_bounds (x d : Z) :
  (0 < d)%Z -> ((ceil_div x d - 1) * d < x <= ceil_div x d * d)%Z.
Proof.
  intros Hd. unfold ceil_div.
  pose proof (Z.div_mod (- x) d ltac:(lia)) as Hdm.
  pose proof (Z.mod_pos_bound (- x) d Hd) as Hb.
  nia.
Qed.

Lemma getDaysAgo_bounds (date now : Z) :
  ((getDaysAgo date now - 1) * day_ms < Z.abs (now - date) <= getDaysAgo date now * day_ms)%Z.
Proof. unfold getDaysAgo. apply ceil_div_bounds. unfold day_ms. lia. Qed.

End LeadKanbanFurther.

(** * Further facts about the schedule page *)

Module WorkerScheduleFurther.
Import WorkerSchedule.
#[local] Open Scope list_scope.

Lemma find_app_none {A} (p : A -> bool) (l1 l2 : list A) :
  List.find p l1 = None -> List.find p (l1 ++ l2) = List.find p l2.
Proof.
  induction l1 as [|x l1 IH]; simpl; [done|].
  destruct (p x); [done|]. exact IH.
Qed.

Lemma find_some_in {A} (p : A -> bool) (l : list A) x :
  List.find p l = Some x -> In x l /\ p x = true.
Proof. apply List.find_some. Qed.

Lemma find_by_id logs a :
  NoDup (map id logs) ->
  In a logs ->
  List.find (fun s => bool_decide (id s = id a)) logs = Some a.
Proof.
  induction logs as [|x logs IH]; simpl; [done|].
  intros Hnd Hin. apply NoDup_cons in Hnd as [Hx Hnd].
  destruct Hin as [->|Hin].
  - by rewrite bool_decide_eq_true_2.
  - case_bool_decide as Hid; [|by apply IH].
    exfalso. apply Hx. rewrite Hid. apply list_elem_of_In, in_map, Hin.
Qed.

Lemma map_id_close sessionId now s logs :
  id s = sessionId ->
  map id (map (fun r => if bool_decide (id r = sessionId) then close now s else r) logs)
  = map id logs.
Proof.
  intros Hs. rewrite map_map. apply map_ext. intros r.
  case_bool_decide; [|done]. simpl. congruence.
Qed.

Lemma find_none_iff {A} (p : A -> bool) (l : list A) :
  (forall x, In x l -> p x = false) -> List.find p l = None.
Proof.
  induction l as [|x l IH]; simpl; [done|]. intros H.
  rewrite (H x) by by left. apply IH. intros y Hy. apply H. by right.
Qed.

Lemma page_step_in_sync a p : page_in_sync p -> page_in_sync (page_step a p).
Proof.
  destruct p as [st logs]. intros (Hsync & Hnd & Hone). simpl in *.
  destruct a as [ordersError activeLogError|orderId workType loc weatherData now newId|now];
    simpl.
  - unfold loadScheduleData.
    destruct ordersError; [by repeat split|]. by destruct activeLogError.
  - unfold control. destruct (activeTimeLog st) as [a|] eqn:Hact.
    { case_bool_decide; unfold page_in_sync; simpl; by rewrite Hact. }
    unfold handleStartTracking, startTimeTracking. rewrite <- Hsync.
    case_bool_decide as Hdup; simpl.
    { unfold page_in_sync; simpl; by rewrite Hact. }
    repeat split; simpl.
    + unfold getActiveTimeLog in *. rewrite find_app_none by done. simpl.
      unfold is_active. simpl. by rewrite !bool_decide_eq_true_2.
    + rewrite map_app. simpl. apply NoDup_app. repeat split; [done| |].
      * intros x Hx [->|[]]%list_elem_of_In. done.
      * apply NoDup_singleton.
    + pose proof (WorkerScheduleFacts.startTimeTracking_invariant orderId (user st)
                    workType loc
                    (Some (pretty (temperature weatherData) +:+ "°C, " +:+ condition weatherData))
                    now newId logs Hone) as Hinv.
      unfold startTimeTracking in Hinv. rewrite <- Hsync in Hinv.
      by rewrite bool_decide_eq_false_2 in Hinv.
  - unfold handleStopTracking. destruct (activeTimeLog st) as [a|] eqn:Hact;
      [|unfold page_in_sync; simpl; by rewrite Hact].
    symmetry in Hsync.
    pose proof (WorkerScheduleFacts.getActiveTimeLog_unique _ _ _ Hone Hsync) as Huniq.
    unfold getActiveTimeLog in Hsync.
    destruct (find_some_in _ _ _ Hsync) as [Hin Hactive].
    pose proof (WorkerScheduleFacts.stopTimeTracking_invariant (id a) now logs Hone) as Hinv.
    unfold stopTimeTracking in *. rewrite (find_by_id logs a Hnd Hin) in *.
    assert (Hend : end_time a = None).
    { unfold is_active in Hactive. apply andb_true_iff in Hactive as [_ He].
      by apply bool_decide_eq_true in He. }
    rewrite Hend in *. simpl in *. repeat split; simpl.
    + symmetry. apply find_none_iff. intros y Hy.
      apply in_map_iff in Hy as (x & <- & Hx).
      case_bool_decide as Hid; [apply WorkerScheduleFacts.is_active_close|].
      destruct (is_active (user st) x) eqn:Hax; [|done].
      exfalso. apply Hid.
      assert (Hxa : In x (active_sessions (user st) logs)).
      { unfold active_sessions. by apply List.filter_In. }
      rewrite Huniq in Hxa. by destruct Hxa as [->|[]].
    + by rewrite map_id_close.
    + exact Hinv.
Qed.

Lemma page_run_in_sync actions p : page_in_sync p -> page_in_sync (page_run actions p).
Proof.
  revert p. induction actions as [|a actions IH]; intros p Hp; simpl; [done|].
  apply IH. by apply page_step_in_sync.
Qed.

Lemma loaded_in_sync st logs :
  NoDup (map id logs) -> at_most_one_active logs ->
  page_in_sync (loadScheduleData None None st logs, logs).
Proof. intros Hnd Hone. by repeat split. Qed.

End WorkerScheduleFurther.

(** * Further properties of lib/orders: answers, frames and missing rows *)

#[local] Open Scope list_scope.

(** X4. [updateOrder] and [createOrder] never reject: whatever the patch,
    the store and the notification sink do, the call resolves to a pair that
    holds either the data or an error, never both and never none. *)
Theorem order_writes_always_answer :
  (forall labels be orderId updates w,
     Orders.answered (Orders.updateOrder labels be orderId updates w).1) /\
  (forall be order w, Orders.answered (Orders.createOrder be order w).1).
Proof.
  split.
  - apply OrdersFurther.updateOrder_answers.
  - apply OrdersFurther.createOrder_answers.
Qed.

(** X5. Whatever the patch and whatever fails on the way, [updateOrder]
    leaves every order but the addressed one as it was, adds and removes no
    order, and leaves the teams as they were. *)
Theorem updateOrder_touches_one_order :
  forall labels be orderId updates w,
    Orders.other_rows_kept orderId w (Orders.updateOrder labels be orderId updates w).2.
Proof. intros. apply OrdersFurther.updateOrder_kept. Qed.

(** X6. [updateOrder] on an identifier that has no order fails with the
    error of the store (the message of [.single()] when the store itself
    raised none) and changes nothing: no row appears, nothing is logged. *)
Theorem updateOrder_on_missing_order
    (labels : gmap string string) (be : Orders.Backend) (orderId : string)
    (updates : Orders.OrderPatch) (w : Orders.World) :
  Orders.orders w !! orderId = None ->
  Orders.updateOrder labels be orderId updates w =
  (Returned (failure (new_Error (default no_rows (Orders.update_error be)))), w).
Proof. apply OrdersFurther.updateOrder_missing. Qed.

Lemma updateOrder_on_missing_order_witness :
  Orders.updateOrder Samples.labels Samples.reliable "L9"
    (Orders.status_patch "contacted") Samples.world
  = (Returned (failure no_rows), Samples.world).
Proof.
  exact (updateOrder_on_missing_order Samples.labels Samples.reliable "L9"
           (Orders.status_patch "contacted") Samples.world eq_refl).
Defined.

(** X7. When the read of the current order fails and the update goes
    through, [updateOrder] reports success and the patch is stored, but no
    activity is appended and no notification is enqueued, whatever the patch
    changes. *)
Theorem unread_order_is_updated_without_audit
    (labels : gmap string string) (be : Orders.Backend) (orderId : string)
    (updates : Orders.OrderPatch) (w : Orders.World) (o : Orders.Order) (e : Error) :
  Orders.select_error be = Some e ->
  Orders.update_error be = None ->
  Orders.orders w !! orderId = Some o ->
  let r := Orders.updateOrder labels be orderId updates w in
  r.1 = Returned (success (Orders.with_relations w (Orders.patch updates o))) /\
  Orders.orders r.2 !! orderId = Some (Orders.patch updates o) /\
  Orders.order_activities r.2 = Orders.order_activities w /\
  Orders.notifications r.2 = Orders.notifications w.
Proof.
  intros Hsel Hupd Hrow. cbv zeta.
  rewrite (OrdersFurther.updateOrder_unread _ _ _ _ _ _ _ Hsel Hupd Hrow). simpl.
  split; [done|]. split; [apply lookup_insert_eq|done].
Qed.

Lemma unread_order_is_updated_without_audit_witness :
  let r := Orders.updateOrder Samples.labels Samples.unreadable "L1"
             (Orders.status_patch "contacted") Samples.world in
  Orders.status <$> Orders.orders r.2 !! "L1" = Some "contacted" /\
  Orders.order_activities r.2 = [] /\
  Orders.notifications r.2 = [].
Proof.
  destruct (unread_order_is_updated_without_audit Samples.labels Samples.unreadable "L1"
              (Orders.status_patch "contacted") Samples.world Samples.L1
              (mkError "timeout") eq_refl eq_refl eq_refl) as (_ & Ho & Ha & Hn).
  cbv zeta. rewrite Ho. split; [reflexivity|]. split; [exact Ha | exact Hn].
Defined.

(** X8. Putting a team on an order, every call going through, appends
    exactly one activity of kind team_assigned whose description names the
    team, and enqueues exactly one team notification carrying the team, the
    order and, as the user to leave out, the user the order is assigned to. *)
Theorem team_assignment_is_logged
    (labels : gmap string string) (be : Orders.Backend) (orderId t : string)
    (team : Orders.Team) (w : Orders.World) (o : Orders.Order) :
  Orders.select_error be = None ->
  Orders.update_error be = None ->
  Orders.activity_error be = None ->
  Orders.notify be = Orders.Delivered ->
  Orders.orders w !! orderId = Some o ->
  Orders.teams w !! t = Some team ->
  truthy t = true ->
  Some t <> Orders.assigned_to_team_id o ->
  let r := Orders.updateOrder labels be orderId (Orders.team_patch (Some t)) w in
  Orders.order_activities r.2 =
    Orders.order_activities w ++
    [Orders.mkOrderActivity orderId None "team_assigned"
       ("Order tilldelad till team: " +:+ Orders.team_name team) None None] /\
  Orders.notifications r.2 =
    Orders.notifications w ++
    [Orders.TeamAssignmentNotification t (Orders.id o) (Orders.title o)
       (Orders.team_name team) (or_undefined (Orders.assigned_to_user_id o))].
Proof.
  intros Hsel Hupd Hact Hd Hrow Hteam Ht Hne.
  by destruct (OrdersFurther.team_assignment_logged labels be orderId t team w o
                 Hsel Hupd Hact Hd Hrow Hteam Ht Hne) as (_ & Ha & Hn).
Qed.

Lemma team_assignment_is_logged_witness :
  Orders.order_activities
    (Orders.updateOrder Samples.labels Samples.reliable "L1"
       (Orders.team_patch (Some "t1")) Samples.world).2
  = [Orders.mkOrderActivity "L1" None "team_assigned" "Order tilldelad till team: Takteam"
       None None].
Proof.
  refine (proj1 (team_assignment_is_logged Samples.labels Samples.reliable "L1" "t1"
                   Samples.crew Samples.world Samples.L1
                   eq_refl eq_refl eq_refl eq_refl eq_refl eq_refl eq_refl _)).
  discriminate.
Defined.

(** X9. Taking the user off an order that has one appends one activity of
    kind assigned with the description Tilldelning borttagen, enqueues no
    notification and stores null, whether or not the order has a team; taking
    the team off an order that has one appends one activity of kind
    team_assigned with the description Team-tilldelning borttagen, enqueues
    no notification and stores null, whether or not the order has a user.
    The notification sink plays no part. *)
Theorem unassignment_is_logged
    (labels : gmap string string) (be : Orders.Backend) (orderId : string)
    (w : Orders.World) (o : Orders.Order) :
  Orders.select_error be = None ->
  Orders.update_error be = None ->
  Orders.activity_error be = None ->
  Orders.orders w !! orderId = Some o ->
  (is_Some (Orders.assigned_to_user_id o) ->
   let r := Orders.updateOrder labels be orderId (Orders.user_patch None) w in
   Orders.order_activities r.2 =
     Orders.order_activities w ++
     [Orders.mkOrderActivity orderId None "assigned" "Tilldelning borttagen" None None] /\
   Orders.notifications r.2 = Orders.notifications w /\
   Orders.assigned_to_user_id <$> Orders.orders r.2 !! orderId = Some None) /\
  (is_Some (Orders.assigned_to_team_id o) ->
   let r := Orders.updateOrder labels be orderId (Orders.team_patch None) w in
   Orders.order_activities r.2 =
     Orders.order_activities w ++
     [Orders.mkOrderActivity orderId None "team_assigned" "Team-tilldelning borttagen"
        None None] /\
   Orders.notifications r.2 = Orders.notifications w /\
   Orders.assigned_to_team_id <$> Orders.orders r.2 !! orderId = Some None).
Proof. apply OrdersFurther.unassignment_logged. Qed.

Lemma unassignment_is_logged_witness :
  Orders.assigned_to_team_id Samples.L1 = None /\
  Orders.order_activities
    (Orders.updateOrder Samples.labels Samples.sink_down "L1"
       (Orders.user_patch None) Samples.world).2
  = [Orders.mkOrderActivity "L1" None "assigned" "Tilldelning borttagen" None None] /\
  Orders.order_activities
    (Orders.updateOrder Samples.labels Samples.sink_down "L3"
       (Orders.team_patch None) Samples.world3).2
  = [Orders.mkOrderActivity "L3" None "team_assigned" "Team-tilldelning borttagen"
       None None].
Proof.
  split; [reflexivity|]. split.
  - exact (proj1 (proj1 (unassignment_is_logged Samples.labels Samples.sink_down "L1"
                           Samples.world Samples.L1 eq_refl eq_refl eq_refl eq_refl)
                    (ex_intro _ "u1" eq_refl))).
  - exact (proj1 (proj2 (unassignment_is_logged Samples.labels Samples.sink_down "L3"
                           Samples.world3 Samples.L3 eq_refl eq_refl eq_refl eq_refl)
                    (ex_intro _ "t1" eq_refl))).
Defined.

(** X10. A patch that changes both the status and the assigned user, every
    call going through, appends two activities, status_changed first and
    assigned second, and enqueues two notifications, both addressed to the
    newly assigned user: the status update first, the assignment second. *)
Theorem status_and_assignee_in_one_patch
    (labels : gmap string string) (be : Orders.Backend) (orderId s u : string)
    (w : Orders.World) (o : Orders.Order) :
  Orders.select_error be = None ->
  Orders.update_error be = None ->
  Orders.activity_error be = None ->
  Orders.notify be = Orders.Delivered ->
  Orders.orders w !! orderId = Some o ->
  truthy s = true ->
  s <> Orders.status o ->
  truthy u = true ->
  Some u <> Orders.assigned_to_user_id o ->
  let r := Orders.updateOrder labels be orderId
             (Orders.mkOrderPatch None (Some s) None (Some (Some u)) None) w in
  Orders.activity_type <$>
    drop (length (Orders.order_activities w)) (Orders.order_activities r.2)
    = ["status_changed"; "assigned"] /\
  drop (length (Orders.notifications w)) (Orders.notifications r.2) =
    [Orders.StatusUpdateNotification u (Orders.title o) (property labels (Orders.status o))
       (property labels s) ("/ordrar?highlight=" +:+ Orders.id o);
     Orders.OrderAssignmentNotification u (Orders.id o) (Orders.title o)].
Proof. apply OrdersFurther.status_and_user_logged. Qed.

Lemma status_and_assignee_in_one_patch_witness :
  Orders.recipients Samples.world <$>
    Orders.notifications
      (Orders.updateOrder Samples.labels Samples.reliable "L1"
         (Orders.mkOrderPatch None (Some "contacted") None (Some (Some "u2")) None)
         Samples.world).2
  = [["u2"]; ["u2"]].
Proof.
  assert (H1 : "contacted" <> Orders.status Samples.L1) by discriminate.
  assert (H2 : Some "u2" <> Orders.assigned_to_user_id Samples.L1) by discriminate.
  destruct (status_and_assignee_in_one_patch Samples.labels Samples.reliable "L1"
              "contacted" "u2" Samples.world Samples.L1
              eq_refl eq_refl eq_refl eq_refl eq_refl eq_refl H1 eq_refl H2) as [_ Hn].
  cbv zeta in Hn. change (length (Orders.notifications Samples.world)) with 0 in Hn.
  rewrite drop_0 in Hn. rewrite Hn. reflexivity.
Defined.

(** * Further properties of lib/orders: creation, notes, reads and deletion *)

(** X11. Reading an order back after creating it returns the inserted row
    under the identifier the store generated, joined with the team of the
    same identifier and name as in the answer of [createOrder]; [getOrder]
    returns in addition the members of that team, which the select list of
    [createOrder] does not ask for. *)
Theorem createOrder_then_getOrder
    (be : Orders.Backend) (order : Orders.NewOrder) (w : Orders.World) :
  Orders.insert_error be = None ->
  Orders.select_error be = None ->
  Orders.orders w !! Orders.generated_id be = None ->
  let r := Orders.createOrder be order w in
  exists created read,
    r.1 = Returned (success created) /\
    (Orders.getOrder be (Orders.generated_id be) r.2).1 = Returned (success read) /\
    Orders.row created = Orders.to_row (Orders.generated_id be) order /\
    Orders.row (Orders.relations read) = Orders.row created /\
    Orders.assigned_team (Orders.relations read) = Orders.assigned_team created /\
    Orders.members read =
      Orders.team_members <$>
        (Orders.n_assigned_to_team_id order ≫= λ t, Orders.teams w !! t).
Proof.
  intros Hins Hsel Hfresh.
  destruct (OrdersFurther.createOrder_stored be order w Hins Hfresh) as (Hr & Ho & Ht).
  cbv zeta in *. eexists _, _. split; [exact Hr|].
  rewrite (OrdersFurther.getOrder_found be (Orders.generated_id be) _
             (Orders.to_row (Orders.generated_id be) order) Hsel)
    by (rewrite Ho; apply lookup_insert_eq).
  split; [reflexivity|]. split; [reflexivity|]. split; [reflexivity|].
  unfold Orders.with_details, Orders.with_relations. simpl.
  split; by rewrite Ht.
Qed.

Lemma createOrder_then_getOrder_witness :
  let order := Orders.mkNewOrder "org" "Altanbygge" "new" None None (Some "t1") in
  (Orders.getOrder Samples.reliable "o2" (Orders.createOrder Samples.reliable order Samples.world).2).1
  = Returned (success (Orders.mkOrderDetails
                         (Orders.mkOrderWithRelations
                            (Orders.mkOrder "o2" "org" "Altanbygge" "new" None None (Some "t1"))
                            (Some (Orders.mkTeamSummary "t1" "Takteam")))
                         (Some ["u1"; "u2"]))).
Proof.
  destruct (createOrder_then_getOrder Samples.reliable
              (Orders.mkNewOrder "org" "Altanbygge" "new" None None (Some "t1"))
              Samples.world eq_refl eq_refl eq_refl)
    as (created & read & Hc & Hg & Hrow & Hrel & Hteam & Hm).
  cbv zeta. etransitivity; [exact Hg|]. do 2 f_equal.
  vm_compute in Hc. injection Hc as <-.
  destruct read as [[o t] m]. simpl in *. subst o t m. reflexivity.
Defined.

(** X12. When the store turns the insert down, or the generated identifier
    is taken, [createOrder] returns an error and changes nothing: no order,
    no activity, no journal entry. *)
Theorem refused_createOrder_changes_nothing
    (be : Orders.Backend) (order : Orders.NewOrder) (w : Orders.World) :
  is_Some (Orders.insert_error be) \/ is_Some (Orders.orders w !! Orders.generated_id be) ->
  exists e, Orders.createOrder be order w = (Returned (failure e), w).
Proof. apply OrdersFurther.createOrder_refused. Qed.

Lemma refused_createOrder_changes_nothing_witness :
  exists e,
    Orders.createOrder
      (Orders.mkBackend None None None None None "L1" Orders.Delivered)
      (Orders.mkNewOrder "org" "Altanbygge" "new" None None None) Samples.world
    = (Returned (failure e), Samples.world).
Proof.
  refine (refused_createOrder_changes_nothing
            (Orders.mkBackend None None None None None "L1" Orders.Delivered)
            (Orders.mkNewOrder "org" "Altanbygge" "new" None None None) Samples.world
            (or_intror (ex_intro _ Samples.L1 _))).
  reflexivity.
Defined.

(** X13. [createOrderNote] stores the note and appends exactly one activity
    of kind note_added, for the order of the note and by its author; the
    orders are not touched. When the store turns the note down, the error is
    returned and nothing is stored or logged. *)
Theorem createOrderNote_stores_and_logs
    (accepting rejecting : Orders.Backend) (note : Orders.OrderNote)
    (w : Orders.World) (e : Error) :
  Orders.note_error accepting = None ->
  Orders.activity_error accepting = None ->
  Orders.note_error rejecting = Some e ->
  (let r := Orders.createOrderNote accepting note w in
   r.1 = Returned (success note) /\
   Orders.order_notes r.2 = Orders.order_notes w ++ [note] /\
   Orders.order_activities r.2 =
     Orders.order_activities w ++
     [Orders.mkOrderActivity (Orders.note_order_id note) (Some (Orders.note_user_id note))
        "note_added" "Anteckning tillagd" None None] /\
   Orders.orders r.2 = Orders.orders w) /\
  Orders.createOrderNote rejecting note w = (Returned (failure (new_Error e)), w).
Proof.
  intros Hnote Hact Hrej. split.
  - by apply OrdersFurther.createOrderNote_logged.
  - by apply OrdersFurther.createOrderNote_refused.
Qed.

Lemma createOrderNote_stores_and_logs_witness :
  Orders.order_notes (Orders.createOrderNote Samples.reliable Samples.remark Samples.world).2
  = [Samples.remark] /\
  Orders.createOrderNote Samples.notes_rejected Samples.remark Samples.world
  = (Returned (failure (mkError "permission denied")), Samples.world).
Proof.
  destruct (createOrderNote_stores_and_logs Samples.reliable Samples.notes_rejected
              Samples.remark Samples.world (mkError "permission denied")
              eq_refl eq_refl eq_refl) as [(_ & Hn & _) Hr].
  split; [exact Hn | exact Hr].
Defined.

(** X14. [getOrderActivities] changes nothing and returns exactly the
    activities of the order asked for. After a transition that changed the
    status it returns the status_changed activity of that transition first,
    followed by what it returned before. *)
Theorem getOrderActivities_lists_the_order
    (labels : gmap string string) (be : Orders.Backend) (orderId s : string)
    (w : Orders.World) (o : Orders.Order) :
  Orders.select_error be = None ->
  Orders.update_error be = None ->
  Orders.activity_error be = None ->
  Orders.orders w !! orderId = Some o ->
  truthy s = true ->
  s <> Orders.status o ->
  exists before,
    Orders.getOrderActivities be orderId w = (Returned (success before), w) /\
    (forall a, a ∈ before <->
               a ∈ Orders.order_activities w /\ Orders.order_id a = orderId) /\
    (Orders.getOrderActivities be orderId
       (Orders.updateOrder labels be orderId (Orders.status_patch s) w).2).1
    = Returned (success (Orders.status_activity labels orderId o s :: before)).
Proof.
  intros Hsel Hupd Hact Hrow Ht Hne.
  eexists. split; [by apply OrdersFurther.getOrderActivities_eq|]. split.
  - intros a. rewrite list_elem_of_In, <- in_rev, <- list_elem_of_In, list_elem_of_filter.
    tauto.
  - rewrite OrdersFurther.getOrderActivities_eq by done. simpl.
    destruct (OrdersFacts.transition_logged labels be orderId s w o
                Hsel Hupd Hact Hrow Ht Hne) as (_ & Ha & _).
    cbv zeta in Ha. rewrite Ha, filter_app, rev_app_distr.
    rewrite filter_cons_True by done. reflexivity.
Qed.

Lemma getOrderActivities_lists_the_order_witness :
  (Orders.getOrderActivities Samples.reliable "L1"
     (Orders.updateOrder Samples.labels Samples.reliable "L1"
        (Orders.status_patch "contacted") Samples.world).2).1
  = Returned (success [Orders.mkOrderActivity "L1" None "status_changed"
                         "Status ändrad från Ny till Kontaktad"
                         (Some "new") (Some "contacted")]).
Proof.
  assert (H1 : "contacted" <> Orders.status Samples.L1) by discriminate.
  destruct (getOrderActivities_lists_the_order Samples.labels Samples.reliable "L1"
              "contacted" Samples.world Samples.L1
              eq_refl eq_refl eq_refl eq_refl eq_refl H1) as (before & Hb & _ & Hafter).
  rewrite Hafter. injection Hb as <-. reflexivity.
Defined.



(** X16. After [deleteOrder] went through, the order is gone and stays
    gone: the other orders are as before, [getOrder] fails with the message
    of [.single()], and [updateOrder] fails likewise and does not bring the
    row back. Deleting an identifier that has no order reports no error. *)
Theorem deleted_order_is_gone
    (labels : gmap string string) (be : Orders.Backend) (orderId : string)
    (updates : Orders.OrderPatch) (w : Orders.World) :
  Orders.select_error be = None ->
  Orders.update_error be = None ->
  let r := Orders.deleteOrder None orderId w in
  r.1 = Returned None /\
  Orders.orders r.2 !! orderId = None /\
  (forall j, j <> orderId -> Orders.orders r.2 !! j = Orders.orders w !! j) /\
  Orders.getOrder be orderId r.2 = (Returned (failure no_rows), r.2) /\
  Orders.updateOrder labels be orderId updates r.2 = (Returned (failure no_rows), r.2).
Proof.
  intros Hsel Hupd. cbv zeta. rewrite OrdersFurther.deleteOrder_done. simpl.
  assert (Hgone : Orders.orders (Orders.set_orders (delete orderId) w) !! orderId = None)
    by apply lookup_delete_eq.
  split; [done|]. split; [exact Hgone|]. split.
  - intros j Hj. simpl. by apply lookup_delete_ne.
  - split.
    + rewrite (OrdersFurther.getOrder_missing _ _ _ Hgone). by rewrite Hsel.
    + rewrite (OrdersFurther.updateOrder_missing _ _ _ _ _ Hgone). by rewrite Hupd.
Qed.

Lemma deleted_order_is_gone_witness :
  let r := Orders.deleteOrder None "L1" Samples.world in
  Orders.orders r.2 !! "L2" = Some Samples.L2 /\
  (Orders.updateOrder Samples.labels Samples.reliable "L1"
     (Orders.status_patch "contacted") r.2).1 = Returned (failure no_rows).
Proof.
  destruct (deleted_order_is_gone Samples.labels Samples.reliable "L1"
              (Orders.status_patch "contacted") Samples.world eq_refl eq_refl)
    as (_ & _ & Hother & _ & Hupd).
  cbv zeta in *. split.
  - rewrite Hother by discriminate. reflexivity.
  - by rewrite Hupd.
Defined.

(** * Further properties of the kanban board *)

(** X17. Whatever happens on a drop, the dragged lead is released, the
    notes are untouched, and no lead but the dragged one changes in the
    store: none is added, none removed. *)
Theorem drop_touches_one_lead
    (be : LeadKanban.Backend) (newStatus : LeadKanban.LeadStatus)
    (st : LeadKanban.State) (db : LeadKanban.Db)
    (dragged : LeadKanban.LeadWithRelations) :
  LeadKanban.draggedLead st = Some dragged ->
  let r := LeadKanban.handleDrop be newStatus st db in
  LeadKanban.draggedLead r.1 = None /\
  LeadKanban.other_leads_kept (LeadKanban.id (LeadKanban.row dragged)) db r.2 /\
  LeadKanban.lead_notes r.2 = LeadKanban.lead_notes db.
Proof.
  intros Hd. cbv zeta. split; [apply LeadKanbanFurther.handleDrop_clears|].
  by apply LeadKanbanFurther.handleDrop_kept.
Qed.

Lemma drop_touches_one_lead_witness :
  LeadKanban.draggedLead
    (LeadKanban.handleDrop Samples.lead_backend LeadKanban.contacted
       Samples.board Samples.lead_db).1 = None.
Proof.
  exact (proj1 (drop_touches_one_lead Samples.lead_backend LeadKanban.contacted
                  Samples.board Samples.lead_db Samples.lead_L1 eq_refl)).
Defined.

(** X18. After a drop on another column that the store accepted, the page
    and the store agree: the stored lead has the new status and every lead
    with that identifier in the list of the page has it too; no error is
    shown. This holds whether or not the activity could be logged. *)
Theorem drop_keeps_page_and_store_in_step
    (be : LeadKanban.Backend) (newStatus : LeadKanban.LeadStatus)
    (st : LeadKanban.State) (db : LeadKanban.Db)
    (dragged : LeadKanban.LeadWithRelations) (l : LeadKanban.Lead) :
  LeadKanban.draggedLead st = Some dragged ->
  LeadKanban.status (LeadKanban.row dragged) <> newStatus ->
  LeadKanban.update_error be = None ->
  LeadKanban.lead_rows db !! LeadKanban.id (LeadKanban.row dragged) = Some l ->
  let r := LeadKanban.handleDrop be newStatus st db in
  LeadKanban.status <$> LeadKanban.lead_rows r.2 !! LeadKanban.id (LeadKanban.row dragged)
    = Some newStatus /\
  LeadKanban.shown_in_status (LeadKanban.id (LeadKanban.row dragged)) newStatus r.1 /\
  LeadKanban.toasts r.1 = LeadKanban.toasts st.
Proof. apply LeadKanbanFurther.handleDrop_synced. Qed.

Lemma drop_keeps_page_and_store_in_step_witness :
  LeadKanban.status <$>
    (LeadKanban.row <$>
       LeadKanban.leads
         (LeadKanban.handleDrop Samples.lead_backend LeadKanban.won
            Samples.board Samples.lead_db).1)
  = [LeadKanban.won] /\
  LeadKanban.status <$>
    LeadKanban.lead_rows
      (LeadKanban.handleDrop Samples.lead_backend LeadKanban.won
         Samples.board Samples.lead_db).2 !! "L1"
  = Some LeadKanban.won.
Proof.
  assert (H : LeadKanban.status (LeadKanban.row Samples.lead_L1) <> LeadKanban.won)
    by discriminate.
  split; [reflexivity|].
  exact (proj1 (drop_keeps_page_and_store_in_step Samples.lead_backend LeadKanban.won
                  Samples.board Samples.lead_db Samples.lead_L1
                  (LeadKanban.row Samples.lead_L1) eq_refl H eq_refl eq_refl)).
Defined.



(** X20. With nobody signed in, a drop still changes the status in the
    store and on the page, where every lead with that identifier shows the
    new status, but logs no activity. *)
Theorem drop_without_user_is_not_audited
    (be : LeadKanban.Backend) (newStatus : LeadKanban.LeadStatus)
    (st : LeadKanban.State) (db : LeadKanban.Db)
    (dragged : LeadKanban.LeadWithRelations) (l : LeadKanban.Lead) :
  LeadKanban.user st = None ->
  LeadKanban.draggedLead st = Some dragged ->
  LeadKanban.status (LeadKanban.row dragged) <> newStatus ->
  LeadKanban.update_error be = None ->
  LeadKanban.lead_rows db !! LeadKanban.id (LeadKanban.row dragged) = Some l ->
  let r := LeadKanban.handleDrop be newStatus st db in
  LeadKanban.status <$> LeadKanban.lead_rows r.2 !! LeadKanban.id (LeadKanban.row dragged)
    = Some newStatus /\
  LeadKanban.shown_in_status (LeadKanban.id (LeadKanban.row dragged)) newStatus r.1 /\
  length (LeadKanban.leads r.1) = length (LeadKanban.leads st) /\
  LeadKanban.lead_activities r.2 = LeadKanban.lead_activities db.
Proof.
  intros Hu Hd Hs Hupd Hrow. cbv zeta.
  destruct (LeadKanbanFurther.handleDrop_synced be newStatus st db dragged l
              Hd Hs Hupd Hrow) as (Hstored & Hshown & _).
  split; [exact Hstored|]. split; [exact Hshown|]. split.
  - by apply LeadKanbanFurther.handleDrop_shown_length.
  - by apply LeadKanbanFurther.handleDrop_unsigned.
Qed.

Lemma drop_without_user_is_not_audited_witness :
  let r := LeadKanban.handleDrop Samples.lead_backend LeadKanban.contacted
             Samples.board_unsigned Samples.lead_db in
  LeadKanban.status <$> LeadKanban.lead_rows r.2 !! "L1" = Some LeadKanban.contacted /\
  LeadKanban.status <$> (LeadKanban.row <$> LeadKanban.leads r.1) = [LeadKanban.contacted] /\
  LeadKanban.lead_activities r.2 = [].
Proof.
  assert (H : LeadKanban.status (LeadKanban.row Samples.lead_L1) <> LeadKanban.contacted)
    by discriminate.
  destruct (drop_without_user_is_not_audited Samples.lead_backend LeadKanban.contacted
              Samples.board_unsigned Samples.lead_db Samples.lead_L1
              (LeadKanban.row Samples.lead_L1) eq_refl eq_refl H eq_refl eq_refl)
    as (H1 & _ & _ & H4).
  split; [exact H1|]. split; [reflexivity|exact H4].
Defined.

(** X21. After an assignment the store accepted, the page and the store
    agree on the assignee: the stored lead and every lead with that
    identifier on the page carry the chosen user, or null for the empty
    choice; the status of the lead is not touched. *)
Theorem assignment_keeps_page_and_store_in_step
    (be : LeadKanban.Backend) (leadId newAssignedUserId : string)
    (st : LeadKanban.State) (db : LeadKanban.Db) (l : LeadKanban.Lead) :
  LeadKanban.update_error be = None ->
  LeadKanban.lead_rows db !! leadId = Some l ->
  let r := LeadKanban.handleAssignmentChange be leadId newAssignedUserId st db in
  LeadKanban.assigned_to_user_id <$> LeadKanban.lead_rows r.2 !! leadId
    = Some (or_null newAssignedUserId) /\
  LeadKanban.status <$> LeadKanban.lead_rows r.2 !! leadId = Some (LeadKanban.status l) /\
  LeadKanban.shown_assigned leadId (or_null newAssignedUserId) r.1.
Proof. apply LeadKanbanFurther.handleAssignmentChange_stored. Qed.

Lemma assignment_keeps_page_and_store_in_step_witness :
  LeadKanban.assigned_to_user_id <$>
    LeadKanban.lead_rows
      (LeadKanban.handleAssignmentChange Samples.lead_backend "L1" EmptyString
         Samples.board Samples.lead_db).2 !! "L1"
  = Some None.
Proof.
  exact (proj1 (assignment_keeps_page_and_store_in_step Samples.lead_backend "L1"
                  EmptyString Samples.board Samples.lead_db
                  (LeadKanban.row Samples.lead_L1) eq_refl eq_refl)).
Defined.

(** X22. An assignment is logged each time: with the store accepting the
    calls and a user signed in, every call appends exactly one activity of
    kind assignment_change, whoever the lead is assigned to before, so also
    when the chosen user is the one already assigned. The description names
    the member of the page's list with the chosen identifier, and reads
    Lead-tilldelning borttagen for the empty choice and for an identifier
    the list does not hold. *)
Theorem assignment_is_logged_each_time
    (be : LeadKanban.Backend) (leadId newAssignedUserId : string)
    (st : LeadKanban.State) (db : LeadKanban.Db) (l : LeadKanban.Lead)
    (u : LeadKanban.UserProfile) :
  LeadKanban.update_error be = None ->
  LeadKanban.activity_error be = None ->
  LeadKanban.lead_rows db !! leadId = Some l ->
  LeadKanban.user st = Some u ->
  let r := LeadKanban.handleAssignmentChange be leadId newAssignedUserId st db in
  LeadKanban.lead_activities r.2 =
    LeadKanban.lead_activities db ++
    [LeadKanban.mkLeadActivity leadId (Some (LeadKanban.profile_id u)) "assignment_change"
       match LeadKanban.find_member st newAssignedUserId with
       | Some m => "Lead tilldelad till " +:+ LeadKanban.full_name m
       | None => "Lead-tilldelning borttagen"
       end None None] /\
  (forall m, LeadKanban.find_member st newAssignedUserId = Some m ->
             LeadKanban.profile_id m = newAssignedUserId /\ In m (LeadKanban.teamMembers st)) /\
  (newAssignedUserId = EmptyString \/
   Forall (fun m => LeadKanban.profile_id m <> newAssignedUserId) (LeadKanban.teamMembers st) ->
   LeadKanban.find_member st newAssignedUserId = None).
Proof.
  intros Hupd Hact Hrow Hu. cbv zeta. split; [|split].
  - by apply (LeadKanbanFurther.handleAssignmentChange_logged _ _ _ _ _ l).
  - intros m Hm. unfold LeadKanban.find_member in Hm.
    destruct (truthy newAssignedUserId); [|done].
    apply List.find_some in Hm as [Hin Hid].
    by apply bool_decide_eq_true in Hid.
  - intros [-> | Hunknown]; [reflexivity|].
    by apply LeadKanbanFurther.find_member_unknown.
Qed.

Lemma assignment_is_logged_each_time_witness :
  LeadKanban.assigned_to_user_id <$> LeadKanban.lead_rows Samples.lead_db_assigned !! "L1"
    = Some (Some "u2") /\
  LeadKanban.lead_activities
    (LeadKanban.handleAssignmentChange Samples.lead_backend "L1" "u2"
       Samples.board Samples.lead_db_assigned).2
  = [LeadKanban.mkLeadActivity "L1" (Some "u1") "assignment_change"
       "Lead tilldelad till Bo" None None].
Proof.
  split; [reflexivity|].
  exact (proj1 (assignment_is_logged_each_time Samples.lead_backend "L1" "u2"
                  Samples.board Samples.lead_db_assigned
                  (LeadKanban.mkLead "L1" "Takbyte" LeadKanban.new (Some "u2"))
                  Samples.anna eq_refl eq_refl eq_refl eq_refl)).
Defined.

(** X23. Converting a lead that is not yet qualified logs the conversion and
    shows the lead as qualified on the page, in the list and in the open
    detail, without looking at what the store answered: when the store turns
    the update down, the stored lead keeps its status while the page shows
    qualified. *)
Theorem convert_to_quote_is_optimistic
    (be : LeadKanban.Backend) (st : LeadKanban.State) (db : LeadKanban.Db)
    (sel : LeadKanban.LeadWithRelations) (u : LeadKanban.UserProfile) (e : Error) :
  LeadKanban.selectedLead st = Some sel ->
  LeadKanban.user st = Some u ->
  LeadKanban.status (LeadKanban.row sel) <> LeadKanban.qualified ->
  LeadKanban.activity_error be = None ->
  LeadKanban.update_error be = Some e ->
  let r := LeadKanban.handleConvertToQuote be st db in
  LeadKanban.lead_activities r.2 =
    LeadKanban.lead_activities db ++
    [LeadKanban.mkLeadActivity (LeadKanban.id (LeadKanban.row sel))
       (Some (LeadKanban.profile_id u)) "converted_to_quote"
       "Lead konverterad till offert" None None] /\
  LeadKanban.shown_in_status (LeadKanban.id (LeadKanban.row sel)) LeadKanban.qualified r.1 /\
  LeadKanban.status <$> (LeadKanban.row <$> LeadKanban.selectedLead r.1)
    = Some LeadKanban.qualified /\
  LeadKanban.lead_rows r.2 = LeadKanban.lead_rows db.
Proof.
  intros Hsel Hu Hs Hact Hupd. cbv zeta.
  split; [by apply LeadKanbanFurther.handleConvertToQuote_logged|].
  destruct (LeadKanbanFurther.handleConvertToQuote_shown be st db sel u Hsel Hu Hs)
    as (H1 & H2 & H3).
  split; [exact H1|]. split; [exact H2|]. apply H3. by eexists.
Qed.

Lemma convert_to_quote_is_optimistic_witness :
  let r := LeadKanban.handleConvertToQuote Samples.lead_store_rejects
             Samples.board_open Samples.lead_db in
  LeadKanban.status <$> (LeadKanban.row <$> LeadKanban.selectedLead r.1)
    = Some LeadKanban.qualified /\
  LeadKanban.status <$> LeadKanban.lead_rows r.2 !! "L1" = Some LeadKanban.new.
Proof.
  assert (H : LeadKanban.status (LeadKanban.row Samples.lead_L1) <> LeadKanban.qualified)
    by discriminate.
  destruct (convert_to_quote_is_optimistic Samples.lead_store_rejects Samples.board_open
              Samples.lead_db Samples.lead_L1 Samples.anna (mkError "permission denied")
              eq_refl eq_refl H eq_refl eq_refl) as (_ & _ & H2 & H3).
  cbv zeta in *. split; [exact H2|]. rewrite H3. reflexivity.
Defined.

(** X24. A note of white space only is ignored: no call reaches the store,
    and the page, its draft included, stays as it is. *)
Theorem blank_note_is_ignored
    (be : LeadKanban.Backend) (st : LeadKanban.State) (db : LeadKanban.Db) :
  LeadKanban.blank (LeadKanban.newNote st) = true ->
  LeadKanban.handleAddNote be st db = (st, db).
Proof. apply LeadKanbanFurther.handleAddNote_blank. Qed.

Lemma blank_note_is_ignored_witness :
  LeadKanban.handleAddNote Samples.lead_backend
    (LeadKanban.setNewNote "   " Samples.board_open) Samples.lead_db
  = (LeadKanban.setNewNote "   " Samples.board_open, Samples.lead_db).
Proof.
  exact (blank_note_is_ignored Samples.lead_backend
           (LeadKanban.setNewNote "   " Samples.board_open) Samples.lead_db eq_refl).
Defined.

(** X25. A note with text, added by a signed-in user to the open lead with
    the store accepting the calls, is stored once, trimmed of the white
    space of ECMAScript at both ends, and is logged as one note_added
    activity; no lead changes and the draft is cleared. The page shows the
    new note: when the reload of the lead's details fails, in front of the
    notes the page had; otherwise among the notes of the lead in the store,
    which then are the notes of the page. *)
Theorem note_is_stored_trimmed
    (be : LeadKanban.Backend) (st : LeadKanban.State) (db : LeadKanban.Db)
    (sel : LeadKanban.LeadWithRelations) (u : LeadKanban.UserProfile) :
  LeadKanban.selectedLead st = Some sel ->
  LeadKanban.user st = Some u ->
  truthy (LeadKanban.trim (LeadKanban.newNote st)) = true ->
  LeadKanban.note_error be = None ->
  LeadKanban.activity_error be = None ->
  let r := LeadKanban.handleAddNote be st db in
  let n := LeadKanban.mkLeadNote (LeadKanban.id (LeadKanban.row sel))
             (LeadKanban.profile_id u) (LeadKanban.trim (LeadKanban.newNote st)) in
  LeadKanban.lead_notes r.2 = LeadKanban.lead_notes db ++ [n] /\
  LeadKanban.lead_activities r.2 =
    LeadKanban.lead_activities db ++
    [LeadKanban.mkLeadActivity (LeadKanban.id (LeadKanban.row sel))
       (Some (LeadKanban.profile_id u)) "note_added" "Anteckning tillagd" None None] /\
  LeadKanban.lead_rows r.2 = LeadKanban.lead_rows db /\
  LeadKanban.newNote r.1 = EmptyString /\
  In n (LeadKanban.leadNotes r.1) /\
  match LeadKanban.notes_read_error be with
  | Some _ => LeadKanban.leadNotes r.1 = n :: LeadKanban.leadNotes st
  | None =>
      forall x,
        In x (LeadKanban.leadNotes r.1) <->
        In x (LeadKanban.lead_notes r.2) /\
        LeadKanban.note_lead_id x = LeadKanban.id (LeadKanban.row sel)
  end.
Proof.
  intros Hsel Hu Ht Hnote Hact.
  destruct (LeadKanbanFurther.handleAddNote_saved be st db sel u Hsel Hu Ht Hnote Hact)
    as (H1 & H2 & H3 & H4 & H5 & _).
  cbv zeta in *. do 4 (split; [assumption|]).
  rewrite H5, H1. split; [by left|].
  destruct (LeadKanban.notes_read_error be); [done|].
  intros x. simpl. rewrite <- in_rev, List.filter_In, bool_decide_eq_true, in_app_iff.
  simpl. split.
  - intros [<- | [Hin Hid]]; [by split; [right; left|] | by split; [left|]].
  - intros [[Hin | [<- | []]] Hid]; [by right | by left].
Qed.

Lemma note_is_stored_trimmed_witness :
  LeadKanban.trim (String (Ascii.ascii_of_nat 194) (String (Ascii.ascii_of_nat 160) "Ring "))
    = "Ring" /\
  LeadKanban.lead_notes
    (LeadKanban.handleAddNote Samples.lead_backend Samples.board_open Samples.lead_db).2
  = [LeadKanban.mkLeadNote "L1" "u1" "Ring kunden"].
Proof.
  split; [reflexivity|].
  exact (proj1 (note_is_stored_trimmed Samples.lead_backend Samples.board_open
                  Samples.lead_db Samples.lead_L1 Samples.anna
                  eq_refl eq_refl eq_refl eq_refl eq_refl)).
Defined.

(** X26. When the store turns a note down, nothing is stored or logged, the
    draft stays in the input for another try, the notes of the page are
    unchanged, and one error toast with the message of the store is shown. *)
Theorem refused_note_keeps_the_draft
    (be : LeadKanban.Backend) (st : LeadKanban.State) (db : LeadKanban.Db)
    (sel : LeadKanban.LeadWithRelations) (u : LeadKanban.UserProfile) (e : Error) :
  LeadKanban.selectedLead st = Some sel ->
  LeadKanban.user st = Some u ->
  truthy (LeadKanban.trim (LeadKanban.newNote st)) = true ->
  LeadKanban.note_error be = Some e ->
  let r := LeadKanban.handleAddNote be st db in
  r.2 = db /\
  LeadKanban.newNote r.1 = LeadKanban.newNote st /\
  LeadKanban.leadNotes r.1 = LeadKanban.leadNotes st /\
  LeadKanban.toasts r.1 =
    LeadKanban.toasts st ++ [LeadKanban.ToastError "Anteckningsfel" (message e)].
Proof. apply LeadKanbanFurther.handleAddNote_refused. Qed.

Lemma refused_note_keeps_the_draft_witness :
  let r := LeadKanban.handleAddNote Samples.lead_notes_rejected Samples.board_open
             Samples.lead_db in
  r.2 = Samples.lead_db /\
  LeadKanban.newNote r.1 = "  Ring kunden " /\
  LeadKanban.leadNotes r.1 = [] /\
  LeadKanban.toasts r.1 = [LeadKanban.ToastError "Anteckningsfel" "permission denied"].
Proof.
  exact (refused_note_keeps_the_draft Samples.lead_notes_rejected Samples.board_open
           Samples.lead_db Samples.lead_L1 Samples.anna (mkError "permission denied")
           eq_refl eq_refl eq_refl eq_refl).
Defined.

(** X27. Every activity the board writes, whatever the action and whatever
    the store answers, is rendered with an icon of its own: never with the
    fallback clock, and with an icon [getActivityIcon] gives to no other
    kind. *)
Theorem board_activities_have_their_own_icon
    (be : LeadKanban.Backend) (a : LeadKanban.Action)
    (st : LeadKanban.State) (db : LeadKanban.Db) :
  LeadKanban.appends
    (fun kind =>
       LeadKanban.getActivityIcon kind <> LeadKanban.ClockIcon /\
       forall other,
         LeadKanban.getActivityIcon other = LeadKanban.getActivityIcon kind ->
         other = kind)
    db (LeadKanban.dispatch be a st db).2.
Proof.
  destruct (LeadKanbanFacts.dispatch_kinds be a st db) as (added & Heq & Hkinds).
  exists added. split; [exact Heq|].
  eapply Forall_impl; [exact Hkinds|]. simpl. intros x Hx. split.
  - intros Hclock. by apply LeadKanbanFurther.getActivityIcon_fallback in Hclock.
  - intros other Hother. symmetry.
    by apply LeadKanbanFurther.getActivityIcon_injective.
Qed.

(** X28. The columns of the board show the filtered leads, each lead once:
    the leads of the five columns together are a permutation of the filtered
    leads, and every lead is in the column of its own status. *)
Theorem columns_show_each_lead_once (ls : list LeadKanban.LeadWithRelations) :
  Permutation (LeadKanban.shown_leads (LeadKanban.organizedColumns ls)) ls /\
  Forall (fun c =>
            Forall (fun l : LeadKanban.LeadWithRelations =>
                      LeadKanban.status (LeadKanban.row l) = LeadKanban.column_id c)
              (LeadKanban.column_leads c))
    (LeadKanban.organizedColumns ls).
Proof.
  split.
  - apply LeadKanbanFurther.columns_partition.
  - apply LeadKanbanFurther.columns_by_status.
Qed.

(** X29. [getDaysAgo] counts started days in either direction: the count is
    the least number of whole days that covers the distance between the date
    and now, so it is 0 only at the very instant, and a date as far in the
    future gives the same count as one in the past. *)
Theorem getDaysAgo_rounds_up (date now : Z) :
  ((LeadKanban.getDaysAgo date now - 1) * LeadKanban.day_ms < Z.abs (now - date)
     <= LeadKanban.getDaysAgo date now * LeadKanban.day_ms)%Z /\
  (0 <= LeadKanban.getDaysAgo date now)%Z /\
  LeadKanban.getDaysAgo now date = LeadKanban.getDaysAgo date now.
Proof.
  pose proof (LeadKanbanFurther.getDaysAgo_bounds date now) as Hb.
  split; [exact Hb|]. split.
  - unfold LeadKanban.day_ms in Hb. nia.
  - unfold LeadKanban.getDaysAgo. cbv zeta.
    by replace (Z.abs (date - now)) with (Z.abs (now - date)) by lia.
Qed.

(** * Further properties of the schedule page *)

(** X30. The schedule page follows the session table. From a page whose
    load succeeded, over a table with distinct keys and at most one open
    session per worker, and through any presses of the start buttons the
    page offers, of the stop button and any reloads, failing ones included,
    the page holds the open session of its worker exactly when the table has
    one, no worker gets a second open session, and a start button is offered
    exactly when the worker has no open session. A reload that fails leaves
    the active time log of the page as it was. The session manager of
    lib/timeLogs is modelled from the spec, and the calls are taken one at a
    time. *)
Theorem page_follows_the_session_table
    (actions : list WorkerSchedule.PageAction) (st : WorkerSchedule.State)
    (logs : list WorkerSchedule.TimeLog) :
  NoDup (map WorkerSchedule.id logs) ->
  WorkerSchedule.at_most_one_active logs ->
  let p := WorkerSchedule.page_run actions
             (WorkerSchedule.loadScheduleData None None st logs, logs) in
  WorkerSchedule.activeTimeLog p.1
    = WorkerSchedule.getActiveTimeLog (WorkerSchedule.user p.1) p.2 /\
  WorkerSchedule.at_most_one_active p.2 /\
  forall relatedOrderId,
    WorkerSchedule.control p.1 relatedOrderId = WorkerSchedule.StartButton <->
    WorkerSchedule.getActiveTimeLog (WorkerSchedule.user p.1) p.2 = None.
Proof.
  intros Hnd Hone. cbv zeta.
  pose proof (WorkerScheduleFurther.page_run_in_sync actions _
                (WorkerScheduleFurther.loaded_in_sync st logs Hnd Hone))
    as (Hsync & _ & Hone').
  split; [exact Hsync|]. split; [exact Hone'|].
  intros relatedOrderId. rewrite <- Hsync. apply WorkerScheduleFacts.control_start.
Qed.

Lemma page_follows_the_session_table_witness :
  let p := WorkerSchedule.page_run
             [WorkerSchedule.PressStart "O1" None None Samples.mild 100 "s1";
              WorkerSchedule.LoadSchedule None (Some (mkError "fetch failed"));
              WorkerSchedule.PressStart "O2" None None Samples.mild 200 "s2";
              WorkerSchedule.PressStop 300;
              WorkerSchedule.PressStart "O2" None None Samples.mild 400 "s2"]
             (WorkerSchedule.loadScheduleData None None Samples.page [], []) in
  WorkerSchedule.activeTimeLog p.1
    = WorkerSchedule.getActiveTimeLog (WorkerSchedule.user p.1) p.2.
Proof.
  refine (proj1 (page_follows_the_session_table _ Samples.page [] _ _)).
  - constructor.
  - intros workerId. simpl. lia.
Defined.
